(* ===== verification/_CoqProject ===== *)
-Q . S2P
Prelude.v
PyDatetime.v
Calendar.v
Series.v
Frame.v
Chart.v
StrFormat.v
Text.v
Markdown.v
Html.v
Markup.v
Css.v
Page.v
Render.v
