(* ===== verification/Prelude.v ===== *)
(** * Aquanexus dashboard: a verification development of [src/dashboard.py]

    ** The program

    [src/dashboard.py] is a Streamlit script.  One run of the script is one
    render of the page, and it is a straight-line sequence of calls:

    - [st.set_page_config] (lines 8-11) and a [<style>] sheet injected with
      [st.markdown(..., unsafe_allow_html=True)] (lines 16-256);
    - one read of the wall clock, [now = datetime.now()] (line 261), and six
      time points [now - timedelta(hours=h)] for [h] in [20,16,12,8,4,0]
      (line 262);
    - two constant score lists (lines 264-265) and two pandas data frames
      [pd.DataFrame({"Time": ..., "Health": ...}).set_index("Time")]
      (lines 267-268);
    - four markdown blocks of literal HTML: the top bar, the hero with the
      three summary cards, the five sensor cards (lines 273-395);
    - [st.columns(2)] and two [with] blocks, each writing a header built
      with [str.format] and [now.strftime("%I:%M:%S %p")], a
      [st.line_chart] of one data frame and a closing ["</div>"] markdown
      (lines 400-456).

    The parts interact only through values: the clock value flows into the
    time points, the data frames, the charts and the two "Last checked"
    headers; every markdown body flows through Streamlit's text cleaning
    ([textwrap.dedent] and [str.strip]) and the CommonMark block parser of
    the front end.  The Streamlit runtime keeps one piece of state that the
    script drives: the page tree and the stack of active containers that the
    [with] statements push and pop.

    ** Layout (files in dependency order, as _CoqProject lists them)

    - [Prelude.v] (this file): the [result] type of Python exceptions with
      stdpp's monad classes, the [outcome] type ([None] for a case outside
      the modelled fragment), the [aqua_scope] notations ([r ⇓ a] returns,
      [r ↯ e] raises), the [aqua] hint databases and tactics, and generic
      lemmas on results, strings and bounded exhaustive checks.
    - [PyDatetime.v], Modules [PyDatetime] / [PyDatetimeFacts]: CPython's
      [timedelta] constructor ([microseconds_to_delta_ex] with its
      [OverflowError]), [datetime] (date as its proleptic ordinal),
      [add_datetime_timedelta] with [normalize_pair] and the range check,
      and [strftime] ([wrap_strftime] then the C library's [%I %M %S %p]).
    - [Calendar.v], [Calendar] / [CalendarFacts]: the same arithmetic on
      the fields CPython really stores (year, month, day, time): the
      calendar code [ymd_to_ord], [ord_to_ymd], [days_before_year],
      [days_in_month], and [add_datetime_timedelta] ending in
      [normalize_y_m_d] with its one-day shortcuts; [CalendarFacts] proves
      that this stored-field model and the ordinal model agree, so the
      theorems on [PyDatetime] hold of CPython's code.
    - [Series.v], [Series] / [SeriesFacts]: lines 261-265, the list
      comprehension of line 262 as [mapM] in the result monad, on the
      ordinal model ([time_points]) and on the stored fields
      ([time_points_cdt]).
    - [Frame.v], [Frame] / [FrameFacts]: lines 267-268, the dict literal,
      [pd.DataFrame]'s dict-of-lists path ([_extract_index]) and
      [set_index(drop=True)].
    - [Chart.v], [Chart] / [ChartFacts]: [st.line_chart] (lines 427, 455):
      Streamlit's [_maybe_reset_index_in_place] and [_maybe_melt], and the
      polyline the browser draws (a stable sort by x, Section [SortFacts]).
    - [StrFormat.v], [StrFormat] / [StrFormatFacts]: [str.format] of lines
      403-423 and 431-451, CPython's [MarkupIterator] as a state machine
      ([scan_mode]), [parse_field], [field_name_split] and
      [get_field_object].
    - [Text.v], [Text] / [TextFacts]: Streamlit's [clean_text], i.e.
      [textwrap.dedent] followed by [str.strip]; [TextFacts.add_margin]
      prefixes a margin to the non-blank lines, to state what [dedent]
      removes.
    - [Markdown.v], [Markdown]: the CommonMark 0.31 block parser for the
      constructs the bodies use (HTML blocks of kinds 1-7, indented code
      blocks, paragraphs) as a step function over an explicit parser state.
    - [Html.v], [Html] / [HtmlFacts]: how the browser parses the raw HTML
      of one markdown element: the HTML the blocks become
      ([render_block]), the tokenizer as a state machine with the class
      attribute of each start tag, and the stack of open elements of the
      tree construction ([outline]).
    - [Markup.v], [Markup]: the literal bodies of the six markdown calls,
      character for character.
    - [Css.v], [Css] / [CssFacts]: the [<style>] sheet read as CSS rules
      (comments skipped) and the class names of their selectors.
    - [Page.v], [Page] / [PageFacts]: the Streamlit runtime state (page
      config flag, page tree, stack of active containers, Record [app]),
      each script call as an operation on it ([set_page_config],
      [markdown], [line_chart_el], [columns], [enter], [exit]),
      [run_script] as the whole script in source order, and the step
      relation [reachable] of the runtime.
    - [Render.v], [Render]: the page as the browser builds it: the health
      headers for every clock value ([TextFacts.clean_text_insert_eq] and
      [MarkdownFacts.md_blocks_insert] show that cleaning and block
      parsing leave the inserted clock text alone), the panels, the
      classes of all rendered elements against the style sheet, and the
      buttons.

    ** Theorems

    - Clock and time points (C1-C7): line 262 returns the six datetimes
      [now - 20h .. now] (C1), raises [OverflowError] exactly in the first
      twenty hours of the range (C2), and gives a valid strictly increasing
      axis with a four-hour step ending at [now] (C3); the clock text
      decodes back to the time of day (C4) and is eleven characters wide
      (C5); CPython's field-wise [datetime - timedelta] refines microsecond
      arithmetic (C6) and [timedelta]'s normal form denotes its count (C7).
    - Frames (C8-C12): the constructor's [ValueError] exactly on ragged
      columns (C8); [set_index] succeeds exactly on a frame with the key
      column, which becomes the named index while the other columns stay
      in order (C9), and raises [KeyError] otherwise (C10); the rows of
      both frames (C11, C12).
    - Text and markup (C13, C14): [textwrap.dedent] ignores a blank margin
      added to every non-blank line (C13); the HTML of a code block gives
      the browser no element but [<pre><code>], whatever its text (C14).
    - The fish chart draws its six points in order (C15).
    - [str.format] (C16-C18): escaping round trip, substitution of a plain
      keyword field, [KeyError] on a missing keyword.
    - Runtime and page (C19-C23): every reachable runtime state keeps its
      container stack valid (C19, rule induction on [reachable]) and never
      loses an element (C20); a run succeeds with the expected page tree
      (C21) or stops with [OverflowError] (C22); both headers show the same
      clock text (C23).
    - Block structure (C24): an HTML block of kind 6 or 7 ends at a blank
      line and a line indented by four columns after it opens a code
      block, the CommonMark rule behind the first finding.
    - Calendar (C25-C27, C29, C30): [normalize_y_m_d] moves a valid date
      by any number of days or raises [OverflowError] (C25); CPython's
      [datetime + timedelta] on year, month and day is the ordinal model
      seen through [ord_to_ymd], errors included (C26, a refinement);
      [days_before_year] counts the leap years of [is_leap] (C27); line
      262 on the stored fields gives the stored form of the ordinal
      model's points (C29), so C1-C3 describe CPython's values;
      [ord_to_ymd] and [ymd_to_ord] are inverse bijections between the
      ordinals [1 .. 3652059] and the valid dates of years [1 .. 9999]
      (C30).
    - [str.strip] removes exactly the surrounding whitespace (C28).
    - Browser and types (C31-C34): each health panel is closed before its
      chart (C31); datetime arithmetic and the frame constructor only
      return well-formed values (C32, C33); [clean_text] leaves a fragment
      inserted mid-line alone (C34), which carries C31 to every clock
      value.
    - The rendered page (C35-C38): each header is one HTML block for every
      clock (C35); every class on a rendered element has a style rule
      (C36); exactly thirteen classes of the sheet match nothing (C37);
      the page has six inert [<button>] elements (C38).

    Several claims are corollaries of a shared lemma ([time_points_eq],
    [health_frame_ok], [dt_sub_eq], [days_before_year_succ], ...) that the
    other proofs use, so that no proof depends on a claim.

    ** Findings

    After [textwrap.dedent], the line [<div class="summary-row">] of the
    hero (line 306) and [<div class="sensor-grid">] of the sensor panel
    (line 341) follow a blank line and keep four columns of indentation:
    CommonMark ends the HTML block at the blank line and starts an
    indented code block there (C24), so the three summary cards and the
    five sensor cards are shown as literal code instead of HTML, and no
    element of the page carries their classes (C14, C37).

    Each health header (lines 403-425, 431-453) opens
    [<div class="panel">] and leaves it open; the code closes it with a
    separate [st.markdown("</div>")] after the chart (lines 428, 456).
    Every element's HTML is parsed as its own fragment, so the panel is
    closed at the end of the header, the chart is outside it, and the lone
    [</div>] is ignored (C31).

    Because of the first finding, the twelve rules of the sheet for the
    summary and sensor cards ([.summary-row] ... [.sensor-bar], lines
    103-194) never apply to an element of the page (C37).

    ** Bounds and fuel

    Integers are [Z] (Python integers are unbounded); the datetime range is
    CPython's [MINYEAR..MAXYEAR], i.e. ordinals [1..3652059], and timedelta
    days are bounded by [999999999], both with their [OverflowError].
    [Markdown.open_tag_rest] takes one more than the length of the rest of
    the line as fuel: each attribute it reads consumes at least one
    character, so the fuel is never the reason it answers [None].
    Exhaustive checks over a bounded range ([forall_below],
    [forall_range]) are used on finite domains (two-digit numbers, hours of
    a day) and on one 400-year cycle of the Gregorian calendar (the
    146097 ordinals of years 1-400): [CalendarFacts] proves that
    [ord_to_ymd], [ymd_to_ord], [days_before_year] and [days_in_month]
    commute with a shift of 400 years, which carries the check to every
    ordinal; the other direction follows, without computation, from
    [ymd_to_ord] being injective on valid dates.  The model is a
    function of [now]; [datetime.now()] itself is the input.

    ** Not modelled, and extensions

    Visual styling (the CSS declarations are carried as text only), the
    Streamlit server and browser event loop, inline markdown and HTML
    rendering, Altair encodings, pandas dtype inference beyond the two
    column kinds the script builds, and locale-dependent [%p] (the C
    locale's ["AM"]/["PM"] is modelled).  The HTML parse keeps tags only
    (no text nodes, attributes or comment syntax) and ignores scope boundaries, which the
    script's bodies do not exercise.  CSS declarations (colours, sizes,
    layout) are not interpreted: only which rules exist and which classes
    they select.  The order in which the browser joins a chart's points
    (Vega-Lite's x order for a line mark) is stood for by a stable sort
    by x ([Chart.sort_by_key]); it translates no code.  The buttons are
    modelled as the browser builds them (C38); they have no handler, so no behaviour of theirs is left out. *)

From stdpp Require Export base list strings sorting sets.
From Stdlib Require Export ZArith Lia Sorted DecimalString Ascii.

Open Scope string_scope.
(** Strings are appended with stdpp's [+:+]; [++] stays list append. *)
Open Scope list_scope.

Declare Scope aqua_scope.
Delimit Scope aqua_scope with aqua.
Open Scope aqua_scope.

(** ** Python exceptions and the result of a fallible call *)

(** The exceptions raised on the modelled paths, with CPython's messages
    where the message is fixed. *)
Inductive py_exc : Type :=
  | ValueError (msg : string)
  | KeyError (key : string)
  | IndexError (msg : string)
  | OverflowError (msg : string)
  | StreamlitAPIException (msg : string).

Inductive result (A : Type) : Type :=
  | Ok (a : A)
  | Raise (e : py_exc).
Arguments Ok {A} a.
Arguments Raise {A} e.

#[export] Instance result_ret : MRet result := λ A a, Ok a.
#[export] Instance result_bind : MBind result :=
  λ A B f m, match m with Ok a => f a | Raise e => Raise e end.
#[export] Instance result_fmap : FMap result :=
  λ A B f m, match m with Ok a => Ok (f a) | Raise e => Raise e end.

(** [r ⇓ a]: the call returns [a]; [r ↯ e]: the call raises [e]. *)
Notation "r ⇓ a" := (r = Ok a) (at level 70, no associativity) : aqua_scope.
Notation "r ↯ e" := (r = Raise e) (at level 70, no associativity) : aqua_scope.

Definition is_ok {A} (r : result A) : bool :=
  match r with Ok _ => true | Raise _ => false end.

Create HintDb aqua discriminated.
Create Rewrite HintDb aqua_rw.

Section ResultLemmas.
Context {A B : Type}.

Lemma bind_Ok (a : A) (f : A → result B) : (Ok a ≫= f) = f a.
Proof. reflexivity. Qed.

Lemma bind_Raise (e : py_exc) (f : A → result B) : (Raise e ≫= f) = Raise e.
Proof. reflexivity. Qed.

Lemma bind_Ok_inv (m : result A) (f : A → result B) (b : B) :
  (m ≫= f) ⇓ b → ∃ a, m ⇓ a ∧ f a ⇓ b.
Proof. destruct m; simpl; [eauto | discriminate]. Qed.

Lemma mret_Ok (a : A) : mret a = Ok a.
Proof. reflexivity. Qed.

(** [mapM] in [result] stops at the first exception and otherwise maps
    pointwise. *)
Lemma mapM_Ok_iff (f : A → result B) (l : list A) (l' : list B) :
  mapM f l ⇓ l' ↔ Forall2 (λ x y, f x ⇓ y) l l'.
Proof.
  revert l'; induction l as [|x l IH]; intros l'; simpl.
  - split; [intros [= <-]; constructor | intros H; inversion H; reflexivity].
  - split.
    + destruct (f x) as [y|e] eqn:Hf; simpl; [|discriminate].
      destruct (mapM f l) as [k|e] eqn:Hm; simpl; [|discriminate].
      intros [= <-]. constructor; [done | by apply IH].
    + intros H; inversion H as [|? y ? k Hy Hk]; subst.
      rewrite Hy; simpl. apply IH in Hk. rewrite Hk. reflexivity.
Qed.

Lemma mapM_map_Ok (g : A → B) (l : list A) :
  mapM (λ x, Ok (g x)) l ⇓ map g l.
Proof. induction l as [|x l IH]; simpl; [done | by rewrite IH]. Qed.

(** Two comprehensions whose bodies agree up to a map of the results
    agree up to the map of the list, exceptions included. *)
Lemma mapM_fmap {C} (f : A → result B) (g : A → result C) (h : B → C) (l : list A) :
  (∀ x, g x = h <$> f x) → mapM g l = map h <$> mapM f l.
Proof.
  intros Hg. induction l as [|x l IH]; simpl; [done|].
  rewrite Hg, IH. by destruct (f x), (mapM f l).
Qed.
End ResultLemmas.

#[export] Hint Rewrite @bind_Ok @bind_Raise @mret_Ok : aqua_rw.

(** ** Outcomes of a modelled run

    [None]: the run reaches an input outside the modelled fragment (or a
    state the runtime cannot reach); [Some r]: the run returns or raises as
    [r] says. *)
Definition outcome (A : Type) : Type := option (result A).

#[export] Instance outcome_ret : MRet outcome := λ A a, Some (Ok a).
#[export] Instance outcome_bind : MBind outcome :=
  λ A B f m, match m with Some (Ok a) => f a | Some (Raise e) => Some (Raise e) | None => None end.

(** A result seen as an outcome. *)
Definition lift {A} (r : result A) : outcome A := Some r.

Lemma outcome_bind_Ok {A B} (a : A) (f : A → outcome B) :
  (Some (Ok a) ≫= f : outcome B) = f a.
Proof. reflexivity. Qed.

Lemma lift_bind_Ok {A B} (a : A) (f : A → outcome B) : (lift (Ok a) ≫= f) = f a.
Proof. reflexivity. Qed.

#[export] Hint Rewrite @outcome_bind_Ok @lift_bind_Ok : aqua_rw.

(** ** Tactics *)

Ltac invc H := inversion H; subst; clear H.

(** Evaluate the result monad in the goal and the hypotheses. *)
Ltac result_simpl :=
  repeat (autorewrite with aqua_rw in *; simpl in *).

(** ** Bounded exhaustive checks *)

(** [forall_below n p] checks [p k] for every [k < n]; the check is run by
    [vm_compute] on closed instances. *)
Fixpoint forall_below (n : nat) (p : nat → bool) : bool :=
  match n with
  | 0 => true
  | S m => forall_below m p && p m
  end.

Lemma forall_below_spec (n : nat) (p : nat → bool) :
  forall_below n p = true → ∀ k, k < n → p k = true.
Proof.
  induction n as [|m IH]; simpl; intros H k Hk; [lia|].
  apply andb_prop in H as [H1 H2].
  destruct (decide (k = m)) as [->|Hne]; [done|]. apply IH; [done | lia].
Qed.

(** The same check over the integers [0 .. N-1]. *)
Lemma forall_below_Z (N : Z) (p : Z → bool) :
  forall_below (Z.to_nat N) (λ k, p (Z.of_nat k)) = true →
  ∀ n, (0 <= n < N)%Z → p n = true.
Proof.
  intros H n Hn. rewrite <- (Z2Nat.id n) by lia.
  apply (forall_below_spec _ _ H). lia.
Qed.

(** [forall_range n lo p] checks [p] on the [n] integers from [lo]; it
    counts in [Z], so that long ranges are checked in linear time. *)
Fixpoint forall_range (n : nat) (lo : Z) (p : Z → bool) : bool :=
  match n with
  | 0 => true
  | S n' => p lo && forall_range n' (lo + 1)%Z p
  end.

Lemma forall_range_spec (n : nat) (lo : Z) (p : Z → bool) :
  forall_range n lo p = true → ∀ x, (lo <= x < lo + Z.of_nat n)%Z → p x = true.
Proof.
  revert lo. induction n as [|n IH]; intros lo H x Hx; simpl in *; [lia|].
  apply andb_prop in H as [H1 H2].
  destruct (decide (x = lo)) as [->|Hne]; [done|]. apply (IH (lo + 1)%Z H2). lia.
Qed.

Lemma forall_below_from (lo N : Z) (p : Z → bool) :
  forall_range (Z.to_nat N) lo p = true → ∀ n, (lo <= n < lo + N)%Z → p n = true.
Proof.
  intros H n Hn. apply (forall_range_spec _ _ _ H).
  destruct (Z.le_gt_cases 0 N); [rewrite Z2Nat.id by done|]; lia.
Qed.

(** A property of the integers from [lo] on that holds on one period and
    is carried from [x] to [x + p] holds everywhere from [lo] on. *)
Lemma periodic_Z (p lo : Z) (P : Z → Prop) :
  (0 < p)%Z → (∀ x, lo <= x < lo + p → P x)%Z → (∀ x, lo <= x → P x → P (x + p))%Z →
  ∀ x, (lo <= x)%Z → P x.
Proof.
  intros Hp Hbase Hstep.
  assert (∀ n : nat, ∀ x, lo <= x < lo + p * Z.of_nat (S n) → P x)%Z as Hn.
  { induction n as [|n IH]; intros x Hx; [apply Hbase; lia|].
    destruct (Z.lt_ge_cases x (lo + p * Z.of_nat (S n))) as [Hlt|Hge]; [apply IH; lia|].
    replace x with ((x - p) + p)%Z by lia. apply Hstep; [lia|]. apply IH. lia. }
  intros x Hx. apply (Hn (Z.to_nat ((x - lo) / p))). split; [done|].
  pose proof (Z.mul_div_le (x - lo) p Hp). pose proof (Z.mod_pos_bound (x - lo) p Hp).
  pose proof (Z.div_mod (x - lo) p ltac:(lia)).
  rewrite Nat2Z.inj_succ, Z2Nat.id by (apply Z.div_pos; lia). lia.
Qed.

(** ** Lists *)

(** An invariant of a left fold: holds of the start and preserved by each
    step. *)
Lemma fold_left_invariant {A B} (f : A → B → A) (P : A → Prop) (l : list B) (a : A) :
  P a → (∀ x b, P x → P (f x b)) → P (fold_left f l a).
Proof. revert a. induction l as [|b l IH]; intros a Ha Hf; simpl; [done|]. apply IH; auto. Qed.

Lemma forallb_false_exists {A} (p : A → bool) (l : list A) :
  forallb p l = false → ∃ x, In x l ∧ p x = false.
Proof.
  induction l as [|x l IH]; simpl; [discriminate|].
  destruct (p x) eqn:Hx; simpl; [|eauto].
  intros H. destruct (IH H) as (y & Hy & Hp). eauto.
Qed.

(** ** Strings *)

(** stdpp declares [String.append] [simpl never]; these two equations are
    its computation rules, used by rewriting. *)
Lemma string_app_nil_l (s : string) : "" +:+ s = s.
Proof. reflexivity. Qed.

Lemma string_app_cons (c : Ascii.ascii) (s t : string) :
  String c s +:+ t = String c (s +:+ t).
Proof. reflexivity. Qed.

Lemma string_length_app (s t : string) :
  String.length (s +:+ t) = String.length s + String.length t.
Proof. induction s as [|c s IH]; [reflexivity | rewrite string_app_cons; simpl; lia]. Qed.

Lemma string_app_assoc (s t u : string) : (s +:+ t) +:+ u = s +:+ (t +:+ u).
Proof. induction s as [|c s IH]; [reflexivity | rewrite !string_app_cons, IH; reflexivity]. Qed.

Lemma string_app_nil_r (s : string) : s +:+ "" = s.
Proof. induction s as [|c s IH]; [reflexivity | rewrite string_app_cons, IH; reflexivity]. Qed.

Lemma list_ascii_of_string_app (s t : string) :
  String.list_ascii_of_string (s +:+ t) = String.list_ascii_of_string s ++ String.list_ascii_of_string t.
Proof. induction s as [|c s IH]; [reflexivity | rewrite string_app_cons; simpl; by rewrite IH]. Qed.

#[export] Hint Rewrite string_app_nil_l string_app_cons string_length_app string_app_nil_r
  list_ascii_of_string_app : aqua_rw.

(** ** Sorted lists with a fixed step *)

(** [stepped d l]: consecutive elements of [l] differ by exactly [d]. *)
Fixpoint stepped (d : Z) (l : list Z) : Prop :=
  match l with
  | x :: (y :: _) as tl => y = (x + d)%Z ∧ stepped d tl
  | _ => True
  end.

Lemma stepped_sorted (d : Z) (l : list Z) :
  (0 < d)%Z → stepped d l → StronglySorted Z.lt l.
Proof.
  intros Hd. induction l as [|x l IH]; intros Hs; [constructor|].
  constructor.
  - apply IH. destruct l; [done | apply Hs].
  - revert x Hs. clear IH. induction l as [|y l IH']; intros x Hs; [done|].
    destruct Hs as [-> Hs']. constructor; [lia|].
    eapply Forall_impl; [apply (IH' (x + d)%Z Hs') | simpl; lia].
Qed.

#[export] Hint Resolve stepped_sorted : aqua.

(** The double quote character, as a string. *)
Definition dq : string := String "034" "".

(** ** Decimal rendering of integers *)

(** Python's [str(n)] and C's ["%d"] on an integer: optional minus sign and
    the decimal digits without leading zeros. *)
Definition dec_Z (n : Z) : string := NilEmpty.string_of_int (Z.to_int n).

(** C's ["%0<w>d"]: the digits left-padded with zeros to width [w], the
    sign (if any) counting in the width and coming before the zeros. *)
Definition zero_pad (w : nat) (s : string) : string :=
  String.concat "" (replicate (w - String.length s) "0") +:+ s.

Definition fmt_0d (w : nat) (n : Z) : string :=
  if (n <? 0)%Z then "-" +:+ zero_pad (w - 1) (dec_Z (- n)) else zero_pad w (dec_Z n).
