(* ===== verification/PyDatetime.v ===== *)
(** * CPython's [datetime] and [timedelta] as the script uses them

    The script reads the clock once ([now = datetime.now()], line 261),
    subtracts [timedelta(hours=h)] six times (line 262) and formats the
    clock with [now.strftime("%I:%M:%S %p")] (lines 422 and 450).  This file
    translates the C implementation ([Modules/_datetimemodule.c]) of the
    operations on those lines:

    - [td_of_us]: [microseconds_to_delta_ex] with [new_delta]'s range check;
      [timedelta_hours] is [delta_new] with only [hours] given;
    - [add_datetime_timedelta]: the function of that name with
      [normalize_datetime]; [dt_sub] is [datetime_subtract] on a delta;
    - [strftime]: [wrap_strftime] (which handles [%f], [%z], [%Z] and
      refuses a trailing raw [%]) followed by the C library's [strftime]
      on the time-of-day conversions.

    The date part of a [datetime] is kept as its proleptic Gregorian
    ordinal ([date.toordinal()]), which is what [normalize_date] computes
    with; the time of day is kept in CPython's fields. *)

From S2P Require Import Prelude.

Module PyDatetime.

(** ** Constants of [_datetimemodule.c] *)

Definition US_PER_SECOND : Z := 1000000.
Definition SECONDS_PER_DAY : Z := 86400.
Definition MAX_DELTA_DAYS : Z := 999999999.
Definition MAXORDINAL : Z := 3652059.

(** ** timedelta *)

Record timedelta := mk_td {
  td_days : Z;
  td_seconds : Z;
  td_microseconds : Z
}.

(** The invariant [new_delta] establishes. *)
Definition td_wf (t : timedelta) : Prop :=
  (Z.abs (td_days t) <= MAX_DELTA_DAYS)%Z ∧
  (0 <= td_seconds t < SECONDS_PER_DAY)%Z ∧
  (0 <= td_microseconds t < US_PER_SECOND)%Z.

(** The duration a delta denotes, in microseconds. *)
Definition td_total (t : timedelta) : Z :=
  ((td_days t * SECONDS_PER_DAY + td_seconds t) * US_PER_SECOND + td_microseconds t)%Z.

(** [microseconds_to_delta_ex]: two floor [divmod]s, then [new_delta]'s
    range check on the days. *)
Definition td_of_us (us : Z) : result timedelta :=
  let s := (us / US_PER_SECOND)%Z in
  let u := (us mod US_PER_SECOND)%Z in
  let d := (s / SECONDS_PER_DAY)%Z in
  let s' := (s mod SECONDS_PER_DAY)%Z in
  if (Z.abs d <=? MAX_DELTA_DAYS)%Z then Ok (mk_td d s' u)
  else Raise (OverflowError ("days=" +:+ dec_Z d +:+ "; must have magnitude <= 999999999")).

(** [timedelta(hours=h)]: [delta_new] accumulates [h * us_per_hour]
    microseconds and normalises them. *)
Definition timedelta_hours (h : Z) : result timedelta :=
  td_of_us (h * 3600 * US_PER_SECOND)%Z.

(** ** datetime *)

Record datetime := mk_dt {
  dt_ord : Z;
  dt_hour : Z;
  dt_minute : Z;
  dt_second : Z;
  dt_microsecond : Z
}.

(** The range every constructor of [datetime] checks. *)
Definition dt_wf (d : datetime) : Prop :=
  (1 <= dt_ord d <= MAXORDINAL)%Z ∧
  (0 <= dt_hour d < 24)%Z ∧ (0 <= dt_minute d < 60)%Z ∧
  (0 <= dt_second d < 60)%Z ∧ (0 <= dt_microsecond d < US_PER_SECOND)%Z.

(** [normalize_pair]: carry [lo] into [hi] so that [0 <= lo < factor]
    ([divmod] rounds towards minus infinity). *)
Definition normalize_pair (hi lo factor : Z) : Z * Z :=
  ((hi + lo / factor)%Z, (lo mod factor)%Z).

(** [add_datetime_timedelta(date, delta, factor)] with
    [normalize_datetime]: add the delta's fields scaled by [factor], carry
    microseconds into seconds, seconds into minutes, minutes into hours,
    hours into days, and check that the resulting date is in range. *)
Definition add_datetime_timedelta (d : datetime) (t : timedelta) (factor : Z) : result datetime :=
  let day := (factor * td_days t)%Z in
  let second := (dt_second d + factor * td_seconds t)%Z in
  let microsecond := (dt_microsecond d + factor * td_microseconds t)%Z in
  let '(second, microsecond) := normalize_pair second microsecond US_PER_SECOND in
  let '(minute, second) := normalize_pair (dt_minute d) second 60 in
  let '(hour, minute) := normalize_pair (dt_hour d) minute 60 in
  let '(day, hour) := normalize_pair day hour 24 in
  let ord := (dt_ord d + day)%Z in
  if (1 <=? ord)%Z && (ord <=? MAXORDINAL)%Z
  then Ok (mk_dt ord hour minute second microsecond)
  else Raise (OverflowError "date value out of range").

(** [datetime - timedelta] ([datetime_subtract]). *)
Definition dt_sub (d : datetime) (t : timedelta) : result datetime :=
  add_datetime_timedelta d t (-1).

(** ** Abstract view: microseconds since 0001-01-01 00:00 *)

Definition MIN_US : Z := (60 * US_PER_SECOND)%Z.
Definition HOUR_US : Z := (60 * MIN_US)%Z.
Definition DAY_US : Z := (24 * HOUR_US)%Z.
Definition MAX_TOTAL : Z := (MAXORDINAL * DAY_US - 1)%Z.

Definition dt_total (d : datetime) : Z :=
  (((((dt_ord d - 1) * 24 + dt_hour d) * 60 + dt_minute d) * 60 + dt_second d)
    * US_PER_SECOND + dt_microsecond d)%Z.

(** The datetime at a microsecond count, by the same chain of [divmod]s. *)
Definition dt_of_total (T : Z) : datetime :=
  let s := (T / US_PER_SECOND)%Z in
  let m := (s / 60)%Z in
  let h := (m / 60)%Z in
  let dd := (h / 24)%Z in
  mk_dt (dd + 1) (h mod 24) (m mod 60) (s mod 60) (T mod US_PER_SECOND).

(** ** strftime *)

(** [%I]: the hour on the 12-hour clock, [12] for [0] and [12]. *)
Definition hour12 (h : Z) : Z := if (h mod 12 =? 0)%Z then 12%Z else (h mod 12)%Z.

(** [%p] in the C locale. *)
Definition ampm (h : Z) : string := if (11 <? h)%Z then "PM" else "AM".

(** [wrap_strftime]: substitute [%f], [%z] and [%Z] (a naive datetime has
    no offset and no zone name, so both are empty), keep every other
    [%]-pair for the C library, and refuse a format that ends in a raw
    [%]. *)
Fixpoint wrap_strftime (d : datetime) (fmt : string) : result string :=
  match fmt with
  | EmptyString => Ok ""
  | String "%"%char EmptyString => Raise (ValueError "strftime format ends with raw %")
  | String "%"%char (String c rest) =>
      r ← wrap_strftime d rest;
      if Ascii.eqb c "f"%char then Ok (fmt_0d 6 (dt_microsecond d) +:+ r)
      else if Ascii.eqb c "z"%char || Ascii.eqb c "Z"%char then Ok r
      else Ok (String "%"%char (String c r))
  | String c rest => r ← wrap_strftime d rest; Ok (String c r)
  end.

(** The C library's rendering of one conversion on the time-of-day fields;
    a conversion it does not know is copied as written.  (The date
    conversions are not modelled: the script uses none.) *)
Definition c_directive (d : datetime) (c : Ascii.ascii) : string :=
  if Ascii.eqb c "H"%char then fmt_0d 2 (dt_hour d)
  else if Ascii.eqb c "I"%char then fmt_0d 2 (hour12 (dt_hour d))
  else if Ascii.eqb c "M"%char then fmt_0d 2 (dt_minute d)
  else if Ascii.eqb c "S"%char then fmt_0d 2 (dt_second d)
  else if Ascii.eqb c "p"%char then ampm (dt_hour d)
  else if Ascii.eqb c "%"%char then "%"
  else String "%"%char (String c "").

Fixpoint c_strftime (d : datetime) (fmt : string) : string :=
  match fmt with
  | String "%"%char (String c rest) => c_directive d c +:+ c_strftime d rest
  | String c rest => String c (c_strftime d rest)
  | EmptyString => ""
  end.

Fixpoint has_nul (s : string) : bool :=
  match s with
  | EmptyString => false
  | String c rest => Ascii.eqb c "000"%char || has_nul rest
  end.

(** [datetime.strftime(fmt)]: [wrap_strftime], then [time.strftime], which
    refuses an embedded NUL, then the C library. *)
Definition strftime (d : datetime) (fmt : string) : result string :=
  f ← wrap_strftime d fmt;
  if has_nul f then Raise (ValueError "embedded null character")
  else Ok (c_strftime d f).

(** The format of lines 422 and 450. *)
Definition clock_format : string := "%I:%M:%S %p".

(** ** Reading the clock text back

    A decoder for the text [strftime] renders with [clock_format]; it
    accepts what [time.strptime(s, "%I:%M:%S %p")] accepts when every field
    has two digits, and is used to state that the rendering loses nothing
    of the time of day. *)

Definition digit_of (c : Ascii.ascii) : option Z :=
  let n := (Z.of_nat (Ascii.nat_of_ascii c) - 48)%Z in
  if (0 <=? n)%Z && (n <=? 9)%Z then Some n else None.

Definition decode_two (s : string) : option (Z * string) :=
  match s with
  | String a (String b rest) =>
      x ← digit_of a; y ← digit_of b; Some ((10 * x + y)%Z, rest)
  | _ => None
  end.

Definition expect (c : Ascii.ascii) (s : string) : option string :=
  match s with
  | String c' rest => if Ascii.eqb c c' then Some rest else None
  | EmptyString => None
  end.

(** [%I] and [%p] back to the 24-hour clock, as [_strptime] does. *)
Definition hour24_of (h12 : Z) (pm : bool) : Z :=
  if pm then (if (h12 =? 12)%Z then 12%Z else (h12 + 12)%Z)
  else (if (h12 =? 12)%Z then 0%Z else h12).

Definition decode_clock (s : string) : option (Z * Z * Z) :=
  '(h12, r) ← decode_two s; r ← expect ":" r;
  '(mi, r) ← decode_two r; r ← expect ":" r;
  '(se, r) ← decode_two r; r ← expect " " r;
  pm ← (match r with "AM" => Some false | "PM" => Some true | _ => None end);
  if (1 <=? h12)%Z && (h12 <=? 12)%Z && (mi <=? 59)%Z && (se <=? 59)%Z
  then Some (hour24_of h12 pm, mi, se) else None.

End PyDatetime.

(** ** Lemmas *)

Module PyDatetimeFacts.
Import PyDatetime.

(** The time-of-day fields are in range (the date is left free). *)
Definition tod_wf (d : datetime) : Prop :=
  (0 <= dt_hour d < 24)%Z ∧ (0 <= dt_minute d < 60)%Z ∧
  (0 <= dt_second d < 60)%Z ∧ (0 <= dt_microsecond d < US_PER_SECOND)%Z.

(** The facts about one floor [divmod] that [lia] needs, as hypotheses. *)
Ltac divmod_facts a b :=
  let H1 := fresh "Hdm" in let H2 := fresh "Hdm" in
  pose proof (Z.div_mod a b ltac:(unfold US_PER_SECOND, SECONDS_PER_DAY; lia)) as H1;
  pose proof (Z.mod_pos_bound a b ltac:(unfold US_PER_SECOND, SECONDS_PER_DAY; lia)) as H2.

Lemma dt_wf_tod (d : datetime) : dt_wf d → tod_wf d.
Proof. unfold dt_wf, tod_wf. tauto. Qed.

Lemma dt_total_inj (a b : datetime) :
  tod_wf a → tod_wf b → dt_total a = dt_total b → a = b.
Proof.
  destruct a as [oa ha ma sa ua], b as [ob hb mb sb ub].
  unfold tod_wf, dt_total, US_PER_SECOND; simpl. intros Ha Hb Heq.
  assert (ua = ub) as -> by lia. assert (sa = sb) as -> by lia.
  assert (ma = mb) as -> by lia. assert (ha = hb) as -> by lia.
  assert (oa = ob) as -> by lia. reflexivity.
Qed.

Lemma dt_of_total_tod (T : Z) : tod_wf (dt_of_total T).
Proof.
  unfold tod_wf, dt_of_total; simpl.
  repeat split; apply Z.mod_pos_bound; unfold US_PER_SECOND; lia.
Qed.

Lemma dt_total_of_total (T : Z) : dt_total (dt_of_total T) = T.
Proof.
  unfold dt_of_total, dt_total; simpl.
  divmod_facts T US_PER_SECOND. divmod_facts (T / US_PER_SECOND)%Z 60%Z.
  divmod_facts (T / US_PER_SECOND / 60)%Z 60%Z.
  divmod_facts (T / US_PER_SECOND / 60 / 60)%Z 24%Z.
  lia.
Qed.

(** A time of day in range places the date in range exactly when the
    microsecond count is in [0 .. MAX_TOTAL]. *)
Lemma dt_ord_range (d : datetime) :
  tod_wf d → (1 <= dt_ord d <= MAXORDINAL)%Z ↔ (0 <= dt_total d <= MAX_TOTAL)%Z.
Proof.
  destruct d; unfold tod_wf, dt_total, MAX_TOTAL, DAY_US, HOUR_US, MIN_US,
    US_PER_SECOND, MAXORDINAL; simpl. lia.
Qed.

Lemma dt_wf_of_total (T : Z) : (0 <= T <= MAX_TOTAL)%Z → dt_wf (dt_of_total T).
Proof.
  intros HT. pose proof (dt_of_total_tod T) as Ht.
  pose proof (proj2 (dt_ord_range _ Ht)) as Hr. rewrite dt_total_of_total in Hr.
  destruct Ht as (? & ? & ? & ?). unfold dt_wf. auto.
Qed.

Lemma dt_of_total_total (d : datetime) : tod_wf d → dt_of_total (dt_total d) = d.
Proof.
  intros H. apply dt_total_inj; [apply dt_of_total_tod | done | apply dt_total_of_total].
Qed.


(** [add_datetime_timedelta] computes, field by field, the datetime at
    microsecond count [dt_total d + factor * td_total t]. *)
Lemma add_datetime_timedelta_fields (d : datetime) (t : timedelta) (factor : Z) :
  let u := (dt_microsecond d + factor * td_microseconds t)%Z in
  let s := (dt_second d + factor * td_seconds t + u / US_PER_SECOND)%Z in
  let m := (dt_minute d + s / 60)%Z in
  let h := (dt_hour d + m / 60)%Z in
  let R := mk_dt (dt_ord d + (factor * td_days t + h / 24))%Z (h mod 24)
                 (m mod 60) (s mod 60) (u mod US_PER_SECOND) in
  R = dt_of_total (dt_total d + factor * td_total t)%Z.
Proof.
  intros u s m h R.
  apply dt_total_inj; [| apply dt_of_total_tod |].
  - unfold tod_wf, R; simpl. repeat split; apply Z.mod_pos_bound; unfold US_PER_SECOND; lia.
  - rewrite dt_total_of_total. unfold R, dt_total, td_total; simpl.
    divmod_facts u US_PER_SECOND. divmod_facts s 60%Z.
    divmod_facts m 60%Z. divmod_facts h 24%Z.
    unfold h, m, s, u in *. unfold US_PER_SECOND, SECONDS_PER_DAY in *. lia.
Qed.

(** The refinement of datetime arithmetic: [add_datetime_timedelta]
    returns the datetime at [dt_total d + factor * td_total t] when that
    count is in CPython's range, and raises [OverflowError] otherwise. *)
Lemma add_datetime_timedelta_spec (d : datetime) (t : timedelta) (factor : Z) :
  add_datetime_timedelta d t factor =
    let T := (dt_total d + factor * td_total t)%Z in
    if (0 <=? T)%Z && (T <=? MAX_TOTAL)%Z then Ok (dt_of_total T)
    else Raise (OverflowError "date value out of range").
Proof.
  pose proof (add_datetime_timedelta_fields d t factor) as HF. cbn zeta in HF |- *.
  unfold add_datetime_timedelta, normalize_pair. cbn zeta.
  set (T := (dt_total d + factor * td_total t)%Z) in *.
  rewrite HF. apply (f_equal dt_ord) in HF. cbn [dt_ord] in HF. rewrite HF.
  pose proof (dt_ord_range (dt_of_total T) (dt_of_total_tod T)) as Hr.
  rewrite dt_total_of_total in Hr.
  destruct Hr as [H1 H2].
  destruct (Z.leb_spec 1 (dt_ord (dt_of_total T))), (Z.leb_spec (dt_ord (dt_of_total T)) MAXORDINAL),
    (Z.leb_spec 0 T), (Z.leb_spec T MAX_TOTAL); simpl; try reflexivity; exfalso;
    first [specialize (H1 ltac:(lia)) | specialize (H2 ltac:(lia))]; lia.
Qed.

(** [dt_sub] against the microsecond count, for the lemmas below. *)
Lemma dt_sub_eq (d : datetime) (t : timedelta) :
  dt_sub d t =
    let T := (dt_total d - td_total t)%Z in
    if (0 <=? T)%Z && (T <=? MAX_TOTAL)%Z then Ok (dt_of_total T)
    else Raise (OverflowError "date value out of range").
Proof.
  unfold dt_sub. rewrite add_datetime_timedelta_spec.
  replace (dt_total d + -1 * td_total t)%Z with (dt_total d - td_total t)%Z by lia.
  reflexivity.
Qed.

(** C32: Whatever its operands, CPython's datetime arithmetic never
    returns an ill-formed datetime: a result it returns has its ordinal in
    [1 .. 3652059] and every time field in range. *)
Theorem add_datetime_timedelta_wf (d : datetime) (t : timedelta) (factor : Z) (d' : datetime) :
  add_datetime_timedelta d t factor ⇓ d' → dt_wf d'.
Proof.
  rewrite add_datetime_timedelta_spec. cbn zeta.
  destruct (Z.leb_spec 0 (dt_total d + factor * td_total t)),
    (Z.leb_spec (dt_total d + factor * td_total t) MAX_TOTAL); simpl; try discriminate.
  intros [= <-]. apply dt_wf_of_total. lia.
Qed.

Lemma add_datetime_timedelta_wf_witness :
  add_datetime_timedelta (mk_dt 739000 14 5 9 123) (mk_td 0 3600 0) (-1) ⇓ mk_dt 739000 13 5 9 123 ∧
  dt_wf (mk_dt 739000 13 5 9 123).
Proof.
  assert (add_datetime_timedelta (mk_dt 739000 14 5 9 123) (mk_td 0 3600 0) (-1) ⇓ mk_dt 739000 13 5 9 123)
    as H by (vm_compute; reflexivity).
  split; [exact H | exact (add_datetime_timedelta_wf _ _ _ _ H)].
Defined.

(** C6: [datetime - timedelta] as CPython computes it field by field
    ([add_datetime_timedelta] with factor [-1] and [normalize_datetime])
    refines subtraction of microsecond counts: it returns the datetime at
    [dt_total d - td_total t] when that instant is in [0001-01-01 00:00 ..
    9999-12-31 23:59:59.999999], and raises [OverflowError("date value out
    of range")] otherwise. *)
Theorem dt_sub_spec (d : datetime) (t : timedelta) :
  dt_sub d t =
    let T := (dt_total d - td_total t)%Z in
    if (0 <=? T)%Z && (T <=? MAX_TOTAL)%Z then Ok (dt_of_total T)
    else Raise (OverflowError "date value out of range").
Proof. intros. by apply dt_sub_eq. Qed.

(** [td_of_us] in normal form, for the lemmas below. *)
Lemma td_of_us_eq (us : Z) :
  (Z.abs (us / US_PER_SECOND / SECONDS_PER_DAY) <= MAX_DELTA_DAYS)%Z →
  ∃ t, td_of_us us ⇓ t ∧ td_wf t ∧ td_total t = us.
Proof.
  intros Hd. unfold td_of_us. cbn zeta.
  destruct (Z.leb_spec (Z.abs (us / US_PER_SECOND / SECONDS_PER_DAY)) MAX_DELTA_DAYS); [|lia].
  eexists; split; [reflexivity|]. unfold td_wf, td_total; simpl.
  divmod_facts us US_PER_SECOND. divmod_facts (us / US_PER_SECOND)%Z SECONDS_PER_DAY.
  unfold SECONDS_PER_DAY, US_PER_SECOND in *. lia.
Qed.

(** C7: [microseconds_to_delta_ex] is exact: the delta it builds is in
    normal form (seconds in a day, microseconds in a second, days within
    [999999999]) and denotes exactly the microseconds it was given, whenever
    the days fit. *)
Theorem td_of_us_spec (us : Z) :
  (Z.abs (us / US_PER_SECOND / SECONDS_PER_DAY) <= MAX_DELTA_DAYS)%Z →
  ∃ t, td_of_us us ⇓ t ∧ td_wf t ∧ td_total t = us.
Proof. intros. by apply td_of_us_eq. Qed.

Lemma td_of_us_spec_witness :
  (Z.abs ((-72000000000) / US_PER_SECOND / SECONDS_PER_DAY) <= MAX_DELTA_DAYS)%Z ∧
  ∃ t, td_of_us (-72000000000) ⇓ t ∧ td_wf t ∧ td_total t = (-72000000000)%Z.
Proof.
  assert (Z.abs ((-72000000000) / US_PER_SECOND / SECONDS_PER_DAY) <= MAX_DELTA_DAYS)%Z as H
    by (vm_compute; discriminate).
  split; [exact H | exact (td_of_us_spec _ H)].
Defined.

Lemma td_of_us_overflow (us : Z) :
  (MAX_DELTA_DAYS < Z.abs (us / US_PER_SECOND / SECONDS_PER_DAY))%Z →
  td_of_us us ↯ OverflowError ("days=" +:+ dec_Z (us / US_PER_SECOND / SECONDS_PER_DAY)
                               +:+ "; must have magnitude <= 999999999").
Proof.
  intros Hd. unfold td_of_us. cbn zeta.
  destruct (Z.leb_spec (Z.abs (us / US_PER_SECOND / SECONDS_PER_DAY)) MAX_DELTA_DAYS); [lia|].
  reflexivity.
Qed.

Lemma timedelta_hours_spec (h : Z) :
  (Z.abs h <= 24 * MAX_DELTA_DAYS)%Z →
  ∃ t, timedelta_hours h ⇓ t ∧ td_wf t ∧ td_total t = (h * HOUR_US)%Z.
Proof.
  intros Hh. unfold timedelta_hours.
  replace (h * 3600 * US_PER_SECOND)%Z with (h * HOUR_US)%Z
    by (unfold HOUR_US, MIN_US; lia).
  apply td_of_us_eq.
  rewrite !Z.div_div by (unfold US_PER_SECOND, SECONDS_PER_DAY; lia).
  replace (h * HOUR_US)%Z with (h * 3600 * 1000000)%Z by (unfold HOUR_US, MIN_US, US_PER_SECOND; lia).
  unfold US_PER_SECOND, SECONDS_PER_DAY, MAX_DELTA_DAYS in *.
  pose proof (Z.div_mod (h * 3600 * 1000000) (1000000 * 86400) ltac:(lia)).
  pose proof (Z.mod_pos_bound (h * 3600 * 1000000) (1000000 * 86400) ltac:(lia)).
  lia.
Qed.

(** ** The clock text *)

(** On a two-digit number, ["%02d"] writes the tens and the units digit. *)
Definition two_digit_ok (n : Z) : bool :=
  match fmt_0d 2 n with
  | String a (String b EmptyString) =>
      bool_decide (digit_of a = Some (n / 10)%Z ∧ digit_of b = Some (n mod 10)%Z)
  | _ => false
  end.

Lemma two_digit_ok_all (n : Z) : (0 <= n < 100)%Z → two_digit_ok n = true.
Proof. apply forall_below_Z. vm_compute. reflexivity. Qed.

Lemma fmt_02d_digits (n : Z) :
  (0 <= n < 100)%Z →
  ∃ a b, fmt_0d 2 n = String a (String b EmptyString) ∧
         digit_of a = Some (n / 10)%Z ∧ digit_of b = Some (n mod 10)%Z.
Proof.
  intros Hn. pose proof (two_digit_ok_all n Hn) as H. unfold two_digit_ok in H.
  destruct (fmt_0d 2 n) as [|a [|b [|? ?]]]; try discriminate.
  apply bool_decide_eq_true in H. eauto.
Qed.

Lemma decode_two_fmt (n : Z) (rest : string) :
  (0 <= n < 100)%Z → decode_two (fmt_0d 2 n +:+ rest) = Some (n, rest).
Proof.
  intros Hn. destruct (fmt_02d_digits n Hn) as (a & b & -> & Ha & Hb).
  rewrite !string_app_cons, string_app_nil_l. simpl. rewrite Ha, Hb. simpl.
  do 2 f_equal. pose proof (Z.div_mod n 10). lia.
Qed.

Lemma length_fmt_02d (n : Z) : (0 <= n < 100)%Z → String.length (fmt_0d 2 n) = 2.
Proof. intros Hn. destruct (fmt_02d_digits n Hn) as (a & b & -> & _). reflexivity. Qed.

Lemma hour12_range (h : Z) : (1 <= hour12 h <= 12)%Z.
Proof.
  unfold hour12. destruct (Z.eqb_spec (h mod 12) 0); [lia|].
  pose proof (Z.mod_pos_bound h 12). lia.
Qed.

Lemma hour24_of_hour12 (h : Z) : (0 <= h < 24)%Z → hour24_of (hour12 h) (11 <? h)%Z = h.
Proof.
  intros Hh. apply Z.eqb_eq. revert h Hh.
  apply (forall_below_Z 24 (λ h, hour24_of (hour12 h) (11 <? h)%Z =? h)%Z).
  vm_compute. reflexivity.
Qed.

Lemma length_ampm (h : Z) : String.length (ampm h) = 2.
Proof. unfold ampm. destruct (11 <? h)%Z; reflexivity. Qed.

(** [strftime] on the format of lines 422 and 450, unfolded. *)
Lemma strftime_clock (d : datetime) :
  strftime d clock_format ⇓
    fmt_0d 2 (hour12 (dt_hour d)) +:+ ":" +:+ fmt_0d 2 (dt_minute d) +:+ ":" +:+
    fmt_0d 2 (dt_second d) +:+ " " +:+ ampm (dt_hour d).
Proof.
  transitivity (Ok (c_strftime d clock_format) : result string); [reflexivity|].
  simpl. rewrite string_app_nil_r. reflexivity.
Qed.

(** C4: The "Last checked" clock text determines the time of day: decoding
    the text that [now.strftime("%I:%M:%S %p")] renders gives back the hour
    (on the 24-hour clock), the minute and the second of [now]. *)
Theorem clock_text_roundtrip (d : datetime) :
  tod_wf d →
  ∃ txt, strftime d clock_format ⇓ txt ∧
         decode_clock txt = Some (dt_hour d, dt_minute d, dt_second d).
Proof.
  intros (Hh & Hm & Hs & _). eexists; split; [apply strftime_clock|].
  pose proof (hour12_range (dt_hour d)) as H12.
  unfold decode_clock.
  do 3 (rewrite decode_two_fmt by lia; simpl; rewrite ?string_app_cons, ?string_app_nil_l; simpl).
  pose proof (hour24_of_hour12 (dt_hour d) Hh) as H24.
  unfold ampm. destruct (11 <? dt_hour d)%Z; cbn -[hour24_of hour12];
  rewrite (proj2 (Z.leb_le 1 _)), (proj2 (Z.leb_le _ 12)), (proj2 (Z.leb_le (dt_minute d) 59)),
    (proj2 (Z.leb_le (dt_second d) 59)) by lia; cbn -[hour24_of hour12];
  rewrite H24; reflexivity.
Qed.

Lemma clock_text_roundtrip_witness :
  tod_wf (mk_dt 739000 0 30 5 0) ∧
  ∃ txt, strftime (mk_dt 739000 0 30 5 0) clock_format ⇓ txt ∧
         decode_clock txt = Some (0%Z, 30%Z, 5%Z).
Proof.
  assert (tod_wf (mk_dt 739000 0 30 5 0)) as H by (unfold tod_wf, US_PER_SECOND; simpl; lia).
  split; [exact H | exact (clock_text_roundtrip _ H)].
Defined.

(** The characters of a clock text: digits, [:], a space and [AM]/[PM]. *)
Definition clock_char (c : Ascii.ascii) : bool :=
  bool_decide (is_Some (digit_of c)) || existsb (Ascii.eqb c) [":"; " "; "A"; "P"; "M"]%char.

Lemma fmt_02d_clock_chars (n : Z) :
  (0 <= n < 100)%Z → forallb clock_char (String.list_ascii_of_string (fmt_0d 2 n)) = true.
Proof.
  intros Hn. destruct (fmt_02d_digits n Hn) as (a & b & -> & Ha & Hb). simpl.
  unfold clock_char. by rewrite Ha, Hb.
Qed.

Lemma clock_text_chars (d : datetime) :
  tod_wf d →
  forallb clock_char (String.list_ascii_of_string
    (fmt_0d 2 (hour12 (dt_hour d)) +:+ ":" +:+ fmt_0d 2 (dt_minute d) +:+ ":" +:+
     fmt_0d 2 (dt_second d) +:+ " " +:+ ampm (dt_hour d))) = true.
Proof.
  intros (Hh & Hm & Hs & _).
  pose proof (hour12_range (dt_hour d)).
  rewrite !list_ascii_of_string_app, !forallb_app, !fmt_02d_clock_chars by lia.
  unfold ampm. by destruct (11 <? dt_hour d)%Z.
Qed.

(** C5: The clock text has a fixed width of eleven characters
    ([hh:mm:ss AM]) for every time of day. *)
Theorem clock_text_length (d : datetime) :
  tod_wf d →
  ∃ txt, strftime d clock_format ⇓ txt ∧ String.length txt = 11.
Proof.
  intros (Hh & Hm & Hs & _). eexists; split; [apply strftime_clock|].
  pose proof (hour12_range (dt_hour d)).
  rewrite !string_length_app, !length_fmt_02d, length_ampm by lia. reflexivity.
Qed.

Lemma clock_text_length_witness :
  tod_wf (mk_dt 739000 13 7 59 999999) ∧
  ∃ txt, strftime (mk_dt 739000 13 7 59 999999) clock_format ⇓ txt ∧ String.length txt = 11.
Proof.
  assert (tod_wf (mk_dt 739000 13 7 59 999999)) as H by (unfold tod_wf, US_PER_SECOND; simpl; lia).
  split; [exact H | exact (clock_text_length _ H)].
Defined.


(** Subtracting [timedelta(hours=h)] from a valid datetime: the datetime
    [h] hours earlier when it is in range, [OverflowError] before
    0001-01-01 00:00. *)
Lemma dt_sub_hours (now : datetime) (h : Z) :
  dt_wf now → (0 <= h <= 24)%Z →
  (td ← timedelta_hours h; dt_sub now td) =
    if (h * HOUR_US <=? dt_total now)%Z
    then Ok (dt_of_total (dt_total now - h * HOUR_US))
    else Raise (OverflowError "date value out of range").
Proof.
  intros Hw Hh. pose proof (proj1 (dt_ord_range now (dt_wf_tod now Hw)) (proj1 Hw)) as Hr.
  destruct (timedelta_hours_spec h) as (t & -> & _ & Ht); [unfold MAX_DELTA_DAYS; lia|].
  simpl. rewrite dt_sub_eq, Ht. cbn zeta.
  destruct (Z.leb_spec (h * HOUR_US) (dt_total now)), (Z.leb_spec 0 (dt_total now - h * HOUR_US)),
    (Z.leb_spec (dt_total now - h * HOUR_US) MAX_TOTAL); simpl; try reflexivity;
  unfold HOUR_US, MIN_US, US_PER_SECOND in *; lia.
Qed.

#[export] Hint Resolve dt_wf_tod dt_of_total_tod : aqua.
#[export] Hint Rewrite dt_total_of_total : aqua_rw.

End PyDatetimeFacts.
