(* ===== verification/Calendar.v ===== *)
(** * The date part of CPython's datetime: year, month, day

    CPython stores a [datetime] as year, month, day, hour, minute, second
    and microsecond (Modules/_datetimemodule.c), and [datetime - timedelta]
    goes through [add_datetime_timedelta] and [normalize_datetime], whose
    last step [normalize_y_m_d] brings an out-of-range day back into its
    month with the proleptic Gregorian ordinal ([ymd_to_ord],
    [ord_to_ymd]).  [PyDatetime] keeps the date as its ordinal; this file
    translates the calendar code and the year/month/day version of the
    arithmetic, and [CalendarFacts] shows that the two agree:

    - [ord_to_ymd] and [ymd_to_ord] are inverse bijections between the
      ordinals [1 .. 3652059] and the valid dates of years [1 .. 9999];
    - CPython's [add_datetime_timedelta] on year/month/day is the ordinal
      model seen through [ord_to_ymd], errors included.

    The ordinal-to-date direction is checked by computation on one
    400-year cycle (146097 days) and carried to every ordinal by
    periodicity: both functions commute with a shift of 400 years.  The
    date-to-ordinal direction follows from it because [ymd_to_ord] is
    injective on valid dates (an ordinal determines its year, then its
    month).  C's [/] and [%] on the
    non-negative operands of [ord_to_ymd] are [Z.quot] and [Z.rem]. *)

From S2P Require Import Prelude PyDatetime.

Module Calendar.
Import PyDatetime.

Definition MINYEAR : Z := 1.
Definition MAXYEAR : Z := 9999.
Definition DI4Y : Z := 1461.
Definition DI100Y : Z := 36524.
Definition DI400Y : Z := 146097.

(** [_days_in_month] and [_days_before_month], indexed by month. *)
Definition days_in_month_tbl (m : Z) : Z :=
  nth (Z.to_nat m) [0; 31; 28; 31; 30; 31; 30; 31; 31; 30; 31; 30; 31]%Z 0%Z.

Definition days_before_month_tbl (m : Z) : Z :=
  nth (Z.to_nat m) [0; 0; 31; 59; 90; 120; 151; 181; 212; 243; 273; 304; 334]%Z 0%Z.

Definition is_leap (year : Z) : bool :=
  (year mod 4 =? 0)%Z && (negb (year mod 100 =? 0)%Z || (year mod 400 =? 0)%Z).

Definition days_in_month (year month : Z) : Z :=
  if (month =? 2)%Z && is_leap year then 29%Z else days_in_month_tbl month.

Definition days_before_month (year month : Z) : Z :=
  (days_before_month_tbl month + (if (month >? 2)%Z && is_leap year then 1 else 0))%Z.

Definition days_before_year (year : Z) : Z :=
  let y := (year - 1)%Z in
  if (0 <=? y)%Z then (y * 365 + Z.quot y 4 - Z.quot y 100 + Z.quot y 400)%Z else (-366)%Z.

Definition ymd_to_ord (year month day : Z) : Z :=
  (days_before_year year + days_before_month year month + day)%Z.

Definition ord_to_ymd (ordinal : Z) : Z * Z * Z :=
  let ordinal := (ordinal - 1)%Z in
  let n400 := Z.quot ordinal DI400Y in
  let n := Z.rem ordinal DI400Y in
  let year := (n400 * 400 + 1)%Z in
  let n100 := Z.quot n DI100Y in
  let n := Z.rem n DI100Y in
  let n4 := Z.quot n DI4Y in
  let n := Z.rem n DI4Y in
  let n1 := Z.quot n 365 in
  let n := Z.rem n 365 in
  let year := (year + n100 * 100 + n4 * 4 + n1)%Z in
  if (n1 =? 4)%Z || (n100 =? 4)%Z then ((year - 1)%Z, 12%Z, 31%Z)
  else
    let leapyear := (n1 =? 3)%Z && (negb (n4 =? 24)%Z || (n100 =? 3)%Z) in
    let month := Z.shiftr (n + 50) 5 in
    let preceding := (days_before_month_tbl month + (if (month >? 2)%Z && leapyear then 1 else 0))%Z in
    let '(month, preceding) :=
      if (preceding >? n)%Z
      then ((month - 1)%Z, (preceding - days_in_month year (month - 1))%Z)
      else (month, preceding) in
    (year, month, (n - preceding + 1)%Z).

(** A date the constructors accept. *)
Definition valid_ymd (y m d : Z) : bool :=
  (MINYEAR <=? y)%Z && (y <=? MAXYEAR)%Z && (1 <=? m)%Z && (m <=? 12)%Z &&
  (1 <=? d)%Z && (d <=? days_in_month y m)%Z.

(** The year check at the end of [normalize_y_m_d]. *)
Definition check_year (ymd : Z * Z * Z) : result (Z * Z * Z) :=
  let '(y, _, _) := ymd in
  if (MINYEAR <=? y)%Z && (y <=? MAXYEAR)%Z then Ok ymd
  else Raise (OverflowError "date value out of range").

(** [normalize_y_m_d]: [m] is a month of a valid date, [d] any day.  One
    day out of the month moves to the neighbouring month; further out goes
    through the ordinal, whose range check replaces the year check. *)
Definition normalize_y_m_d (y m d : Z) : result (Z * Z * Z) :=
  let dim := days_in_month y m in
  if (d <? 1)%Z || (dim <? d)%Z then
    if (d =? 0)%Z then
      check_year (if (0 <? m - 1)%Z then (y, (m - 1)%Z, days_in_month y (m - 1))
                  else ((y - 1)%Z, 12%Z, 31%Z))
    else if (d =? dim + 1)%Z then
      check_year (if (12 <? m + 1)%Z then ((y + 1)%Z, 1%Z, 1%Z) else (y, (m + 1)%Z, 1%Z))
    else
      let ordinal := (ymd_to_ord y m 1 + d - 1)%Z in
      if (ordinal <? 1)%Z || (MAXORDINAL <? ordinal)%Z
      then Raise (OverflowError "date value out of range")
      else Ok (ord_to_ymd ordinal)
  else check_year (y, m, d).

(** The [datetime] object as CPython stores it. *)
Record cdatetime := mk_cdt {
  cdt_year : Z;
  cdt_month : Z;
  cdt_day : Z;
  cdt_hour : Z;
  cdt_minute : Z;
  cdt_second : Z;
  cdt_microsecond : Z
}.

(** [add_datetime_timedelta] with [normalize_datetime]. *)
Definition add_cdatetime_timedelta (d : cdatetime) (t : timedelta) (factor : Z) : result cdatetime :=
  let day := (cdt_day d + factor * td_days t)%Z in
  let second := (cdt_second d + factor * td_seconds t)%Z in
  let microsecond := (cdt_microsecond d + factor * td_microseconds t)%Z in
  let '(second, microsecond) := normalize_pair second microsecond US_PER_SECOND in
  let '(minute, second) := normalize_pair (cdt_minute d) second 60 in
  let '(hour, minute) := normalize_pair (cdt_hour d) minute 60 in
  let '(day, hour) := normalize_pair day hour 24 in
  '(y, m, dd) ← normalize_y_m_d (cdt_year d) (cdt_month d) day;
  Ok (mk_cdt y m dd hour minute second microsecond).

(** [datetime - timedelta] on the stored fields. *)
Definition cdt_sub (d : cdatetime) (t : timedelta) : result cdatetime :=
  add_cdatetime_timedelta d t (-1).

(** The stored form of a datetime of the ordinal model. *)
Definition to_cdt (d : datetime) : cdatetime :=
  let '(y, m, dd) := ord_to_ymd (dt_ord d) in
  mk_cdt y m dd (dt_hour d) (dt_minute d) (dt_second d) (dt_microsecond d).

End Calendar.

Module CalendarFacts.
Import PyDatetime Calendar.

(** ** Periodicity: the calendar repeats every 400 years *)

Lemma mod_shift (y a b : Z) : (0 < b)%Z → (a * b = 400)%Z → ((y + 400) mod b = y mod b)%Z.
Proof. intros Hb Hab. rewrite <- Hab. rewrite Z.mod_add by lia. done. Qed.

Lemma is_leap_shift (y : Z) : is_leap (y + 400) = is_leap y.
Proof.
  unfold is_leap. rewrite (mod_shift y 100 4), (mod_shift y 4 100), (mod_shift y 1 400) by lia. done.
Qed.

Lemma days_in_month_shift (y m : Z) : days_in_month (y + 400) m = days_in_month y m.
Proof. unfold days_in_month. by rewrite is_leap_shift. Qed.

Lemma days_before_month_shift (y m : Z) : days_before_month (y + 400) m = days_before_month y m.
Proof. unfold days_before_month. by rewrite is_leap_shift. Qed.

Lemma quot_rem_nonneg (a b : Z) : (0 <= a)%Z → (0 < b)%Z → Z.quot a b = (a / b)%Z ∧ Z.rem a b = (a mod b)%Z.
Proof. intros. split; [by apply Z.quot_div_nonneg | by apply Z.rem_mod_nonneg]. Qed.

Lemma days_before_year_shift (y : Z) : (1 <= y)%Z → days_before_year (y + 400) = (days_before_year y + DI400Y)%Z.
Proof.
  intros Hy. unfold days_before_year, DI400Y.
  rewrite (proj2 (Z.leb_le 0 (y + 400 - 1))), (proj2 (Z.leb_le 0 (y - 1))) by lia.
  rewrite !Z.quot_div_nonneg by lia.
  replace (y + 400 - 1)%Z with ((y - 1) + 100 * 4)%Z by lia. rewrite Z.div_add by lia.
  replace ((y - 1) + 100 * 4)%Z with ((y - 1) + 4 * 100)%Z by lia. rewrite Z.div_add by lia.
  replace ((y - 1) + 4 * 100)%Z with ((y - 1) + 1 * 400)%Z by lia. rewrite Z.div_add by lia.
  lia.
Qed.

Lemma ymd_to_ord_shift (y m d : Z) : (1 <= y)%Z → ymd_to_ord (y + 400) m d = (ymd_to_ord y m d + DI400Y)%Z.
Proof. intros Hy. unfold ymd_to_ord. rewrite days_before_year_shift, days_before_month_shift by done. lia. Qed.

Lemma ord_to_ymd_shift (o : Z) : (1 <= o)%Z →
  ord_to_ymd (o + DI400Y) = let '(y, m, d) := ord_to_ymd o in ((y + 400)%Z, m, d).
Proof.
  intros Ho. unfold ord_to_ymd.
  replace (o + DI400Y - 1)%Z with ((o - 1) + 1 * DI400Y)%Z by lia.
  rewrite (Z.quot_div_nonneg (o - 1 + 1 * DI400Y) DI400Y), (Z.rem_mod_nonneg (o - 1 + 1 * DI400Y) DI400Y),
    (Z.quot_div_nonneg (o - 1) DI400Y), (Z.rem_mod_nonneg (o - 1) DI400Y) by (unfold DI400Y; lia).
  rewrite Z.div_add, Z.mod_add by (unfold DI400Y; lia).
  set (n := ((o - 1) mod DI400Y)%Z). set (q := ((o - 1) / DI400Y)%Z).
  cbv zeta.
  remember (((n `rem` DI100Y) `rem` DI4Y) ÷ 365)%Z as c.
  remember (((n `rem` DI100Y) `rem` DI4Y) `rem` 365)%Z as r.
  remember ((n `rem` DI100Y) ÷ DI4Y)%Z as b.
  remember (n ÷ DI100Y)%Z as a.
  replace ((q + 1) * 400 + 1 + a * 100 + b * 4 + c)%Z
    with ((q * 400 + 1 + a * 100 + b * 4 + c) + 400)%Z by lia.
  rewrite days_in_month_shift.
  repeat case_match; try reflexivity; do 2 f_equal; lia.
Qed.

(** ** The months of a year *)

Ltac month_cases m :=
  let H := fresh "Hm" in
  assert (m = 1 ∨ m = 2 ∨ m = 3 ∨ m = 4 ∨ m = 5 ∨ m = 6 ∨ m = 7 ∨ m = 8 ∨ m = 9 ∨
          m = 10 ∨ m = 11 ∨ m = 12)%Z as H by lia;
  repeat destruct H as [-> | H]; subst.

Ltac unfold_months :=
  unfold days_before_month, days_in_month, days_before_month_tbl, days_in_month_tbl; destruct is_leap.

Ltac by_month m := unfold_months; month_cases m; simpl; lia.

Lemma days_in_month_bounds (y m : Z) : (1 <= m <= 12)%Z → (28 <= days_in_month y m <= 31)%Z.
Proof. intros Hm. by_month m. Qed.

Lemma days_before_month_succ (y m : Z) : (1 <= m <= 11)%Z →
  days_before_month y (m + 1) = (days_before_month y m + days_in_month y m)%Z.
Proof. intros Hm. by_month m. Qed.

Lemma days_before_month_range (y m : Z) : (1 <= m <= 12)%Z →
  (0 <= days_before_month y m ∧ days_before_month y m + days_in_month y m <= 365 + if is_leap y then 1 else 0)%Z.
Proof. intros Hm. by_month m. Qed.

Lemma days_before_month_1 (y : Z) : days_before_month y 1 = 0%Z.
Proof. unfold days_before_month. by destruct is_leap. Qed.

Lemma december (y : Z) :
  days_in_month y 12 = 31%Z ∧ (days_before_month y 12 + 31 = 365 + if is_leap y then 1 else 0)%Z.
Proof. unfold days_before_month, days_in_month. by destruct is_leap. Qed.

(** ** Years *)

Lemma days_before_year_succ (y : Z) : (1 <= y)%Z →
  days_before_year (y + 1) = (days_before_year y + 365 + if is_leap y then 1 else 0)%Z.
Proof.
  apply (periodic_Z 400 1 (λ y, days_before_year (y + 1) = (days_before_year y + 365 + if is_leap y then 1 else 0)%Z)); [lia| |].
  - intros x Hx. apply Z.eqb_eq.
    pose proof (forall_below_Z 400 (λ z, days_before_year (z + 1 + 1) =? days_before_year (z + 1) + 365 +
      if is_leap (z + 1) then 1 else 0)%Z ltac:(vm_compute; reflexivity) (x - 1) ltac:(lia)) as H.
    cbv beta in H. by replace (x - 1 + 1)%Z with x in H by lia.
  - intros x Hx IH. replace (x + 400 + 1)%Z with ((x + 1) + 400)%Z by lia.
    rewrite !days_before_year_shift, is_leap_shift, IH by lia. lia.
Qed.

Lemma days_before_year_nonneg (y : Z) : (1 <= y)%Z → (0 <= days_before_year y)%Z.
Proof.
  intros Hy. unfold days_before_year. rewrite (proj2 (Z.leb_le 0 (y - 1))) by lia.
  rewrite !Z.quot_div_nonneg by lia. Z.div_mod_to_equations. lia.
Qed.

Lemma days_before_year_mono (a b : Z) : (1 <= a <= b)%Z → (days_before_year a <= days_before_year b)%Z.
Proof.
  intros Hab. unfold days_before_year.
  rewrite (proj2 (Z.leb_le 0 (a - 1))), (proj2 (Z.leb_le 0 (b - 1))) by lia.
  rewrite !Z.quot_div_nonneg by lia. Z.div_mod_to_equations. lia.
Qed.

(** ** The two directions of the conversion *)

(** A date whose month and day exist, from year 1 on. *)
Definition ymd_ok (y m d : Z) : Prop :=
  (1 <= y ∧ 1 <= m <= 12 ∧ 1 <= d <= days_in_month y m)%Z.

Definition ymd_okb (y m d : Z) : bool :=
  (1 <=? y)%Z && (1 <=? m)%Z && (m <=? 12)%Z && (1 <=? d)%Z && (d <=? days_in_month y m)%Z.

Lemma ymd_okb_spec (y m d : Z) : ymd_okb y m d = true ↔ ymd_ok y m d.
Proof. unfold ymd_okb, ymd_ok. rewrite !andb_true_iff, !Z.leb_le. tauto. Qed.

Lemma valid_ymd_ok (y m d : Z) : valid_ymd y m d = true ↔ ymd_ok y m d ∧ (y <= MAXYEAR)%Z.
Proof. unfold valid_ymd, ymd_ok, MINYEAR. rewrite !andb_true_iff, !Z.leb_le. tauto. Qed.

Lemma ymd_ok_shift (y m d : Z) : ymd_ok y m d → ymd_ok (y + 400) m d.
Proof. unfold ymd_ok. rewrite days_in_month_shift. lia. Qed.

Lemma ymd_to_ord_pos (y m d : Z) : ymd_ok y m d → (1 <= ymd_to_ord y m d)%Z.
Proof.
  intros (Hy & Hm & Hd). unfold ymd_to_ord.
  pose proof (days_before_year_nonneg y Hy). pose proof (days_before_month_range y m Hm). lia.
Qed.

(** The first 400-year cycle, by computation. *)
Lemma ord_cycle_check : forall_range (Z.to_nat DI400Y) 1 (λ o, let '(y, m, d) := ord_to_ymd o in
  ymd_okb y m d && (ymd_to_ord y m d =? o)%Z) = true.
Proof. vm_compute. reflexivity. Qed.

(** From an ordinal to a date and back. *)
Lemma ord_to_ymd_ok (o : Z) : (1 <= o)%Z →
  let '(y, m, d) := ord_to_ymd o in ymd_ok y m d ∧ ymd_to_ord y m d = o.
Proof.
  revert o. apply (periodic_Z DI400Y 1 (λ o,
    let '(y, m, d) := ord_to_ymd o in ymd_ok y m d ∧ ymd_to_ord y m d = o)); [unfold DI400Y; lia| |].
  - intros x Hx.
    pose proof (forall_below_from 1 DI400Y (λ o, let '(y, m, d) := ord_to_ymd o in
      ymd_okb y m d && (ymd_to_ord y m d =? o)%Z) ord_cycle_check x Hx) as H.
    cbv beta in H. destruct (ord_to_ymd x) as [[y m] d].
    apply andb_prop in H as [H1 H2]. by rewrite <- ymd_okb_spec, <- Z.eqb_eq.
  - intros x Hx. rewrite ord_to_ymd_shift by done. destruct (ord_to_ymd x) as [[y m] d].
    intros [Hok Ho]. split; [by apply ymd_ok_shift|]. rewrite ymd_to_ord_shift by apply Hok. lia.
Qed.

(** The months before [m'] cover month [m] when [m < m']. *)
Lemma days_before_month_lt (y m m' : Z) : (1 <= m < m')%Z → (m' <= 12)%Z →
  (days_before_month y m + days_in_month y m <= days_before_month y m')%Z.
Proof.
  intros Hlt Hle. unfold_months; month_cases m'; month_cases m; simpl; lia.
Qed.

(** The ordinals of a year lie between the days before it and the days
    before the next one. *)
Lemma ymd_to_ord_year (y m d : Z) : ymd_ok y m d →
  (days_before_year y < ymd_to_ord y m d <= days_before_year (y + 1))%Z.
Proof.
  intros (Hy & Hm & Hd). unfold ymd_to_ord.
  pose proof (days_before_month_range y m Hm). pose proof (days_before_year_succ y Hy). lia.
Qed.

(** Distinct valid dates have distinct ordinals. *)
Lemma ymd_to_ord_inj (y m d y' m' d' : Z) : ymd_ok y m d → ymd_ok y' m' d' →
  ymd_to_ord y m d = ymd_to_ord y' m' d' → (y, m, d) = (y', m', d').
Proof.
  intros Hok Hok' Heq.
  pose proof (ymd_to_ord_year y m d Hok). pose proof (ymd_to_ord_year y' m' d' Hok').
  assert (y = y') as <-.
  { destruct Hok as (Hy & _), Hok' as (Hy' & _).
    destruct (Z.lt_total y y') as [Hlt | [? | Hlt]]; [|done|];
      [pose proof (days_before_year_mono (y + 1) y') | pose proof (days_before_year_mono (y' + 1) y)]; lia. }
  unfold ymd_to_ord in Heq. destruct Hok as (_ & Hm & Hd), Hok' as (_ & Hm' & Hd').
  destruct (Z.lt_total m m') as [Hlt | [<- | Hlt]];
    [pose proof (days_before_month_lt y m m') | | pose proof (days_before_month_lt y m' m)];
    [lia | f_equal; lia | lia].
Qed.

(** From a date to its ordinal and back. *)
Lemma ymd_to_ord_ok (y m d : Z) : ymd_ok y m d → ord_to_ymd (ymd_to_ord y m d) = (y, m, d).
Proof.
  intros Hok. pose proof (ord_to_ymd_ok (ymd_to_ord y m d) (ymd_to_ord_pos y m d Hok)) as H.
  destruct (ord_to_ymd _) as [[y' m'] d']. destruct H as [Hok' Hord].
  by apply ymd_to_ord_inj.
Qed.

Lemma days_before_year_10000 : days_before_year 10000 = MAXORDINAL.
Proof. vm_compute. reflexivity. Qed.

(** The ordinals of the years [1 .. 9999] are [1 .. MAXORDINAL]. *)
Lemma ymd_to_ord_max (y m d : Z) : ymd_ok y m d → (y <= MAXYEAR)%Z ↔ (ymd_to_ord y m d <= MAXORDINAL)%Z.
Proof.
  intros (Hy & Hm & Hd). unfold ymd_to_ord, MAXYEAR. rewrite <- days_before_year_10000.
  pose proof (days_before_month_range y m Hm). split; intros Hle.
  - pose proof (days_before_year_succ y Hy). pose proof (days_before_year_mono (y + 1) 10000). lia.
  - destruct (Z.le_gt_cases y 9999) as [|Hg]; [done|].
    pose proof (days_before_year_mono 10000 y). lia.
Qed.

(** ** [normalize_y_m_d] moves a date by whole days *)

(** The date of an ordinal, or the error [normalize_y_m_d] raises for an
    ordinal out of range. *)
Definition ord_date (o : Z) : result (Z * Z * Z) :=
  if (1 <=? o)%Z && (o <=? MAXORDINAL)%Z then Ok (ord_to_ymd o)
  else Raise (OverflowError "date value out of range").

Lemma ord_date_hit (o y m d : Z) : ymd_ok y m d → (y <= MAXYEAR)%Z → o = ymd_to_ord y m d →
  check_year (y, m, d) = ord_date o.
Proof.
  intros Hok Hy ->. pose proof (ymd_to_ord_pos y m d Hok). pose proof (proj1 (ymd_to_ord_max y m d Hok) Hy).
  unfold check_year, ord_date, MINYEAR. cbv iota. pose proof (proj1 Hok).
  rewrite (proj2 (Z.leb_le 1 y)), (proj2 (Z.leb_le y MAXYEAR)), (proj2 (Z.leb_le 1 _)), (proj2 (Z.leb_le _ MAXORDINAL)) by lia.
  cbn. by rewrite ymd_to_ord_ok by done.
Qed.

Lemma ord_date_miss (o y m d : Z) : (y < 1 ∨ MAXYEAR < y)%Z → (o < 1 ∨ MAXORDINAL < o)%Z →
  check_year (y, m, d) = ord_date o.
Proof.
  intros Hy Ho. unfold check_year, ord_date, MINYEAR. cbv iota.
  replace ((1 <=? y) && (y <=? MAXYEAR))%Z with false by (symmetry; apply andb_false_iff; rewrite !Z.leb_gt; lia).
  replace ((1 <=? o) && (o <=? MAXORDINAL))%Z with false by (symmetry; apply andb_false_iff; rewrite !Z.leb_gt; lia).
  done.
Qed.

Lemma ord_date_check (o : Z) :
  (if (o <? 1)%Z || (MAXORDINAL <? o)%Z then Raise (OverflowError "date value out of range")
   else Ok (ord_to_ymd o)) = ord_date o.
Proof. unfold ord_date. destruct (Z.ltb_spec o 1), (Z.ltb_spec MAXORDINAL o), (Z.leb_spec 1 o), (Z.leb_spec o MAXORDINAL); simpl; done || lia. Qed.

(** Adding [k] days to the day of a date of the range and normalizing
    gives the date [k] days later, or the error when that date is out of
    range: each of the four branches of [normalize_y_m_d] agrees. *)
Lemma normalize_y_m_d_ord (o k y m dd : Z) : (1 <= o <= MAXORDINAL)%Z → ord_to_ymd o = (y, m, dd) →
  normalize_y_m_d y m (dd + k) = ord_date (o + k).
Proof.
  intros Ho E. pose proof (ord_to_ymd_ok o (proj1 Ho)) as Hoo. rewrite E in Hoo. destruct Hoo as [Hok Hord].
  pose proof (proj2 (ymd_to_ord_max y m dd Hok) ltac:(lia)) as Hmax.
  pose proof Hok as (Hy & Hm & Hd). unfold ymd_to_ord in Hord.
  pose proof (days_before_month_1 y). pose proof (december y).
  unfold normalize_y_m_d. set (dim := days_in_month y m) in *.
  destruct (Z.ltb_spec (dd + k) 1), (Z.ltb_spec dim (dd + k)); cbn [orb].
  4: { apply ord_date_hit; [unfold ymd_ok; lia | done | unfold ymd_to_ord; lia]. }
  all: destruct (Z.eqb_spec (dd + k) 0) as [Hz|Hz]; [destruct (Z.ltb_spec 0 (m - 1))|].
  all: try (destruct (Z.eqb_spec (dd + k) (dim + 1)) as [Hn|Hn]; [destruct (Z.ltb_spec 12 (m + 1))|]).
  all: try (rewrite ord_date_check; f_equal; unfold ymd_to_ord; lia).
  all: try lia.
  - pose proof (days_in_month_bounds y (m - 1) ltac:(lia)).
    pose proof (days_before_month_succ y (m - 1) ltac:(lia)) as Hs. replace (m - 1 + 1)%Z with m in Hs by lia.
    apply ord_date_hit; [unfold ymd_ok; lia | done | unfold ymd_to_ord; lia].
  - assert (m = 1%Z) as -> by lia. destruct (Z.eq_dec y 1) as [->|Hy1].
    + apply ord_date_miss; [lia|]. assert (days_before_year 1 = 0%Z) by reflexivity. lia.
    + pose proof (december (y - 1)) as [Hd12 Hdec].
      pose proof (days_before_year_succ (y - 1) ltac:(lia)) as Hs. replace (y - 1 + 1)%Z with y in Hs by lia.
      apply ord_date_hit; [unfold ymd_ok; lia | lia | unfold ymd_to_ord; lia].
  - assert (m = 12%Z) as -> by lia. destruct (Z.eq_dec y MAXYEAR) as [->|HyM].
    + pose proof (days_before_year_succ MAXYEAR ltac:(unfold MAXYEAR; lia)) as Hs.
      replace (MAXYEAR + 1)%Z with 10000%Z in Hs by reflexivity. rewrite days_before_year_10000 in Hs. apply ord_date_miss; lia.
    + pose proof (days_before_year_succ y Hy) as Hs. pose proof (days_in_month_bounds (y + 1) 1 ltac:(lia)).
      pose proof (days_before_month_1 (y + 1)).
      apply ord_date_hit; [unfold ymd_ok; lia | lia | unfold ymd_to_ord; lia].
  - pose proof (days_before_month_succ y m ltac:(lia)) as Hs. pose proof (days_in_month_bounds y (m + 1) ltac:(lia)).
    apply ord_date_hit; [unfold ymd_ok; lia | done | unfold ymd_to_ord; lia].
Qed.

Lemma to_cdt_eq (d : datetime) (y m dd : Z) : ord_to_ymd (dt_ord d) = (y, m, dd) →
  to_cdt d = mk_cdt y m dd (dt_hour d) (dt_minute d) (dt_second d) (dt_microsecond d).
Proof. intros E. unfold to_cdt. by rewrite E. Qed.

(** C25: [normalize_y_m_d] moves a valid date by any number of days:
    on the day [d + k] of the month of a valid date it returns the date
    [k] days after that date (through the one-day shortcuts or the
    ordinal), or raises [OverflowError] when that date is outside years
    [1 .. 9999]. *)
Theorem normalize_y_m_d_days (y m d k : Z) :
  valid_ymd y m d = true → normalize_y_m_d y m (d + k) = ord_date (ymd_to_ord y m d + k).
Proof.
  intros [Hok Hy]%valid_ymd_ok.
  pose proof (ymd_to_ord_pos y m d Hok). pose proof (proj1 (ymd_to_ord_max y m d Hok) Hy).
  apply normalize_y_m_d_ord; [lia | by apply ymd_to_ord_ok].
Qed.

Lemma normalize_y_m_d_days_witness :
  valid_ymd 2024 12 31 = true ∧ normalize_y_m_d 2024 12 (31 + 1) = ord_date (ymd_to_ord 2024 12 31 + 1) ∧
  ord_date (ymd_to_ord 2024 12 31 + 1) = Ok (2025%Z, 1%Z, 1%Z).
Proof.
  split; [reflexivity|]. split; [apply normalize_y_m_d_days; reflexivity | vm_compute; reflexivity].
Defined.

(** C27: CPython's closed formula [days_before_year] counts the leap
    years of the Gregorian rule [is_leap]: from year [y] to year [y + 1]
    it grows by 366 days exactly when [y] is a leap year and by 365
    otherwise. *)
Theorem days_before_year_leap (y : Z) : (1 <= y)%Z →
  days_before_year (y + 1) = (days_before_year y + 365 + if is_leap y then 1 else 0)%Z.
Proof. apply days_before_year_succ. Qed.

Lemma days_before_year_leap_witness :
  (1 <= 2000)%Z ∧ days_before_year (2000 + 1) = (days_before_year 2000 + 365 + if is_leap 2000 then 1 else 0)%Z.
Proof. split; [lia | apply days_before_year_leap; lia]. Defined.

(** ** The two models of datetime arithmetic agree *)

(** The refinement, shared by the claims on datetime arithmetic. *)
Lemma add_cdatetime_timedelta_agree (d : datetime) (t : timedelta) (factor : Z) :
  dt_wf d → add_cdatetime_timedelta (to_cdt d) t factor = to_cdt <$> add_datetime_timedelta d t factor.
Proof.
  intros [Ho _]. destruct (ord_to_ymd (dt_ord d)) as [[y m] dd] eqn:E.
  unfold add_cdatetime_timedelta, add_datetime_timedelta. rewrite (to_cdt_eq d y m dd E).
  unfold normalize_pair. cbn [cdt_year cdt_month cdt_day cdt_hour cdt_minute cdt_second cdt_microsecond].
  match goal with |- context [normalize_y_m_d y m (dd + ?a + ?b)] => rewrite <- (Z.add_assoc dd a b) end.
  rewrite (normalize_y_m_d_ord (dt_ord d) _ y m dd Ho E).
  unfold ord_date. case_match; [|done]. cbn. unfold to_cdt. cbn [dt_ord]. by repeat case_match.
Qed.

Lemma cdt_sub_agree (d : datetime) (t : timedelta) :
  dt_wf d → cdt_sub (to_cdt d) t = to_cdt <$> dt_sub d t.
Proof. apply add_cdatetime_timedelta_agree. Qed.

(** C26: CPython's [datetime + factor * timedelta] on the stored year,
    month, day and time fields is the ordinal model of [PyDatetime] read
    through [ord_to_ymd]: for every well-formed datetime, every delta and
    every factor both return the same datetime, or both raise
    [OverflowError("date value out of range")]. *)
Theorem add_cdatetime_timedelta_refines (d : datetime) (t : timedelta) (factor : Z) :
  dt_wf d → add_cdatetime_timedelta (to_cdt d) t factor = to_cdt <$> add_datetime_timedelta d t factor.
Proof. apply add_cdatetime_timedelta_agree. Qed.

(** C30: [ord_to_ymd] and [ymd_to_ord] are inverse bijections between the
    ordinals [1 .. MAXORDINAL] and the valid dates of the years
    [1 .. 9999]: the date of an ordinal of the range is valid and has that
    ordinal, and the ordinal of a valid date is in range and gives the date
    back. *)
Theorem ord_to_ymd_roundtrip :
  (∀ o, (1 <= o <= MAXORDINAL)%Z →
     let '(y, m, d) := ord_to_ymd o in valid_ymd y m d = true ∧ ymd_to_ord y m d = o) ∧
  (∀ y m d, valid_ymd y m d = true →
     (1 <= ymd_to_ord y m d <= MAXORDINAL)%Z ∧ ord_to_ymd (ymd_to_ord y m d) = (y, m, d)).
Proof.
  split.
  - intros o Ho. pose proof (ord_to_ymd_ok o (proj1 Ho)) as H. destruct (ord_to_ymd o) as [[y m] d].
    destruct H as [Hok Hord]. rewrite valid_ymd_ok, (ymd_to_ord_max y m d Hok). split; [split; [done | lia] | done].
  - intros y m d [Hok Hy]%valid_ymd_ok. rewrite <- (ymd_to_ord_max y m d Hok).
    pose proof (ymd_to_ord_pos y m d Hok). split; [lia | by apply ymd_to_ord_ok].
Qed.

Lemma ord_to_ymd_roundtrip_witness :
  (let '(y, m, d) := ord_to_ymd 739000 in valid_ymd y m d = true ∧ ymd_to_ord y m d = 739000%Z) ∧
  ord_to_ymd (ymd_to_ord 2024 2 29) = (2024%Z, 2%Z, 29%Z).
Proof.
  split; [apply (proj1 ord_to_ymd_roundtrip); unfold MAXORDINAL; lia|].
  apply (proj2 ord_to_ymd_roundtrip). vm_compute. reflexivity.
Defined.

Lemma add_cdatetime_timedelta_refines_witness :
  dt_wf (mk_dt 739000 10 30 0 0) ∧
  add_cdatetime_timedelta (to_cdt (mk_dt 739000 10 30 0 0)) (mk_td 0 72000 0) (-1) =
    to_cdt <$> add_datetime_timedelta (mk_dt 739000 10 30 0 0) (mk_td 0 72000 0) (-1).
Proof.
  split; [unfold dt_wf, MAXORDINAL, US_PER_SECOND; cbn; lia|].
  apply add_cdatetime_timedelta_refines. unfold dt_wf, MAXORDINAL, US_PER_SECOND; cbn; lia.
Defined.

End CalendarFacts.
