(* ===== verification/Series.v ===== *)
(** * The chart data of lines 261-265

    [time_points] is the list comprehension of line 262,
    [[now - timedelta(hours=h) for h in [20, 16, 12, 8, 4, 0]]]: it
    evaluates the six subtractions left to right and propagates the first
    exception.  [fish_scores] and [plant_scores] are the constants of lines
    264-265.  The theorems give the six points in closed form, show that
    they are strictly increasing at a four-hour step and end at [now], and
    characterise the one error path; [time_points_cdt] runs the same
    comprehension on CPython's stored fields and is shown to agree. *)

From S2P Require Import Prelude PyDatetime Calendar.

Module Series.
Import PyDatetime Calendar.

Definition hours_back : list Z := [20; 16; 12; 8; 4; 0]%Z.

Definition time_points (now : datetime) : result (list datetime) :=
  mapM (λ h, td ← timedelta_hours h; dt_sub now td) hours_back.

(** The same comprehension on the fields CPython stores. *)
Definition time_points_cdt (now : cdatetime) : result (list cdatetime) :=
  mapM (λ h, td ← timedelta_hours h; cdt_sub now td) hours_back.

Definition fish_scores : list Z := [94; 96; 95; 96; 97; 98]%Z.
Definition plant_scores : list Z := [92; 93; 94; 93; 95; 96]%Z.

End Series.

Module SeriesFacts.
Import PyDatetime PyDatetimeFacts Calendar CalendarFacts Series.

(** The instants of the six points, in microseconds. *)
Definition point_totals (now : datetime) : list Z :=
  map (λ h, dt_total now - h * HOUR_US)%Z hours_back.

(** The six time points as microsecond counts (shared by the frame, chart and page proofs). *)
Lemma time_points_eq (now : datetime) :
  dt_wf now → (20 * HOUR_US <= dt_total now)%Z →
  time_points now ⇓ map dt_of_total (point_totals now).
Proof.
  intros Hw Hge. apply mapM_Ok_iff. unfold point_totals, hours_back.
  repeat constructor; rewrite dt_sub_hours by (done || lia);
  rewrite (proj2 (Z.leb_le _ _)) by (unfold HOUR_US, MIN_US, US_PER_SECOND in *; lia);
  reflexivity.
Qed.

(** C1: When [now] is at least twenty hours after the start of the
    datetime range, line 262 returns the six datetimes [now - 20h],
    [now - 16h], ..., [now - 0h], in that order. *)
Theorem time_points_spec (now : datetime) :
  dt_wf now → (20 * HOUR_US <= dt_total now)%Z →
  time_points now ⇓ map dt_of_total (point_totals now).
Proof. intros. by apply time_points_eq. Qed.

Lemma time_points_spec_witness :
  let now := mk_dt 739000 14 5 9 123 in
  dt_wf now ∧ (20 * HOUR_US <= dt_total now)%Z ∧
  time_points now ⇓ map dt_of_total (point_totals now).
Proof.
  cbv zeta. assert (dt_wf (mk_dt 739000 14 5 9 123)) as Hw
    by (unfold dt_wf, MAXORDINAL, US_PER_SECOND; simpl; lia).
  assert (20 * HOUR_US <= dt_total (mk_dt 739000 14 5 9 123))%Z as Hge by (vm_compute; discriminate).
  split; [exact Hw | split; [exact Hge | apply (time_points_spec _ Hw Hge)]].
Defined.

(** The failing subtraction of line 262, for the page proofs. *)
Lemma time_points_raise (now : datetime) :
  dt_wf now → (dt_total now < 20 * HOUR_US)%Z →
  time_points now ↯ OverflowError "date value out of range".
Proof.
  intros Hw Hlt. unfold time_points, hours_back. cbn [mapM].
  rewrite (dt_sub_hours now 20) by (done || lia).
  rewrite (proj2 (Z.leb_gt _ _)) by lia. reflexivity.
Qed.

(** C2: Line 262 raises [OverflowError("date value out of range")] exactly
    when [now] is less than twenty hours after 0001-01-01 00:00: the first
    subtraction ([h = 20]) fails and the comprehension stops there. *)
Theorem time_points_overflow (now : datetime) :
  dt_wf now → (dt_total now < 20 * HOUR_US)%Z →
  time_points now ↯ OverflowError "date value out of range".
Proof. intros. by apply time_points_raise. Qed.

Lemma time_points_overflow_witness :
  let now := mk_dt 1 19 59 59 999999 in
  dt_wf now ∧ (dt_total now < 20 * HOUR_US)%Z ∧
  time_points now ↯ OverflowError "date value out of range".
Proof.
  cbv zeta. assert (dt_wf (mk_dt 1 19 59 59 999999)) as Hw
    by (unfold dt_wf, MAXORDINAL, US_PER_SECOND; simpl; lia).
  assert (dt_total (mk_dt 1 19 59 59 999999) < 20 * HOUR_US)%Z as Hlt by (vm_compute; reflexivity).
  split; [exact Hw | split; [exact Hlt | apply (time_points_overflow _ Hw Hlt)]].
Defined.

(** C3: The chart's time axis is well formed: six valid datetimes, strictly
    increasing, consecutive points exactly four hours apart, the last one
    equal to [now]. *)
Theorem time_points_axis (now : datetime) :
  dt_wf now → (20 * HOUR_US <= dt_total now)%Z →
  ∃ tps, time_points now ⇓ tps ∧ length tps = 6 ∧ Forall dt_wf tps ∧
         stepped (4 * HOUR_US) (map dt_total tps) ∧
         StronglySorted Z.lt (map dt_total tps) ∧ last tps = Some now.
Proof.
  intros Hw Hge. pose proof (dt_wf_tod _ Hw) as Ht.
  exists (map dt_of_total (point_totals now)). split; [by apply time_points_eq|].
  assert (stepped (4 * HOUR_US) (map dt_total (map dt_of_total (point_totals now)))) as Hs.
  { unfold point_totals, hours_back; simpl. rewrite !dt_total_of_total.
    repeat split; lia. }
  split; [reflexivity|]. split; [|split; [done | split]].
  - unfold point_totals, hours_back. simpl.
    pose proof (proj1 (dt_ord_range now Ht) (proj1 Hw)).
    repeat constructor; apply dt_wf_of_total; unfold HOUR_US, MIN_US, US_PER_SECOND in *; lia.
  - apply (stepped_sorted (4 * HOUR_US)); [unfold HOUR_US, MIN_US, US_PER_SECOND; lia | exact Hs].
  - unfold point_totals, hours_back. simpl. rewrite Z.mul_0_l, Z.sub_0_r, dt_of_total_total by done.
    reflexivity.
Qed.

Lemma time_points_axis_witness :
  let now := mk_dt 739000 14 5 9 123 in
  dt_wf now ∧ (20 * HOUR_US <= dt_total now)%Z ∧
  ∃ tps, time_points now ⇓ tps ∧ length tps = 6 ∧ Forall dt_wf tps ∧
         stepped (4 * HOUR_US) (map dt_total tps) ∧
         StronglySorted Z.lt (map dt_total tps) ∧ last tps = Some now.
Proof.
  cbv zeta. assert (dt_wf (mk_dt 739000 14 5 9 123)) as Hw
    by (unfold dt_wf, MAXORDINAL, US_PER_SECOND; simpl; lia).
  assert (20 * HOUR_US <= dt_total (mk_dt 739000 14 5 9 123))%Z as Hge by (vm_compute; discriminate).
  split; [exact Hw | split; [exact Hge | apply (time_points_axis _ Hw Hge)]].
Defined.

(** C29: Line 262 as CPython runs it, on the stored year, month, day and
    time of [now], yields the stored form of the six points of the ordinal
    model, and raises the same exception when that one raises: the
    theorems C1-C3 on [time_points] describe CPython's own values. *)
Theorem time_points_cdt_refines (now : datetime) :
  dt_wf now → time_points_cdt (to_cdt now) = map to_cdt <$> time_points now.
Proof.
  intros Hw. apply mapM_fmap. intros h.
  destruct (timedelta_hours h); [by apply cdt_sub_agree | done].
Qed.

Lemma time_points_cdt_refines_witness :
  let now := mk_dt 739000 14 5 9 123 in
  dt_wf now ∧ time_points_cdt (to_cdt now) = map to_cdt <$> time_points now.
Proof.
  cbv zeta. assert (dt_wf (mk_dt 739000 14 5 9 123)) as Hw
    by (unfold dt_wf, MAXORDINAL, US_PER_SECOND; simpl; lia).
  split; [exact Hw | apply (time_points_cdt_refines _ Hw)].
Defined.

End SeriesFacts.
