(* ===== verification/Frame.v ===== *)
(** * The data frames of lines 267-268

    [pd.DataFrame({"Time": time_points, "Health": scores}).set_index("Time")]
    builds a frame from a dict of two lists and moves the ["Time"] column
    into the index.  This file models:

    - the dict literal as Python builds it ([dict_literal]: a repeated key
      keeps its first position and takes the last value);
    - the constructor's path for a dict of lists ([frame_of_dict]):
      [_extract_index] refuses lists of different lengths with
      [ValueError("All arrays must be of the same length")] and otherwise
      gives a [RangeIndex] of that length;
    - [set_index] with one key, [drop=True]: [KeyError] when the key is not
      a column, otherwise the column becomes the index (named after it) and
      leaves the columns.

    Cells are the Python objects the lists hold (datetimes and ints);
    pandas' dtype inference is not modelled: it changes the storage, not
    the values or their order. *)

From S2P Require Import Prelude PyDatetime Series.

Module Frame.
Import PyDatetime Series.

Inductive cell : Type :=
  | CDatetime (d : datetime)
  | CInt (z : Z).

Inductive index : Type :=
  | RangeIndex (n : nat)
  | LabelIndex (name : string) (labels : list cell).

Record frame := mk_frame {
  fr_index : index;
  fr_columns : list (string * list cell)
}.

(** ** Python dicts with string keys, in insertion order *)

Fixpoint dict_insert {A} (k : string) (v : A) (d : list (string * A)) : list (string * A) :=
  match d with
  | [] => [(k, v)]
  | (k', v') :: rest =>
      if String.eqb k k' then (k', v) :: rest else (k', v') :: dict_insert k v rest
  end.

Definition dict_literal {A} (items : list (string * A)) : list (string * A) :=
  fold_left (λ d '(k, v), dict_insert k v d) items [].

(** ** The constructor *)

Definition index_labels (i : index) : list cell :=
  match i with
  | RangeIndex n => map (λ k, CInt (Z.of_nat k)) (seq 0 n)
  | LabelIndex _ labels => labels
  end.

Definition index_length (i : index) : nat :=
  match i with
  | RangeIndex n => n
  | LabelIndex _ labels => length labels
  end.

(** [_extract_index] on raw lists: the set of their lengths must be a
    singleton; no list at all gives the empty index. *)
Definition extract_index (arrays : list (list cell)) : result index :=
  match arrays with
  | [] => Ok (RangeIndex 0)
  | a :: rest =>
      if forallb (λ b, Nat.eqb (length b) (length a)) rest
      then Ok (RangeIndex (length a))
      else Raise (ValueError "All arrays must be of the same length")
  end.

Definition frame_of_dict (d : list (string * list cell)) : result frame :=
  i ← extract_index (map snd d);
  Ok (mk_frame i d).

(** ** set_index(key) with drop=True *)

Definition set_index (key : string) (f : frame) : result frame :=
  match list_find (λ c, c.1 = key) (fr_columns f) with
  | None => Raise (KeyError ("None of ['" +:+ key +:+ "'] are in the columns"))
  | Some (_, (_, labels)) =>
      Ok (mk_frame (LabelIndex key labels)
                   (filter (λ c, c.1 ≠ key) (fr_columns f)))
  end.

(** ** The rows a frame denotes: each index label with the row's values *)

Fixpoint transpose (n : nat) (cols : list (list cell)) : list (list cell) :=
  match cols with
  | [] => replicate n []
  | c :: rest => zip_with cons c (transpose n rest)
  end.

Definition rows (f : frame) : list (cell * list cell) :=
  zip (index_labels (fr_index f))
      (transpose (index_length (fr_index f)) (map snd (fr_columns f))).

(** Every column has as many cells as the index has labels. *)
Definition frame_wf (f : frame) : Prop :=
  Forall (λ c, length c.2 = index_length (fr_index f)) (fr_columns f).

(** ** Lines 267-268 *)

Definition health_frame (tps : list datetime) (scores : list Z) : result frame :=
  df ← frame_of_dict (dict_literal [("Time", map CDatetime tps); ("Health", map CInt scores)]);
  set_index "Time" df.

Definition fish_df (now : datetime) : result frame :=
  tps ← time_points now; health_frame tps fish_scores.

Definition plant_df (now : datetime) : result frame :=
  tps ← time_points now; health_frame tps plant_scores.

End Frame.

Module FrameFacts.
Import PyDatetime PyDatetimeFacts Series SeriesFacts Frame.

Lemma dict_literal_two {A} (k1 k2 : string) (v1 v2 : A) :
  k1 ≠ k2 → dict_literal [(k1, v1); (k2, v2)] = [(k1, v1); (k2, v2)].
Proof.
  intros Hne. unfold dict_literal. simpl.
  destruct (String.eqb_spec k2 k1); [congruence | reflexivity].
Qed.

(** [extract_index] succeeds exactly on lists of one length. *)
Lemma extract_index_ok (arrays : list (list cell)) (n : nat) :
  arrays ≠ [] → Forall (λ a, length a = n) arrays →
  extract_index arrays ⇓ RangeIndex n.
Proof.
  intros Hne Hall. destruct arrays as [|a rest]; [done|].
  apply Forall_cons in Hall as [Ha Hrest]. simpl.
  replace (forallb _ rest) with true; [by rewrite Ha|].
  symmetry. apply forallb_forall. intros b Hb%list_elem_of_In.
  rewrite Forall_forall in Hrest. apply Nat.eqb_eq. rewrite Hrest, Ha by done. done.
Qed.

(** C8: The constructor accepts a dict of lists exactly when all lists
    have the same length; otherwise it raises [ValueError("All arrays must
    be of the same length")]. *)
Theorem frame_of_dict_ragged (d : list (string * list cell)) :
  frame_of_dict d ↯ ValueError "All arrays must be of the same length" ↔
  ∃ c1 c2, c1 ∈ d ∧ c2 ∈ d ∧ length c1.2 ≠ length c2.2.
Proof.
  unfold frame_of_dict. destruct d as [|[k a] rest]; simpl.
  { split; [discriminate | intros (? & ? & Hc & _); by apply elem_of_nil in Hc]. }
  destruct (forallb _ (map snd rest)) eqn:Hf; simpl.
  - split; [discriminate|]. intros (c1 & c2 & H1 & H2 & Hne). exfalso.
    rewrite forallb_forall in Hf.
    assert (∀ c, c ∈ (k, a) :: rest → length c.2 = length a) as Hl.
    { intros c [-> | Hc]%elem_of_cons; [done|]. apply Nat.eqb_eq, Hf.
      apply in_map, list_elem_of_In, Hc. }
    apply Hne. by rewrite !Hl.
  - split; [intros _|done].
    destruct (forallb_false_exists _ _ Hf) as (b & Hb & Hne).
    apply in_map_iff in Hb as (c & <- & Hc).
    exists (k, a), c. split; [by left|]. split; [right; by apply list_elem_of_In|].
    simpl. intros Heq. rewrite Heq, Nat.eqb_refl in Hne. discriminate.
Qed.

(** C33: Every frame the constructor returns is well formed: each column
    has as many cells as the index has labels. *)
Theorem frame_of_dict_wf (d : list (string * list cell)) (f : frame) :
  frame_of_dict d ⇓ f → frame_wf f.
Proof.
  unfold frame_of_dict. destruct d as [|[k a] rest]; simpl; [intros [= <-]; constructor|].
  destruct (forallb _ (map snd rest)) eqn:Hf; simpl; [|discriminate]. intros [= <-].
  unfold frame_wf; simpl. constructor; [done|].
  apply Forall_forall. intros c Hc. rewrite forallb_forall in Hf.
  apply Nat.eqb_eq, Hf, in_map, list_elem_of_In, Hc.
Qed.

Lemma frame_of_dict_wf_witness :
  frame_of_dict [("a", [CInt 1; CInt 2]); ("b", [CInt 3; CInt 4])] ⇓
    mk_frame (RangeIndex 2) [("a", [CInt 1; CInt 2]); ("b", [CInt 3; CInt 4])] ∧
  frame_wf (mk_frame (RangeIndex 2) [("a", [CInt 1; CInt 2]); ("b", [CInt 3; CInt 4])]).
Proof.
  assert (frame_of_dict [("a", [CInt 1; CInt 2]); ("b", [CInt 3; CInt 4])] ⇓
    mk_frame (RangeIndex 2) [("a", [CInt 1; CInt 2]); ("b", [CInt 3; CInt 4])]) as H by reflexivity.
  split; [exact H | exact (frame_of_dict_wf _ _ H)].
Defined.

Lemma frame_of_dict_ok (d : list (string * list cell)) (n : nat) :
  d ≠ [] → Forall (λ c, length c.2 = n) d →
  frame_of_dict d ⇓ mk_frame (RangeIndex n) d.
Proof.
  intros Hne Hall. unfold frame_of_dict. rewrite (extract_index_ok _ n).
  - reflexivity.
  - destruct d; [done | discriminate].
  - apply Forall_forall. intros b (c & <- & Hc)%list_elem_of_In%in_map_iff.
    rewrite Forall_forall in Hall. apply Hall, list_elem_of_In, Hc.
Qed.

Lemma list_find_first {A} (P : A → Prop) `{∀ x, Decision (P x)} (pre post : list A) (x : A) :
  Forall (λ y, ¬ P y) pre → P x → list_find P (pre ++ x :: post) = Some (length pre, x).
Proof.
  induction 1 as [|y pre Hy Hpre IH]; intros Hx; simpl.
  - by rewrite decide_True.
  - rewrite decide_False by done. rewrite IH by done. reflexivity.
Qed.

(** The column that [set_index] moves into the index is the first one
    named [key]. *)
Lemma set_index_first (key : string) (pre post : list (string * list cell))
    (labels : list cell) (i : index) :
  Forall (λ c, c.1 ≠ key) pre →
  set_index key (mk_frame i (pre ++ (key, labels) :: post)) ⇓
    mk_frame (LabelIndex key labels) (filter (λ c, c.1 ≠ key) (pre ++ (key, labels) :: post)).
Proof.
  intros Hpre. unfold set_index. simpl. rewrite list_find_first by done. reflexivity.
Qed.

Lemma filter_Forall_id (P : string * list cell → Prop) `{∀ c, Decision (P c)} (l : list (string * list cell)) :
  Forall P l → filter P l = l.
Proof. induction 1; [done|]. rewrite filter_cons_True by done. by f_equal. Qed.



(** C10: [set_index] raises [KeyError] exactly when no column has the
    requested name. *)
Theorem set_index_missing (key : string) (f : frame) :
  key ∉ (fr_columns f).*1 →
  set_index key f ↯ KeyError ("None of ['" +:+ key +:+ "'] are in the columns").
Proof.
  intros Hk. unfold set_index.
  destruct (list_find _ _) as [[j [k labels]]|] eqn:Hfind; [|reflexivity].
  apply list_find_Some in Hfind as (Hj & Hkey & _). simpl in Hkey; subst k.
  exfalso. apply Hk. apply list_elem_of_fmap_2' with (x := (key, labels)); [|done].
  by eapply list_elem_of_lookup_2.
Qed.

Lemma set_index_missing_witness :
  ("Date" ∉ (fr_columns (mk_frame (RangeIndex 1) [("Time", [CInt 7])])).*1) ∧
  set_index "Date" (mk_frame (RangeIndex 1) [("Time", [CInt 7])])
    ↯ KeyError ("None of ['" +:+ "Date" +:+ "'] are in the columns").
Proof.
  assert ("Date" ∉ (fr_columns (mk_frame (RangeIndex 1) [("Time", [CInt 7])])).*1) as Hk
    by (intros Hin%list_elem_of_In; destruct Hin as [Hin|[]]; discriminate).
  split; [exact Hk | exact (set_index_missing _ _ Hk)].
Defined.

(** The rows of a one-column frame: [transpose n [c]] unfolds to this. *)
Lemma zip_with_cons_nil (c : list cell) (n : nat) :
  length c = n → zip_with cons c (replicate n []) = map (λ x, [x]) c.
Proof.
  intros <-. induction c as [|x c IH]; simpl; [done | by rewrite IH].
Qed.

(** The frame of lines 267-268, for the chart and page proofs. *)
Lemma health_frame_ok (tps : list datetime) (scores : list Z) :
  length tps = length scores →
  ∃ f, health_frame tps scores ⇓ f ∧
       fr_index f = LabelIndex "Time" (map CDatetime tps) ∧
       fr_columns f = [("Health", map CInt scores)] ∧
       rows f = zip (map CDatetime tps) (map (λ z, [CInt z]) scores).
Proof.
  intros Hlen. unfold health_frame.
  rewrite dict_literal_two by done.
  rewrite (frame_of_dict_ok _ (length tps)); simpl.
  2: discriminate.
  2: repeat constructor; simpl; rewrite ?length_map; lia.
  pose proof (set_index_first "Time" [] [("Health", map CInt scores)] (map CDatetime tps)
    (RangeIndex (length tps)) ltac:(constructor)) as Hs. simpl in Hs. rewrite Hs.
  eexists; split; [reflexivity|]. simpl. split; [done | split; [done|]].
  unfold rows; simpl. rewrite zip_with_cons_nil by (rewrite !length_map; lia).
  rewrite map_map. reflexivity.
Qed.

(** C11: Lines 267-268 on a time axis and a score list of the same length
    build a frame indexed by the times (index named ["Time"]) with the one
    column ["Health"], whose rows pair each time with its score, in the
    order of the lists. *)
Theorem health_frame_rows (tps : list datetime) (scores : list Z) :
  length tps = length scores →
  ∃ f, health_frame tps scores ⇓ f ∧
       fr_index f = LabelIndex "Time" (map CDatetime tps) ∧
       fr_columns f = [("Health", map CInt scores)] ∧
       rows f = zip (map CDatetime tps) (map (λ z, [CInt z]) scores).
Proof. intros. by apply health_frame_ok. Qed.

Lemma health_frame_rows_witness :
  length [mk_dt 1 0 0 0 0] = length [94%Z] ∧
  ∃ f, health_frame [mk_dt 1 0 0 0 0] [94%Z] ⇓ f ∧
       fr_index f = LabelIndex "Time" (map CDatetime [mk_dt 1 0 0 0 0]) ∧
       fr_columns f = [("Health", map CInt [94%Z])] ∧
       rows f = zip (map CDatetime [mk_dt 1 0 0 0 0]) (map (λ z, [CInt z]) [94%Z]).
Proof.
  assert (length [mk_dt 1 0 0 0 0] = length [94%Z]) as H by reflexivity.
  split; [exact H | exact (health_frame_rows _ _ H)].
Defined.

(** C12: The fish frame of line 267 has one row per time point, pairing
    [now - 20h, ..., now] with the scores [94, 96, 95, 96, 97, 98] in
    order. *)
Theorem fish_df_rows (now : datetime) :
  dt_wf now → (20 * HOUR_US <= dt_total now)%Z →
  ∃ f, fish_df now ⇓ f ∧
       rows f = zip (map (λ T, CDatetime (dt_of_total T)) (point_totals now))
                    (map (λ z, [CInt z]) fish_scores).
Proof.
  intros Hw Hge. unfold fish_df. rewrite (time_points_eq now Hw Hge), bind_Ok.
  destruct (health_frame_ok (map dt_of_total (point_totals now)) fish_scores)
    as (f & Hf & _ & _ & Hr); [reflexivity|].
  rewrite Hf. exists f. split; [done|]. rewrite Hr, map_map. reflexivity.
Qed.

Lemma fish_df_rows_witness :
  let now := mk_dt 739000 14 5 9 123 in
  dt_wf now ∧ (20 * HOUR_US <= dt_total now)%Z ∧
  ∃ f, fish_df now ⇓ f ∧
       rows f = zip (map (λ T, CDatetime (dt_of_total T)) (point_totals now))
                    (map (λ z, [CInt z]) fish_scores).
Proof.
  cbv zeta. assert (dt_wf (mk_dt 739000 14 5 9 123)) as Hw
    by (unfold dt_wf, MAXORDINAL, US_PER_SECOND; simpl; lia).
  assert (20 * HOUR_US <= dt_total (mk_dt 739000 14 5 9 123))%Z as Hge by (vm_compute; discriminate).
  split; [exact Hw | split; [exact Hge | exact (fish_df_rows _ Hw Hge)]].
Defined.

End FrameFacts.
