(* ===== verification/Chart.v ===== *)
(** * The line charts of lines 427 and 455

    [st.line_chart(df, height=220)] hands the frame to Streamlit's
    [_generate_chart]: the index becomes the x column
    ([_maybe_reset_index_in_place]: it is named after the index, or
    ["index--p5bJXXpQgvPz6yvQMFiy"] when the index has no name), every
    other column is a y column, and [_maybe_melt] keeps the frame wide when
    there is one y column and melts it to long format ([x], ["color--p5bJXXpQgvPz6yvQMFiy"],
    ["value--p5bJXXpQgvPz6yvQMFiy"]) when there are several.  The browser
    draws each series as a polyline through its points sorted by x
    (Vega-Lite's default order for a line mark), with a stable sort.

    [sort_by_key] stands for that ordering (an insertion sort keeping
    equal keys in input order; it translates no code of the script or of
    Streamlit).  It leaves an x-sorted series unchanged, hence the charts
    of the script draw the six points in the order of the frame. *)

From S2P Require Import Prelude PyDatetime Series Frame.

Module Chart.
Import PyDatetime Frame.

Definition SEPARATED_INDEX_COLUMN_NAME : string := "index--p5bJXXpQgvPz6yvQMFiy".
Definition MELTED_Y_COLUMN_NAME : string := "value--p5bJXXpQgvPz6yvQMFiy".
Definition MELTED_COLOR_COLUMN_NAME : string := "color--p5bJXXpQgvPz6yvQMFiy".

(** The data the chart receives, wide or melted. *)
Inductive chart_data : Type :=
  | NoSeries (x : string) (xs : list cell)
  | Wide (x y : string) (xs ys : list cell)
  | Long (x : string) (points : list (cell * string * cell)).

Record chart := mk_chart {
  ch_mark : string;
  ch_height : Z;
  ch_data : chart_data
}.

Definition x_column_name (i : index) : string :=
  match i with
  | LabelIndex name _ => name
  | RangeIndex _ => SEPARATED_INDEX_COLUMN_NAME
  end.

(** [pd.melt(id_vars=[x], value_vars=ys)]: column after column, row after
    row. *)
Definition melt (xs : list cell) (cols : list (string * list cell)) : list (cell * string * cell) :=
  cols ≫= (λ c, zip_with (λ x v, (x, c.1, v)) xs c.2).

(** [_maybe_melt] on the y columns of the frame. *)
Definition prep_data (f : frame) : chart_data :=
  let x := x_column_name (fr_index f) in
  let xs := index_labels (fr_index f) in
  match fr_columns f with
  | [] => NoSeries x xs
  | [(y, ys)] => Wide x y xs ys
  | cols => Long x (melt xs cols)
  end.

Definition line_chart (f : frame) (height : Z) : chart :=
  mk_chart "line" height (prep_data f).

(** ** What the browser draws *)

(** The x position of a cell on a temporal or quantitative axis. *)
Definition cell_key (c : cell) : Z :=
  match c with
  | CDatetime d => dt_total d
  | CInt z => z
  end.

Section SortByKey.
Context {A : Type} (key : A → Z).

Definition key_le (a b : A) : Prop := (key a <= key b)%Z.

Fixpoint insert_by_key (x : A) (l : list A) : list A :=
  match l with
  | [] => [x]
  | y :: l' => if (key x <=? key y)%Z then x :: y :: l' else y :: insert_by_key x l'
  end.

Fixpoint sort_by_key (l : list A) : list A :=
  match l with
  | [] => []
  | x :: l' => insert_by_key x (sort_by_key l')
  end.
End SortByKey.

(** The polyline of series [y]: its (x, y) points in x order. *)
Definition polyline (c : chart) (y : string) : list (cell * cell) :=
  let pts :=
    match ch_data c with
    | NoSeries _ _ => []
    | Wide _ y' xs ys => if String.eqb y y' then zip xs ys else []
    | Long _ points => (λ p, (p.1.1, p.2)) <$> filter (λ p, p.1.2 = y) points
    end in
  sort_by_key (λ p, cell_key p.1) pts.

(** Lines 427 and 455. *)
Definition fish_chart (now : datetime) : result chart :=
  df ← fish_df now; Ok (line_chart df 220).

Definition plant_chart (now : datetime) : result chart :=
  df ← plant_df now; Ok (line_chart df 220).

End Chart.

Module ChartFacts.
Import PyDatetime PyDatetimeFacts Series SeriesFacts Frame FrameFacts Chart.

Section SortFacts.
Context {A : Type} (key : A → Z).

(** Inserting an element no greater than the head puts it in front. *)
Lemma insert_by_key_head (x : A) (l : list A) :
  HdRel (key_le key) x l → insert_by_key key x l = x :: l.
Proof.
  destruct l as [|y l]; simpl; [done|]. intros Hhd. inversion Hhd; subst.
  by rewrite (proj2 (Z.leb_le _ _)) by done.
Qed.

(** The x-sort on an x-sorted series, for the chart proofs. *)
Lemma sort_by_key_sorted_id (l : list A) : Sorted (key_le key) l → sort_by_key key l = l.
Proof.
  induction 1 as [|x l Hl IH Hhd]; simpl; [done|].
  rewrite IH. apply insert_by_key_head, Hhd.
Qed.

End SortFacts.

(** The chart of lines 427 and 455 for any six scores: the line goes
    through the six time points, in the order of the frame. *)
Lemma health_chart_polyline (now : datetime) (scores : list Z) :
  dt_wf now → (20 * HOUR_US <= dt_total now)%Z → length scores = 6 →
  ∃ c, (df ← (tps ← time_points now; health_frame tps scores); Ok (line_chart df 220)) ⇓ c ∧
       ch_height c = 220%Z ∧
       polyline c "Health" = zip (map (λ T, CDatetime (dt_of_total T)) (point_totals now))
                                 (map CInt scores).
Proof.
  intros Hw Hge Hlen. rewrite (time_points_eq now Hw Hge), bind_Ok.
  destruct (health_frame_ok (map dt_of_total (point_totals now)) scores)
    as (f & Hf & Hi & Hc & _); [by rewrite length_map, Hlen|].
  rewrite Hf, bind_Ok. eexists; split; [reflexivity|]. split; [reflexivity|].
  unfold polyline, line_chart, prep_data. cbn [ch_data]. rewrite Hi, Hc.
  cbn [x_column_name index_labels String.eqb Ascii.eqb Bool.eqb andb].
  rewrite sort_by_key_sorted_id, map_map; [reflexivity|].
  unfold point_totals, hours_back. cbn [map].
  destruct scores as [|a [|b [|c [|d [|e [|g [|? ?]]]]]]]; try discriminate. cbn [map zip].
  repeat apply Sorted_cons; repeat constructor; unfold key_le; cbn [fst cell_key];
    rewrite !dt_total_of_total; unfold HOUR_US, MIN_US, US_PER_SECOND; lia.
Qed.

(** C15: The fish chart of line 427 is 220 pixels high and draws the fish
    health line through the six points [(now - 20h, 94), ..., (now, 98)]
    in the order of the frame: the browser's x-sort neither reorders nor
    drops a point. *)
Theorem fish_chart_polyline (now : datetime) :
  dt_wf now → (20 * HOUR_US <= dt_total now)%Z →
  ∃ c, fish_chart now ⇓ c ∧ ch_height c = 220%Z ∧
       polyline c "Health" = zip (map (λ T, CDatetime (dt_of_total T)) (point_totals now))
                                 (map CInt fish_scores).
Proof. intros Hw Hge. by apply health_chart_polyline. Qed.

Lemma fish_chart_polyline_witness :
  let now := mk_dt 739000 14 5 9 123 in
  dt_wf now ∧ (20 * HOUR_US <= dt_total now)%Z ∧
  ∃ c, fish_chart now ⇓ c ∧ ch_height c = 220%Z ∧
       polyline c "Health" = zip (map (λ T, CDatetime (dt_of_total T)) (point_totals now))
                                 (map CInt fish_scores).
Proof.
  cbv zeta. assert (dt_wf (mk_dt 739000 14 5 9 123)) as Hw
    by (unfold dt_wf, MAXORDINAL, US_PER_SECOND; simpl; lia).
  assert (20 * HOUR_US <= dt_total (mk_dt 739000 14 5 9 123))%Z as Hge by (vm_compute; discriminate).
  split; [exact Hw | split; [exact Hge | exact (fish_chart_polyline _ Hw Hge)]].
Defined.

(** Likewise the plant chart of line 455 is 220 pixels high and draws
    the plant health line through [(now - 20h, 92), ..., (now, 96)] in the
    order of the frame. *)
Theorem plant_chart_polyline (now : datetime) :
  dt_wf now → (20 * HOUR_US <= dt_total now)%Z →
  ∃ c, plant_chart now ⇓ c ∧ ch_height c = 220%Z ∧
       polyline c "Health" = zip (map (λ T, CDatetime (dt_of_total T)) (point_totals now))
                                 (map CInt plant_scores).
Proof. intros Hw Hge. by apply health_chart_polyline. Qed.

Lemma plant_chart_polyline_witness :
  dt_wf (mk_dt 3652059 23 59 59 999999) ∧ (20 * HOUR_US <= dt_total (mk_dt 3652059 23 59 59 999999))%Z ∧
  ∃ c, plant_chart (mk_dt 3652059 23 59 59 999999) ⇓ c ∧ ch_height c = 220%Z ∧
       polyline c "Health" = zip (map (λ T, CDatetime (dt_of_total T)) (point_totals (mk_dt 3652059 23 59 59 999999)))
                                 (map CInt plant_scores).
Proof.
  assert (dt_wf (mk_dt 3652059 23 59 59 999999)) as Hw
    by (unfold dt_wf, MAXORDINAL, US_PER_SECOND; simpl; lia).
  assert (20 * HOUR_US <= dt_total (mk_dt 3652059 23 59 59 999999))%Z as Hge by (vm_compute; discriminate).
  split; [exact Hw | split; [exact Hge | exact (plant_chart_polyline _ Hw Hge)]].
Defined.

End ChartFacts.
