(* ===== verification/StrFormat.v ===== *)
(** * [str.format] as the headers of lines 403-423 and 431-451 use it

    The two "Last checked" headers are built with
    [template.format(time=now.strftime("%I:%M:%S %p"))].  This file
    translates CPython's implementation ([Objects/stringlib/unicode_format.h]):

    - [MarkupIterator_next] becomes the character-level state machine
      [fmt_loop]: literal text, the escapes ["{{"] and ["}}"], a field
      delimited by brace counting, and the three errors ["Single '}'
      encountered in format string"], ["Single '{' encountered in format
      string"] and ["expected '}' before end of string"];
    - [parse_field] splits a field into name, conversion and format spec,
      with ["unexpected '{' in field name"], ["end of string while looking
      for conversion specifier"] and ["expected ':' after conversion
      specifier"];
    - [field_name_split] and [get_field_object] resolve the name: empty or
      numeric names index the positional arguments (there are none in the
      script, so they raise [IndexError] before the auto-numbering state can
      matter); other names look up the keyword arguments ([KeyError]).

    Fields are rendered as they are met, so the first error in left-to-right
    order is the one raised, as in CPython.  Keyword values are strings.
    Outside the modelled fragment (an attribute or index accessor after the
    name, the conversions [!r] and [!a], a non-empty format spec) the model
    answers [None]; every other input gets CPython's result or exception. *)

From S2P Require Import Prelude.

Module StrFormat.

Definition PY_SSIZE_T_MAX : Z := (2 ^ 63 - 1)%Z.

Definition is_digit (c : Ascii.ascii) : bool :=
  (48 <=? Ascii.nat_of_ascii c)%nat && (Ascii.nat_of_ascii c <=? 57)%nat.

(** [get_integer]: [None] when the string is empty or has a non-digit. *)
Fixpoint digits_value (s : string) (acc : Z) : option Z :=
  match s with
  | EmptyString => Some acc
  | String c rest =>
      if is_digit c then digits_value rest (10 * acc + (Z.of_nat (Ascii.nat_of_ascii c) - 48))%Z
      else None
  end.

Definition get_integer (s : string) : option Z :=
  match s with EmptyString => None | _ => digits_value s 0 end.

(** ** parse_field *)

(** The field name runs to the first [':'], ['!'] or ['}'] outside
    brackets; ['{'] is refused.  The result is the name and, when the name
    stopped at [':'] or ['!'], that character and the rest. *)
Fixpoint scan_field_name (s acc : string) (in_bracket : bool)
  : result (string * option (Ascii.ascii * string)) :=
  match s with
  | EmptyString => Ok (acc, None)
  | String c rest =>
      if in_bracket then
        if Ascii.eqb c "]"%char then scan_field_name rest (acc +:+ String c "") false
        else scan_field_name rest (acc +:+ String c "") true
      else if Ascii.eqb c "{"%char then Raise (ValueError "unexpected '{' in field name")
      else if Ascii.eqb c "["%char then scan_field_name rest (acc +:+ String c "") true
      else if Ascii.eqb c "}"%char then Ok (acc +:+ String c "", None)
      else if Ascii.eqb c ":"%char || Ascii.eqb c "!"%char then Ok (acc, Some (c, rest))
      else scan_field_name rest (acc +:+ String c "") false
  end.

(** A parsed field: name, conversion character, format spec. *)
Record field := mk_field { fd_name : string; fd_conversion : option Ascii.ascii; fd_spec : string }.

Definition parse_field (s : string) : result field :=
  '(name, stop) ← scan_field_name s "" false;
  match stop with
  | None => Ok (mk_field name None "")
  | Some (c, rest) =>
      if Ascii.eqb c ":"%char then Ok (mk_field name None rest)
      else match rest with
           | EmptyString =>
               Raise (ValueError "end of string while looking for conversion specifier")
           | String conv EmptyString => Ok (mk_field name (Some conv) "")
           | String conv (String c2 spec) =>
               if Ascii.eqb c2 ":"%char then Ok (mk_field name (Some conv) spec)
               else Raise (ValueError "expected ':' after conversion specifier")
           end
  end.

(** ** field_name_split and get_field_object *)

(** The first part of a field name, up to ['.'] or ['['], and the rest. *)
Fixpoint split_first (s : string) : string * string :=
  match s with
  | EmptyString => ("", "")
  | String c rest =>
      if Ascii.eqb c "."%char || Ascii.eqb c "["%char then ("", s)
      else let '(f, r) := split_first rest in (String c f, r)
  end.

(** The keyword arguments of the call, in order. *)
Definition kwargs := list (string * string).

Fixpoint kw_lookup (kw : kwargs) (k : string) : option string :=
  match kw with
  | [] => None
  | (k', v) :: rest => if String.eqb k k' then Some v else kw_lookup rest k
  end.

(** [field_name_split] with [get_integer]'s overflow check, then
    [get_field_object].  The call has no positional arguments, so an empty
    or numeric first part raises [IndexError] at once: the first automatic
    field has number 0, and the auto-numbering state (which refuses to mix
    automatic and manual numbering) is never consulted before the
    exception.  [None]: the name has an accessor, which is not modelled. *)
Definition get_field_object (kw : kwargs) (name : string) : option (result string) :=
  let '(first, rest) := split_first name in
  match get_integer first with
  | Some n =>
      if (PY_SSIZE_T_MAX <? n)%Z
      then Some (Raise (ValueError "Too many decimal digits in format string"))
      else Some (Raise (IndexError ("Replacement index " +:+ dec_Z n +:+
                                    " out of range for positional args tuple")))
  | None =>
      match first with
      | EmptyString =>
          Some (Raise (IndexError "Replacement index 0 out of range for positional args tuple"))
      | _ =>
          match kw_lookup kw first with
          | None => Some (Raise (KeyError first))
          | Some v => match rest with EmptyString => Some (Ok v) | _ => None end
          end
      end
  end.

(** [output_markup]: the object, then [do_conversion], then the format
    spec.  On a string, [!s] and an empty spec leave it unchanged. *)
Definition render_field (kw : kwargs) (f : field) : option (result string) :=
  match get_field_object kw (fd_name f) with
  | None => None
  | Some (Raise e) => Some (Raise e)
  | Some (Ok v) =>
      let finish := match fd_spec f with EmptyString => Some (Ok v) | _ => None end in
      match fd_conversion f with
      | None => finish
      | Some c =>
          if Ascii.eqb c "s"%char then finish
          else if Ascii.eqb c "r"%char || Ascii.eqb c "a"%char then None
          else if (32 <? Ascii.nat_of_ascii c)%nat && (Ascii.nat_of_ascii c <? 127)%nat
          then Some (Raise (ValueError ("Unknown conversion specifier " +:+ String c "")))
          else None
      end
  end.

(** ** MarkupIterator_next as a state machine *)

(** In text; just after a ['{']; just after a ['}']; inside a field at a
    brace depth, with the field's text so far. *)
Inductive scan_mode : Type :=
  | MText
  | MOpen
  | MClose
  | MField (depth : nat) (text : string).

Fixpoint fmt_loop (kw : kwargs) (s : string) (m : scan_mode) (out : string)
  : option (result string) :=
  match s with
  | EmptyString =>
      match m with
      | MText => Some (Ok out)
      | MOpen => Some (Raise (ValueError "Single '{' encountered in format string"))
      | MClose => Some (Raise (ValueError "Single '}' encountered in format string"))
      | MField _ _ => Some (Raise (ValueError "expected '}' before end of string"))
      end
  | String c rest =>
      let complete (t : string) :=
        match parse_field t with
        | Raise e => Some (Raise e)
        | Ok f =>
            match render_field kw f with
            | Some (Ok v) => fmt_loop kw rest MText (out +:+ v)
            | r => r
            end
        end in
      match m with
      | MText =>
          if Ascii.eqb c "{"%char then fmt_loop kw rest MOpen out
          else if Ascii.eqb c "}"%char then fmt_loop kw rest MClose out
          else fmt_loop kw rest MText (out +:+ String c "")
      | MOpen =>
          if Ascii.eqb c "{"%char then fmt_loop kw rest MText (out +:+ "{")
          else if Ascii.eqb c "}"%char then complete ""
          else fmt_loop kw rest (MField 1 (String c "")) out
      | MClose =>
          if Ascii.eqb c "}"%char then fmt_loop kw rest MText (out +:+ "}")
          else Some (Raise (ValueError "Single '}' encountered in format string"))
      | MField n t =>
          if Ascii.eqb c "{"%char then fmt_loop kw rest (MField (S n) (t +:+ "{")) out
          else if Ascii.eqb c "}"%char then
            (if Nat.eqb n 1 then complete t else fmt_loop kw rest (MField (n - 1) (t +:+ "}")) out)
          else fmt_loop kw rest (MField n (t +:+ String c "")) out
      end
  end.

(** [template.format(k1=v1, ...)] with the keyword arguments [kw]. *)
Definition str_format (template : string) (kw : kwargs) : option (result string) :=
  fmt_loop kw template MText "".

(** ** Templates built from literal text and one keyword field *)

(** Literal text written in a template: braces doubled. *)
Fixpoint escape_braces (s : string) : string :=
  match s with
  | EmptyString => ""
  | String c rest =>
      if Ascii.eqb c "{"%char then String "{" (String "{" (escape_braces rest))
      else if Ascii.eqb c "}"%char then String "}" (String "}" (escape_braces rest))
      else String c (escape_braces rest)
  end.

(** A character that ends nothing in a field name. *)
Definition plain_char (c : Ascii.ascii) : bool :=
  negb (existsb (Ascii.eqb c) ["{"; "}"; "["; "]"; ":"; "!"; "."]%char).

(** A keyword field name: non-empty, no special character, not a number. *)
Definition plain_name (k : string) : bool :=
  negb (String.eqb k "") && forallb plain_char (String.list_ascii_of_string k) &&
  existsb (λ c, negb (is_digit c)) (String.list_ascii_of_string k).

End StrFormat.

Module StrFormatFacts.
Import StrFormat.

Lemma string_app_assoc_cons (out s : string) (c : Ascii.ascii) :
  (out +:+ String c "") +:+ s = out +:+ String c s.
Proof. by rewrite string_app_assoc. Qed.

Lemma fmt_loop_escape (kw : kwargs) (s rest out : string) :
  fmt_loop kw (escape_braces s +:+ rest) MText out = fmt_loop kw rest MText (out +:+ s).
Proof.
  revert out. induction s as [|c s IH]; intros out; simpl.
  - by rewrite string_app_nil_l, string_app_nil_r.
  - destruct (Ascii.eqb_spec c "{"%char) as [->|Hc1];
      [|destruct (Ascii.eqb_spec c "}"%char) as [->|Hc2]];
      rewrite ?string_app_cons; simpl; rewrite IH, string_app_assoc_cons;
      [done | done |].
    destruct (Ascii.eqb_spec c "{"%char); [congruence|].
    destruct (Ascii.eqb_spec c "}"%char); [congruence|]. done.
Qed.

(** C16: Literal text written with its braces doubled formats back to
    itself, whatever the keyword arguments. *)
Theorem format_escape_roundtrip (s : string) (kw : kwargs) :
  str_format (escape_braces s) kw = Some (Ok s).
Proof.
  unfold str_format. rewrite <- (string_app_nil_r (escape_braces s)).
  rewrite fmt_loop_escape. reflexivity.
Qed.

Lemma plain_char_spec (c : Ascii.ascii) :
  plain_char c = true →
  Ascii.eqb c "{"%char = false ∧ Ascii.eqb c "}"%char = false ∧ Ascii.eqb c "["%char = false ∧
  Ascii.eqb c ":"%char = false ∧ Ascii.eqb c "!"%char = false ∧ Ascii.eqb c "."%char = false.
Proof.
  unfold plain_char. simpl. rewrite !negb_orb.
  intros H. repeat (apply andb_prop in H as [? H]). rewrite !negb_true_iff in *. tauto.
Qed.

(** Inside a field at depth one, plain characters are collected. *)
Lemma fmt_loop_field_chars (kw : kwargs) (t acc rest out : string) :
  forallb plain_char (String.list_ascii_of_string t) = true →
  fmt_loop kw (t +:+ rest) (MField 1 acc) out = fmt_loop kw rest (MField 1 (acc +:+ t)) out.
Proof.
  revert acc. induction t as [|c t IH]; intros acc Ht; simpl in *.
  - by rewrite string_app_nil_l, string_app_nil_r.
  - apply andb_prop in Ht as [Hc Ht]. destruct (plain_char_spec c Hc) as (H1 & H2 & _).
    rewrite ?string_app_cons. simpl. rewrite H1, H2, IH by done.
    by rewrite string_app_assoc.
Qed.

Lemma scan_field_name_plain (k acc : string) :
  forallb plain_char (String.list_ascii_of_string k) = true →
  scan_field_name k acc false = Ok (acc +:+ k, None).
Proof.
  revert acc. induction k as [|c k IH]; intros acc Hk; simpl in *.
  - by rewrite string_app_nil_r.
  - apply andb_prop in Hk as [Hc Hk].
    destruct (plain_char_spec c Hc) as (H1 & H2 & H3 & H4 & H5 & _).
    rewrite H1, H2, H3, H4, H5. simpl. rewrite IH by done. by rewrite string_app_assoc.
Qed.

Lemma split_first_plain (k : string) :
  forallb plain_char (String.list_ascii_of_string k) = true → split_first k = (k, "").
Proof.
  induction k as [|c k IH]; intros Hk; simpl in *; [done|].
  apply andb_prop in Hk as [Hc Hk]. destruct (plain_char_spec c Hc) as (_ & _ & H3 & _ & _ & H6).
  rewrite H3, H6. simpl. by rewrite IH.
Qed.

Lemma digits_value_nondigit (k : string) (acc : Z) :
  existsb (λ c, negb (is_digit c)) (String.list_ascii_of_string k) = true →
  digits_value k acc = None.
Proof.
  revert acc. induction k as [|c k IH]; intros acc Hk; simpl in *; [discriminate|].
  destruct (is_digit c); simpl in *; [by apply IH | done].
Qed.

(** A plain keyword field [{k}] renders the value of [k], or raises
    [KeyError(k)]. *)
Lemma fmt_loop_field (kw : kwargs) (k rest out : string) :
  plain_name k = true →
  fmt_loop kw ("{" +:+ k +:+ "}" +:+ rest) MText out =
    match kw_lookup kw k with
    | Some v => fmt_loop kw rest MText (out +:+ v)
    | None => Some (Raise (KeyError k))
    end.
Proof.
  unfold plain_name. intros Hk. apply andb_prop in Hk as [Hk Hdig].
  apply andb_prop in Hk as [Hne Hplain].
  destruct k as [|c k]; [discriminate|]. simpl in Hplain.
  apply andb_prop in Hplain as [Hc Hplain]. destruct (plain_char_spec c Hc) as (H1 & H2 & _).
  rewrite !string_app_cons, string_app_nil_l. simpl. rewrite H1, H2.
  rewrite fmt_loop_field_chars by done. rewrite ?string_app_cons, ?string_app_nil_l. simpl.
  unfold parse_field. rewrite scan_field_name_plain by (simpl; rewrite Hc; done). simpl.
  unfold render_field, get_field_object. simpl fd_name.
  rewrite split_first_plain by (simpl; rewrite Hc; done).
  unfold get_integer. rewrite digits_value_nondigit by done.
  rewrite !string_app_nil_l. destruct (kw_lookup kw (String c k)); reflexivity.
Qed.

(** One-field substitution, for the header proofs. *)
Lemma format_field_eq (a b k v : string) (kw : kwargs) :
  plain_name k = true → kw_lookup kw k = Some v →
  str_format (escape_braces a +:+ "{" +:+ k +:+ "}" +:+ escape_braces b) kw
    = Some (Ok (a +:+ v +:+ b)).
Proof.
  intros Hk Hv. unfold str_format.
  rewrite fmt_loop_escape, string_app_nil_l, fmt_loop_field, Hv by done.
  rewrite <- (string_app_nil_r (escape_braces b)), fmt_loop_escape.
  simpl. by rewrite string_app_assoc.
Qed.

(** C17: A template made of literal text, one plain keyword field [{k}]
    and literal text formats to the first text, the value of [k], and the
    second text. *)
Theorem format_field_subst (a b k v : string) (kw : kwargs) :
  plain_name k = true → kw_lookup kw k = Some v →
  str_format (escape_braces a +:+ "{" +:+ k +:+ "}" +:+ escape_braces b) kw
    = Some (Ok (a +:+ v +:+ b)).
Proof. intros. by apply format_field_eq. Qed.

Lemma format_field_subst_witness :
  plain_name "time" = true ∧ kw_lookup [("time", "09:41:00 AM")] "time" = Some "09:41:00 AM" ∧
  str_format (escape_braces "Last checked: " +:+ "{" +:+ "time" +:+ "}" +:+ escape_braces "")
             [("time", "09:41:00 AM")] = Some (Ok ("Last checked: " +:+ "09:41:00 AM" +:+ "")).
Proof.
  assert (plain_name "time" = true) as Hk by reflexivity.
  assert (kw_lookup [("time", "09:41:00 AM")] "time" = Some "09:41:00 AM") as Hv by reflexivity.
  split; [exact Hk | split; [exact Hv | exact (format_field_subst _ _ _ _ _ Hk Hv)]].
Defined.

(** C18: When the keyword argument is missing, the same template raises
    [KeyError(k)]. *)
Theorem format_missing_key (a b k : string) (kw : kwargs) :
  plain_name k = true → kw_lookup kw k = None →
  str_format (escape_braces a +:+ "{" +:+ k +:+ "}" +:+ escape_braces b) kw
    = Some (Raise (KeyError k)).
Proof.
  intros Hk Hv. unfold str_format.
  rewrite fmt_loop_escape, string_app_nil_l, fmt_loop_field, Hv by done. reflexivity.
Qed.

Lemma format_missing_key_witness :
  plain_name "time" = true ∧ kw_lookup [("now", "x")] "time" = None ∧
  str_format (escape_braces "a" +:+ "{" +:+ "time" +:+ "}" +:+ escape_braces "b") [("now", "x")]
    = Some (Raise (KeyError "time")).
Proof.
  assert (plain_name "time" = true) as Hk by reflexivity.
  assert (kw_lookup [("now", "x")] "time" = None) as Hv by reflexivity.
  split; [exact Hk | split; [exact Hv | exact (format_missing_key _ _ _ _ Hk Hv)]].
Defined.

End StrFormatFacts.
