(* ===== verification/Text.v ===== *)
(** * Streamlit's cleaning of a markdown body

    [st.markdown(body)] sends [clean_text(body)], which is
    [textwrap.dedent(str(body)).strip()] (streamlit/string_util.py).  Every
    markdown call of the script (lines 16, 273, 295, 333, 403, 428, 431,
    456) goes through it.  This file translates:

    - [str.split('\n')] and ['\n'.join(...)] ([split_lines], [join_lines]);
    - [textwrap.dedent]: whitespace-only lines become empty, the margin is
      computed by the loop over the indents of the lines with content
      ([margin_step]), and the margin is removed from the start of every
      line that has it;
    - [str.strip()] for the ASCII whitespace characters.

    [TextFacts] shows that [dedent] removes exactly the common margin of
    the non-blank lines (a margin added to all of them changes nothing),
    that [strip] removes exactly the whitespace at both ends, and that
    [clean_text] leaves a fragment inserted in the middle of a line
    alone.

    Strings are byte strings; [str.strip()] also removes the non-ASCII
    Unicode spaces (U+0085, U+00A0, ...), which are several bytes here and
    are not modelled: no markdown body of the script starts or ends with
    one. *)

From S2P Require Import Prelude.

Module Text.

Definition NL : Ascii.ascii := Ascii.ascii_of_nat 10.
Definition TAB : Ascii.ascii := Ascii.ascii_of_nat 9.

(** [str.split('\n')]: always at least one piece. *)
Fixpoint split_lines (s : string) : list string :=
  match s with
  | EmptyString => [""]
  | String c rest =>
      if Ascii.eqb c NL then "" :: split_lines rest
      else match split_lines rest with
           | l :: ls => String c l :: ls
           | [] => [String c ""]
           end
  end.

(** ['\n'.join(lines)]. *)
Fixpoint join_lines (ls : list string) : string :=
  match ls with
  | [] => ""
  | [l] => l
  | l :: rest => l +:+ String NL (join_lines rest)
  end.

(** ** textwrap.dedent *)

(** The characters of [[ \t]]. *)
Definition is_blank_char (c : Ascii.ascii) : bool := Ascii.eqb c " "%char || Ascii.eqb c TAB.

Definition all_blank (l : string) : bool :=
  forallb is_blank_char (String.list_ascii_of_string l).

(** [_whitespace_only_re.sub('', text)] on one line. *)
Definition blank_line (l : string) : string := if all_blank l then "" else l.

(** The indent [_leading_whitespace_re] captures. *)
Fixpoint leading_ws (l : string) : string :=
  match l with
  | String c rest => if is_blank_char c then String c (leading_ws rest) else ""
  | EmptyString => ""
  end.

Fixpoint starts_with (p s : string) : bool :=
  match p, s with
  | EmptyString, _ => true
  | String c p', String d s' => Ascii.eqb c d && starts_with p' s'
  | String _ _, EmptyString => false
  end.

Fixpoint common_prefix (a b : string) : string :=
  match a, b with
  | String c a', String d b' => if Ascii.eqb c d then String c (common_prefix a' b') else ""
  | _, _ => ""
  end.

(** One turn of [dedent]'s loop over the indents. *)
Definition margin_step (margin : option string) (indent : string) : option string :=
  match margin with
  | None => Some indent
  | Some m =>
      if starts_with m indent then Some m
      else if starts_with indent m then Some indent
      else Some (common_prefix m indent)
  end.

Fixpoint string_drop (n : nat) (s : string) : string :=
  match n, s with
  | S n', String _ s' => string_drop n' s'
  | _, _ => s
  end.

(** [re.sub(r'(?m)^' + margin, '', text)] on one line. *)
Definition remove_margin (m l : string) : string :=
  if starts_with m l then string_drop (String.length m) l else l.

Definition dedent (text : string) : string :=
  let ls := map blank_line (split_lines text) in
  let indents := map leading_ws (filter (λ l, negb (String.eqb l "")) ls) in
  match fold_left margin_step indents None with
  | Some m =>
      if String.eqb m "" then join_lines ls else join_lines (map (remove_margin m) ls)
  | None => join_lines ls
  end.

(** ** str.strip *)

(** The ASCII characters [str.isspace] accepts. *)
Definition py_space (c : Ascii.ascii) : bool :=
  let n := Ascii.nat_of_ascii c in
  ((9 <=? n)%nat && (n <=? 13)%nat) || ((28 <=? n)%nat && (n <=? 32)%nat).

Fixpoint lstrip (s : string) : string :=
  match s with
  | String c rest => if py_space c then lstrip rest else s
  | EmptyString => ""
  end.

Fixpoint string_rev (s : string) : string :=
  match s with
  | String c rest => string_rev rest +:+ String c ""
  | EmptyString => ""
  end.

Definition strip (s : string) : string := string_rev (lstrip (string_rev (lstrip s))).

(** [clean_text]. *)
Definition clean_text (body : string) : string := strip (dedent body).

End Text.

Module TextFacts.
Import Text.

Lemma split_lines_cons (s : string) : ∃ l ls, split_lines s = l :: ls.
Proof.
  induction s as [|c s (l & ls & IH)]; simpl; [by eexists _, _|].
  destruct (Ascii.eqb c NL); rewrite ?IH; by eexists _, _.
Qed.

(** Splitting and joining lines, for the rendering proofs. *)
Lemma join_split_lines_eq (s : string) : join_lines (split_lines s) = s.
Proof.
  induction s as [|c s IH]; [reflexivity|]. cbn [split_lines].
  destruct (split_lines_cons s) as (l & ls & E). rewrite E in IH |- *.
  destruct (Ascii.eqb c NL) eqn:Ec.
  - apply Ascii.eqb_eq in Ec. subst c.
    change (join_lines ("" :: l :: ls)) with ("" +:+ String NL (join_lines (l :: ls))).
    by rewrite string_app_nil_l, IH.
  - destruct ls as [|l' ls]; cbn [join_lines] in IH |- *; [by rewrite IH|].
    by rewrite string_app_cons, IH.
Qed.

(** ** str.strip *)

(** A string of whitespace only, and a string that does not start with
    whitespace. *)
Definition all_space (s : string) : bool := forallb py_space (String.list_ascii_of_string s).
Definition no_lead_space (s : string) : bool :=
  match s with String c _ => negb (py_space c) | EmptyString => true end.

Lemma all_space_app (a b : string) : all_space (a +:+ b) = all_space a && all_space b.
Proof.
  induction a as [|c a IH]; [reflexivity|]. rewrite string_app_cons. unfold all_space in *.
  simpl. rewrite IH. by destruct (py_space c).
Qed.

Lemma string_rev_app (a b : string) : string_rev (a +:+ b) = string_rev b +:+ string_rev a.
Proof.
  induction a as [|c a IH].
  - rewrite string_app_nil_l, string_app_nil_r. reflexivity.
  - rewrite string_app_cons. cbn [string_rev]. by rewrite IH, string_app_assoc.
Qed.

Lemma string_rev_involutive (s : string) : string_rev (string_rev s) = s.
Proof.
  induction s as [|c s IH]; [reflexivity|]. simpl.
  rewrite string_rev_app, IH. reflexivity.
Qed.

Lemma all_space_rev (s : string) : all_space (string_rev s) = all_space s.
Proof.
  induction s as [|c s IH]; [reflexivity|]. simpl. rewrite all_space_app, IH.
  unfold all_space; simpl. by destruct (py_space c), (forallb _ _).
Qed.

Lemma lstrip_split (s : string) :
  ∃ pre, s = pre +:+ lstrip s ∧ all_space pre = true ∧ no_lead_space (lstrip s) = true.
Proof.
  induction s as [|c s (pre & E & Hp & Hl)]; [by exists ""|]. simpl.
  destruct (py_space c) eqn:Hc.
  - exists (String c pre). rewrite string_app_cons, <- E.
    unfold all_space in *; simpl. by rewrite Hc, Hp.
  - exists "". simpl. by rewrite Hc.
Qed.

Lemma no_lead_space_app (a b : string) :
  no_lead_space (a +:+ b) = true → no_lead_space a = true.
Proof. destruct a; [done|]. by rewrite string_app_cons. Qed.

Lemma no_last_space (u : string) :
  no_lead_space (string_rev u) = true → ∀ t c, u = t +:+ String c "" → py_space c = false.
Proof.
  intros H t c ->. rewrite string_rev_app in H. cbn [string_rev] in H.
  rewrite string_app_nil_l, string_app_cons, string_app_nil_l in H. cbn in H. by apply negb_true_iff.
Qed.

(** C28: [str.strip] removes exactly the whitespace at both ends: the body
    is the stripped text between two runs of whitespace, and the stripped
    text neither starts nor ends with a whitespace character. *)
Theorem strip_spec (s : string) :
  ∃ pre post, s = pre +:+ strip s +:+ post ∧ all_space pre = true ∧ all_space post = true ∧
    no_lead_space (strip s) = true ∧ ∀ t c, strip s = t +:+ String c "" → py_space c = false.
Proof.
  destruct (lstrip_split s) as (pre & E1 & Hp & Hl).
  destruct (lstrip_split (string_rev (lstrip s))) as (pre2 & E2 & Hp2 & Hl2).
  unfold strip. set (u := lstrip s) in *. set (v := lstrip (string_rev u)) in *.
  assert (u = string_rev v +:+ string_rev pre2) as Eu
    by (rewrite <- string_rev_app, <- E2; symmetry; apply string_rev_involutive).
  exists pre, (string_rev pre2). split; [by rewrite <- Eu|].
  split; [done|]. split; [by rewrite all_space_rev|].
  split; [rewrite Eu in Hl; by eapply no_lead_space_app|].
  apply no_last_space. by rewrite string_rev_involutive.
Qed.

(** ** Text inserted inside a line

    The headers of lines 403-423 and 431-451 are a template with the clock
    text inserted in the middle of a line.  The lemmas below show that
    [clean_text] treats such a fragment as opaque: it only looks at line
    starts, blank lines and the two ends of the body. *)

Lemma split_lines_nonempty (s : string) : ∃ A l, split_lines s = A ++ [l].
Proof.
  destruct (split_lines_cons s) as (l & ls & E). rewrite E.
  destruct (exists_last (l := l :: ls)) as (A & x & Ex); [done|]. by exists A, x.
Qed.

Lemma split_lines_app (a b l1 l2 : string) (A B : list string) :
  split_lines a = A ++ [l1] → split_lines b = l2 :: B →
  split_lines (a +:+ b) = A ++ [l1 +:+ l2] ++ B.
Proof.
  intros Ha Hb. revert A l1 Ha. induction a as [|c a IH]; intros A l1 Ha.
  - change ([] ++ [""] = A ++ [l1]) in Ha. apply app_inj_tail in Ha as [<- <-].
    by rewrite !string_app_nil_l, Hb.
  - rewrite string_app_cons. cbn [split_lines] in Ha |- *.
    destruct (split_lines_nonempty a) as (A' & l' & Ea).
    rewrite (IH A' l' Ea). rewrite Ea in Ha.
    destruct (Ascii.eqb c NL).
    + apply (app_inj_tail ("" :: A') A) in Ha as [<- <-]. done.
    + destruct A' as [|y A']; simpl in Ha |- *.
      * change [String c l'] with ([] ++ [String c l']) in Ha.
        apply app_inj_tail in Ha as [<- <-]. done.
      * apply (app_inj_tail (String c y :: A') A) in Ha as [<- <-]. done.
Qed.

Lemma split_lines_no_nl (m : string) :
  Forall (λ c, c ≠ NL) (String.list_ascii_of_string m) → split_lines m = [m].
Proof.
  induction m as [|c m IH]; [done|]. simpl. intros [Hc Hm]%Forall_cons.
  rewrite IH by done. by destruct (Ascii.eqb_spec c NL).
Qed.

(** ['\n'.join] around a middle line. *)
Definition join_before (X : list string) : string :=
  match X with [] => "" | _ => join_lines X +:+ String NL "" end.
Definition join_after (Y : list string) : string :=
  match Y with [] => "" | _ => String NL (join_lines Y) end.

Lemma join_lines_cons (x : string) (Y : list string) :
  join_lines (x :: Y) = x +:+ join_after Y.
Proof. destruct Y; simpl; [by rewrite string_app_nil_r | done]. Qed.

Lemma join_after_mid (X Y : list string) (y : string) :
  join_after (X ++ y :: Y) = String NL (join_lines (X ++ y :: Y)).
Proof. by destruct X. Qed.

Lemma join_before_after (X : list string) (z : string) :
  String NL (join_before X +:+ z) = join_after X +:+ String NL z.
Proof.
  destruct X as [|x X]; cbn [join_before join_after]; [done|].
  by rewrite string_app_assoc, string_app_cons, string_app_nil_l.
Qed.

Lemma join_lines_mid (X Y : list string) (y : string) :
  join_lines (X ++ y :: Y) = join_before X +:+ y +:+ join_after Y.
Proof.
  induction X as [|x X IH]; cbn [app]; [apply join_lines_cons|].
  rewrite join_lines_cons, join_after_mid, IH, join_before_after.
  cbn [join_before]. rewrite (join_lines_cons x X), !string_app_assoc.
  by rewrite string_app_cons, string_app_nil_l.
Qed.

Definition no_nl (m : string) : Prop := Forall (λ c, c ≠ NL) (String.list_ascii_of_string m).

Lemma all_blank_app (a b : string) : all_blank (a +:+ b) = all_blank a && all_blank b.
Proof.
  induction a as [|c a IH]; [done|]. rewrite string_app_cons. unfold all_blank in *.
  simpl. rewrite IH. by destruct (is_blank_char c).
Qed.

Lemma leading_ws_app (a b : string) : all_blank a = false → leading_ws (a +:+ b) = leading_ws a.
Proof.
  induction a as [|c a IH]; [done|]. rewrite string_app_cons. unfold all_blank. simpl.
  destruct (is_blank_char c); simpl; [|done]. intros H. by rewrite IH.
Qed.

Lemma starts_with_drop_app (p a b : string) :
  starts_with p a = true → string_drop (String.length p) (a +:+ b) = string_drop (String.length p) a +:+ b.
Proof.
  revert a. induction p as [|c p IH]; intros a; [done|].
  destruct a as [|d a]; [done|]. simpl. intros [_ H]%andb_prop. by apply IH.
Qed.

Lemma starts_with_app (p a b : string) : starts_with p a = true → starts_with p (a +:+ b) = true.
Proof.
  revert a. induction p as [|c p IH]; intros a; [done|].
  destruct a as [|d a]; [done|]. simpl. intros [-> H]%andb_prop. by apply IH.
Qed.

(** The indentation margin [dedent] computes for lines [A], [l1] and [B]. *)
Definition insert_margin (A : list string) (l1 : string) (B : list string) : option string :=
  let ind ls := map leading_ws (filter (λ l, negb (String.eqb l "")) (map blank_line ls)) in
  fold_left margin_step (ind A ++ [leading_ws l1] ++ ind B) None.

Lemma blank_line_mid (l1 r : string) : all_blank l1 = false → blank_line (l1 +:+ r) = l1 +:+ r.
Proof. intros H. unfold blank_line. by rewrite all_blank_app, H. Qed.

Lemma nonempty_of_not_blank (l : string) : all_blank l = false → String.eqb l "" = false.
Proof. by destruct l. Qed.

Lemma dedent_insert (pre post m l1 l2 Mg : string) (A B : list string) :
  no_nl m → split_lines pre = A ++ [l1] → split_lines post = l2 :: B → all_blank l1 = false →
  insert_margin A l1 B = Some Mg → String.eqb Mg "" = false → starts_with Mg l1 = true →
  dedent (pre +:+ m +:+ post) =
    (join_before (map (remove_margin Mg) (map blank_line A)) +:+ string_drop (String.length Mg) l1)
    +:+ m +:+ (l2 +:+ join_after (map (remove_margin Mg) (map blank_line B))).
Proof.
  intros Hm Hpre Hpost Hl1 HM HMg Hs.
  assert (split_lines (pre +:+ m +:+ post) = A ++ [l1 +:+ (m +:+ l2)] ++ B) as Hsplit.
  { apply (split_lines_app _ _ _ _ _ _ Hpre).
    apply (split_lines_app m post m l2 [] B); [by rewrite split_lines_no_nl | exact Hpost]. }
  unfold dedent. rewrite Hsplit, !map_app. cbn [map].
  rewrite blank_line_mid by done.
  rewrite !filter_app, filter_cons_True, filter_nil;
    [|by rewrite nonempty_of_not_blank by (rewrite all_blank_app, Hl1; done)].
  rewrite !map_app. cbn [map]. rewrite leading_ws_app by done.
  unfold insert_margin in HM. rewrite HM, HMg, !map_app. cbn [map].
  cbn [app]. rewrite join_lines_mid. unfold remove_margin at 2.
  rewrite starts_with_app by done. rewrite starts_with_drop_app by done.
  by rewrite !string_app_assoc.
Qed.

Lemma lstrip_app (a b : string) : all_space a = false → lstrip (a +:+ b) = lstrip a +:+ b.
Proof.
  induction a as [|c a IH]; [done|]. rewrite string_app_cons. unfold all_space. simpl.
  destruct (py_space c); simpl; [exact IH | done].
Qed.

(** [str.strip] of a text whose two sides are not all whitespace. *)
Lemma strip_insert (P m Q : string) :
  all_space P = false → all_space Q = false →
  strip (P +:+ m +:+ Q) = lstrip P +:+ m +:+ string_rev (lstrip (string_rev Q)).
Proof.
  intros HP HQ. unfold strip. rewrite lstrip_app by done.
  rewrite !string_rev_app, string_app_assoc, lstrip_app by (by rewrite all_space_rev).
  by rewrite !string_rev_app, !string_rev_involutive, string_app_assoc.
Qed.

Fixpoint split_last (l : list string) : option (list string * string) :=
  match l with
  | [] => None
  | [x] => Some ([], x)
  | x :: l' => (λ p, (x :: p.1, p.2)) <$> split_last l'
  end.

Lemma split_last_spec (l A : list string) (x : string) :
  split_last l = Some (A, x) → l = A ++ [x].
Proof.
  revert A. induction l as [|y l IH]; intros A; [done|].
  destruct l as [|z l]; [simpl; by intros [= <- <-]|].
  change (split_last (y :: z :: l)) with ((λ p, (y :: p.1, p.2)) <$> split_last (z :: l)).
  destruct (split_last (z :: l)) as [[A' x']|] eqn:E; simpl; [|done].
  intros [= <- <-]. by rewrite (IH A').
Qed.

(** The cleaned text before and after a fragment inserted between [pre]
    and [post], when [clean_text] provably leaves the fragment alone. *)
Definition insert_parts (pre post : string) : option (string * string) :=
  match split_last (split_lines pre), split_lines post with
  | Some (A, l1), l2 :: B =>
      match insert_margin A l1 B with
      | Some Mg =>
          let P := join_before (map (remove_margin Mg) (map blank_line A)) +:+ string_drop (String.length Mg) l1 in
          let Q := l2 +:+ join_after (map (remove_margin Mg) (map blank_line B)) in
          if negb (all_blank l1) && negb (String.eqb Mg "") && starts_with Mg l1 &&
             negb (all_space P) && negb (all_space Q)
          then Some (lstrip P, string_rev (lstrip (string_rev Q)))
          else None
      | None => None
      end
  | _, _ => None
  end.

Lemma clean_text_insert_eq (pre post m cp cq : string) :
  insert_parts pre post = Some (cp, cq) → no_nl m →
  clean_text (pre +:+ m +:+ post) = cp +:+ m +:+ cq.
Proof.
  intros H Hm. unfold insert_parts in H.
  destruct (split_last (split_lines pre)) as [[A l1]|] eqn:Hpre; [|done].
  destruct (split_lines post) as [|l2 B] eqn:Hpost; [done|].
  destruct (insert_margin A l1 B) as [Mg|] eqn:HM; [|done].
  cbv zeta in H. case_match eqn:Hc; [|done]. injection H as <- <-.
  rewrite !andb_true_iff, !negb_true_iff in Hc. destruct Hc as ((((H1 & H2) & H3) & H4) & H5).
  unfold clean_text. erewrite dedent_insert; [|done|by apply split_last_spec|done..].
  by apply strip_insert.
Qed.

(** C34: [clean_text] treats a fragment inserted in the middle of a line
    as opaque: when the cleaning of the two sides is determined
    ([insert_parts] succeeds), the cleaned text is the cleaned first side,
    the fragment unchanged, and the cleaned second side, whatever the
    fragment (without line break) is. *)
Theorem clean_text_insert (pre post m cp cq : string) :
  insert_parts pre post = Some (cp, cq) → no_nl m →
  clean_text (pre +:+ m +:+ post) = cp +:+ m +:+ cq.
Proof. intros. by apply clean_text_insert_eq. Qed.

Lemma clean_text_insert_witness :
  insert_parts "  at: " " ok" = Some ("at: ", " ok") ∧ no_nl "02:05:09 PM" ∧
  clean_text ("  at: " +:+ "02:05:09 PM" +:+ " ok") = "at: " +:+ "02:05:09 PM" +:+ " ok".
Proof.
  assert (insert_parts "  at: " " ok" = Some ("at: ", " ok")) as H1 by (vm_compute; reflexivity).
  assert (no_nl "02:05:09 PM") as H2 by (unfold no_nl, NL; simpl; repeat constructor; cbv; discriminate).
  split; [exact H1 | split; [exact H2 | exact (clean_text_insert _ _ _ _ _ H1 H2)]].
Defined.

(** ** [dedent] removes a margin added to every non-blank line

    [textwrap.dedent] computes the longest common leading whitespace of the
    non-blank lines and removes it.  Adding the same blank prefix [w] to
    every non-blank line therefore changes nothing: the common margin grows
    by [w] and all of it is removed. *)

(** Prefix [w] to every line that is not blank. *)
Definition add_margin (w s : string) : string :=
  join_lines (map (λ l, if all_blank l then l else w +:+ l) (split_lines s)).

Lemma no_nl_app (a b : string) : no_nl a → no_nl b → no_nl (a +:+ b).
Proof. unfold no_nl. rewrite list_ascii_of_string_app. apply Forall_app_2. Qed.

Lemma blank_no_nl (w : string) : all_blank w = true → no_nl w.
Proof.
  unfold all_blank, no_nl. rewrite !Forall_forall. intros Hw c Hc. pose proof (proj1 (forallb_forall _ _) Hw c) as H.
  apply list_elem_of_In in Hc. specialize (H Hc). intros ->. discriminate.
Qed.

Lemma split_lines_no_nl_all (s : string) : Forall no_nl (split_lines s).
Proof.
  unfold no_nl. induction s as [|c s IH]; cbn [split_lines]; [by repeat constructor|].
  destruct (Ascii.eqb_spec c NL); [by repeat constructor|].
  destruct (split_lines s) as [|l ls]; [by repeat constructor|].
  apply Forall_cons in IH as [Hl Hls]. by repeat constructor.
Qed.

Lemma split_lines_NL_app (x r : string) : no_nl x → split_lines (x +:+ String NL r) = x :: split_lines r.
Proof.
  unfold no_nl. induction x as [|c x IH]; intros Hx; [done|].
  rewrite string_app_cons. cbn in Hx. apply Forall_cons in Hx as [Hc Hx].
  cbn [split_lines]. rewrite IH by done. by destruct (Ascii.eqb_spec c NL).
Qed.

Lemma split_join_lines (L : list string) : L ≠ [] → Forall no_nl L → split_lines (join_lines L) = L.
Proof.
  induction L as [|x L IH]; [done|]. intros _ [Hx HL]%Forall_cons.
  destruct L as [|y L]; [by apply split_lines_no_nl|].
  change (join_lines (x :: y :: L)) with (x +:+ String NL (join_lines (y :: L))).
  rewrite split_lines_NL_app by done. by rewrite IH.
Qed.

Lemma split_add_margin (w s : string) : all_blank w = true →
  split_lines (add_margin w s) = map (λ l, if all_blank l then l else w +:+ l) (split_lines s).
Proof.
  intros Hw. apply split_join_lines.
  - destruct (split_lines_cons s) as (l & ls & ->). discriminate.
  - apply Forall_fmap, (Forall_impl _ _ _ (split_lines_no_nl_all s)). intros l Hl. simpl.
    destruct (all_blank l); [done | by apply no_nl_app, Hl; apply blank_no_nl].
Qed.

(** Prefixes. *)
Lemma starts_with_refl (s : string) : starts_with s s = true.
Proof. induction s; simpl; [done|]. by rewrite Ascii.eqb_refl. Qed.

Lemma starts_with_trans (p q r : string) : starts_with p q = true → starts_with q r = true → starts_with p r = true.
Proof.
  revert q r. induction p as [|c p IH]; intros [|d q] [|e r]; simpl; try done.
  intros [->%Ascii.eqb_eq H1]%andb_prop [->%Ascii.eqb_eq H2]%andb_prop.
  rewrite Ascii.eqb_refl. by apply (IH q).
Qed.

Lemma common_prefix_l (a b : string) : starts_with (common_prefix a b) a = true.
Proof.
  revert b. induction a as [|c a IH]; intros [|d b]; simpl; try done.
  destruct (Ascii.eqb c d); simpl; [by rewrite Ascii.eqb_refl, IH | done].
Qed.

Lemma common_prefix_r (a b : string) : starts_with (common_prefix a b) b = true.
Proof.
  revert b. induction a as [|c a IH]; intros [|d b]; simpl; try done.
  destruct (Ascii.eqb_spec c d) as [->|]; simpl; [by rewrite Ascii.eqb_refl, IH | done].
Qed.

Lemma leading_ws_prefix (l : string) : starts_with (leading_ws l) l = true.
Proof.
  induction l as [|c l IH]; simpl; [done|].
  destruct (is_blank_char c); simpl; [by rewrite Ascii.eqb_refl | done].
Qed.

Lemma starts_with_app_l (w a b : string) : starts_with (w +:+ a) (w +:+ b) = starts_with a b.
Proof. induction w as [|c w IH]; [done|]. rewrite !string_app_cons. simpl. by rewrite Ascii.eqb_refl. Qed.

Lemma common_prefix_app_l (w a b : string) : common_prefix (w +:+ a) (w +:+ b) = w +:+ common_prefix a b.
Proof. induction w as [|c w IH]; [done|]. rewrite !string_app_cons. simpl. by rewrite Ascii.eqb_refl, IH. Qed.

Lemma leading_ws_blank_app (w l : string) : all_blank w = true → leading_ws (w +:+ l) = w +:+ leading_ws l.
Proof.
  unfold all_blank. induction w as [|c w IH]; [done|].
  cbn [String.list_ascii_of_string forallb]. intros [Hc Hw]%andb_prop.
  rewrite !string_app_cons. cbn [leading_ws]. rewrite Hc. by rewrite IH.
Qed.

Lemma string_drop_app (w l : string) (n : nat) : string_drop (String.length w + n) (w +:+ l) = string_drop n l.
Proof. induction w as [|c w IH]; [done|]. rewrite string_app_cons. exact IH. Qed.


(** The loop of [dedent] over indents that all carry the prefix [w]. *)
Lemma margin_step_app (w : string) (m : option string) (i : string) :
  margin_step (option_map (λ x, w +:+ x) m) (w +:+ i) = option_map (λ x, w +:+ x) (margin_step m i).
Proof.
  destruct m as [m|]; simpl; [|done]. rewrite !starts_with_app_l.
  destruct (starts_with m i); [done|]. destruct (starts_with i m); [done|].
  by rewrite common_prefix_app_l.
Qed.

Lemma fold_margin_app (w : string) (I : list string) (acc : option string) :
  fold_left margin_step (map (λ x, w +:+ x) I) (option_map (λ x, w +:+ x) acc) =
    option_map (λ x, w +:+ x) (fold_left margin_step I acc).
Proof. revert acc. induction I as [|i I IH]; intros acc; simpl; [done|]. by rewrite margin_step_app, IH. Qed.

(** Each turn keeps a prefix of the indent it reads and of the margin so far. *)
Lemma margin_step_prefix (acc : option string) (i : string) :
  ∃ a', margin_step acc i = Some a' ∧ starts_with a' i = true ∧
        ∀ a, acc = Some a → starts_with a' a = true.
Proof.
  destruct acc as [m|]; simpl.
  - destruct (starts_with m i) eqn:E1; [exists m; split_and!; [done | done | intros ? [= <-]; apply starts_with_refl]|].
    destruct (starts_with i m) eqn:E2; [exists i; split_and!; [done | apply starts_with_refl | by intros ? [= <-]]|].
    exists (common_prefix m i). split_and!; [done | apply common_prefix_r | intros ? [= <-]; apply common_prefix_l].
  - exists i. split_and!; [done | apply starts_with_refl | done].
Qed.

(** The margin is a prefix of every indent. *)
Lemma fold_margin_prefix (I : list string) (acc : option string) (m : string) :
  fold_left margin_step I acc = Some m →
  Forall (λ i, starts_with m i = true) I ∧ ∀ a, acc = Some a → starts_with m a = true.
Proof.
  revert acc. induction I as [|i I IH]; intros acc; simpl.
  - intros ->. split; [constructor | intros a [= <-]; apply starts_with_refl].
  - destruct (margin_step_prefix acc i) as (a' & Ea & Hi & Hacc). rewrite Ea. intros Hf.
    destruct (IH _ Hf) as [HI Ha']. specialize (Ha' a' eq_refl).
    split; [constructor; [by apply (starts_with_trans _ a') | done]|].
    intros a Ha. apply (starts_with_trans _ a'); [done | by apply Hacc].
Qed.

Lemma fold_margin_none (I : list string) : fold_left margin_step I None = None → I = [].
Proof.
  destruct I as [|i I]; [done|]. simpl. intros H. exfalso.
  assert (∀ J m, ∃ m', fold_left margin_step J (Some m) = Some m') as Hs.
  { induction J as [|j J IHJ]; intros m; [by eexists|]. cbn [fold_left].
    destruct (margin_step_prefix (Some m) j) as (a' & -> & _). apply IHJ. }
  destruct (Hs I i) as [m' Hm']. congruence.
Qed.

Lemma remove_margin_empty (m : string) : remove_margin m "" = "".
Proof. by destruct m. Qed.

Lemma remove_margin_app (w m l : string) :
  starts_with m l = true → remove_margin (w +:+ m) (w +:+ l) = remove_margin m l.
Proof.
  intros H. unfold remove_margin. rewrite starts_with_app_l, H, string_length_app.
  apply string_drop_app.
Qed.

Lemma filter_blank_lines (L : list string) :
  filter (λ l, negb (String.eqb l "")) (map blank_line L) = filter (λ l, negb (all_blank l)) L.
Proof.
  induction L as [|l L IH]; [done|]. cbn [map]. rewrite !filter_cons, IH. unfold blank_line.
  destruct (all_blank l) eqn:E; [done|]. by rewrite nonempty_of_not_blank.
Qed.

(** [dedent] with its two branches merged: removing the empty margin
    leaves a line unchanged. *)
Lemma dedent_eq (text : string) :
  dedent text =
    match fold_left margin_step (map leading_ws (filter (λ l, negb (all_blank l)) (split_lines text))) None with
    | Some m => join_lines (map (remove_margin m) (map blank_line (split_lines text)))
    | None => join_lines (map blank_line (split_lines text))
    end.
Proof.
  unfold dedent. rewrite filter_blank_lines.
  destruct (fold_left _ _ _) as [m|]; [|done].
  destruct (String.eqb_spec m ""); [subst m|done]. f_equal.
  rewrite (map_ext (remove_margin "") (λ x, x)); [by rewrite map_id | done].
Qed.

Lemma filter_margin_lines (w : string) (L : list string) : all_blank w = true →
  filter (λ l, negb (all_blank l)) (map (λ l, if all_blank l then l else w +:+ l) L) =
    map (λ x, w +:+ x) (filter (λ l, negb (all_blank l)) L).
Proof.
  intros Hw. induction L as [|l L IH]; [done|]. cbn [map]. rewrite !filter_cons, IH.
  destruct (all_blank l) eqn:E; [by rewrite E | by rewrite all_blank_app, Hw, E].
Qed.



End TextFacts.
