(* ===== verification/Markdown.v ===== *)
(** * The block structure the front end gives a markdown body

    Streamlit's front end renders the cleaned body of [st.markdown] with a
    CommonMark parser and, because the script passes
    [unsafe_allow_html=True], passes raw HTML blocks through.  Whether a
    line of the script's HTML reaches the page as HTML or as the text of a
    code block is decided by CommonMark's block rules (spec 0.31, section 4).
    This file models the leaf blocks those bodies can produce:

    - HTML blocks, the seven start conditions and their end conditions
      (section 4.6), with the open and closing tag grammar of section 6.6
      for type 7;
    - indented code blocks (4.4): a line indented by four or more columns
      that does not continue a paragraph, up to the first non-blank line
      indented by less, trailing blank lines excluded;
    - paragraphs (4.8) with their lazy continuation lines, and blank lines.

    A line that could open any other construct (headings, fences, block
    quotes, lists, thematic breaks, link reference definitions, tables) or
    that is indented with a tab makes [md_blocks] answer [None]: outside the
    modelled fragment.  No body of the script has such a line where a block
    starts.  [MarkdownFacts] shows that an HTML block of kind 6 or 7
    ends at a blank line after which an indented line opens a code block,
    that a body whose HTML block no blank line interrupts stays one block
    whatever text is inserted in a line, and that the fuel of the
    open-tag parser ([open_tag_rest]) is always enough. *)

From S2P Require Import Prelude Text.

Module Markdown.
Import Text.

Inductive block : Type :=
  | BHtml (kind : nat) (lines : list string)
  | BCode (lines : list string)
  | BPara (lines : list string).

(** ** Characters and lines *)

Definition lower (c : Ascii.ascii) : Ascii.ascii :=
  let n := Ascii.nat_of_ascii c in
  if (65 <=? n)%nat && (n <=? 90)%nat then Ascii.ascii_of_nat (n + 32) else c.

Definition is_alpha (c : Ascii.ascii) : bool :=
  let n := Ascii.nat_of_ascii (lower c) in (97 <=? n)%nat && (n <=? 122)%nat.

Definition is_ascii_digit (c : Ascii.ascii) : bool :=
  let n := Ascii.nat_of_ascii c in (48 <=? n)%nat && (n <=? 57)%nat.

Fixpoint lower_string (s : string) : string :=
  match s with
  | String c rest => String (lower c) (lower_string rest)
  | EmptyString => ""
  end.

(** Columns of leading spaces, and the rest of the line. *)
Fixpoint indent_of (l : string) : nat :=
  match l with
  | String " " rest => S (indent_of rest)
  | _ => 0
  end.

Fixpoint after_indent (l : string) : string :=
  match l with
  | String " " rest => after_indent rest
  | _ => l
  end.

Definition is_blank (l : string) : bool := all_blank l.

(** [p] occurs in [s], ignoring ASCII case. *)
Fixpoint contains_ci (p s : string) : bool :=
  starts_with (lower_string p) (lower_string s) ||
  match s with
  | String _ rest => contains_ci p rest
  | EmptyString => false
  end.

(** ** Start and end conditions of HTML blocks *)

Definition type1_tags : list string := ["script"; "pre"; "style"; "textarea"].

Definition type6_tags : list string :=
  ["address"; "article"; "aside"; "base"; "basefont"; "blockquote"; "body";
   "caption"; "center"; "col"; "colgroup"; "dd"; "details"; "dialog"; "dir";
   "div"; "dl"; "dt"; "fieldset"; "figcaption"; "figure"; "footer"; "form";
   "frame"; "frameset"; "h1"; "h2"; "h3"; "h4"; "h5"; "h6"; "head"; "header";
   "hr"; "html"; "iframe"; "legend"; "li"; "link"; "main"; "menu"; "menuitem";
   "nav"; "noframes"; "ol"; "optgroup"; "option"; "p"; "param"; "search";
   "section"; "summary"; "table"; "tbody"; "td"; "tfoot"; "th"; "thead";
   "title"; "tr"; "track"; "ul"].

(** The tag name at the start of [s] (letters, digits, [-], first a
    letter), lower-cased, and what follows it. *)
Fixpoint tag_name_go (s : string) : string * string :=
  match s with
  | String c rest =>
      if is_alpha c || is_ascii_digit c || Ascii.eqb c "-"%char
      then let '(n, r) := tag_name_go rest in (String (lower c) n, r)
      else ("", s)
  | EmptyString => ("", "")
  end.

Definition tag_name (s : string) : option (string * string) :=
  match s with
  | String c _ => if is_alpha c then Some (tag_name_go s) else None
  | EmptyString => None
  end.

Definition is_space_or_tab (c : Ascii.ascii) : bool := is_blank_char c.

(** What may follow the tag name of a type 1 or type 6 start. *)
Definition type1_follow (r : string) : bool :=
  match r with
  | EmptyString => true
  | String c _ => is_space_or_tab c || Ascii.eqb c ">"%char
  end.

Definition type6_follow (r : string) : bool :=
  match r with
  | EmptyString => true
  | String c rest =>
      is_space_or_tab c || Ascii.eqb c ">"%char ||
      (Ascii.eqb c "/"%char && match rest with String ">" _ => true | _ => false end)
  end.

Definition in_list (s : string) (l : list string) : bool := existsb (String.eqb s) l.

Definition start_type1 (t : string) : bool :=
  match t with
  | String "<" rest =>
      match tag_name rest with
      | Some (n, r) => in_list n type1_tags && type1_follow r
      | None => false
      end
  | _ => false
  end.

Definition start_type6 (t : string) : bool :=
  let body := match t with String "<" (String "/" rest) => Some rest
                         | String "<" rest => Some rest | _ => None end in
  match body with
  | Some rest =>
      match tag_name rest with
      | Some (n, r) => in_list n type6_tags && type6_follow r
      | None => false
      end
  | None => false
  end.

(** *** Section 6.6: open and closing tags, for type 7 *)

Fixpoint skip_ws (s : string) : string :=
  match s with
  | String c rest => if is_space_or_tab c then skip_ws rest else s
  | EmptyString => ""
  end.

Definition attr_name_start (c : Ascii.ascii) : bool :=
  is_alpha c || Ascii.eqb c "_"%char || Ascii.eqb c ":"%char.

Definition attr_name_char (c : Ascii.ascii) : bool :=
  attr_name_start c || is_ascii_digit c || Ascii.eqb c "."%char || Ascii.eqb c "-"%char.

Fixpoint skip_while (p : Ascii.ascii → bool) (s : string) : string :=
  match s with
  | String c rest => if p c then skip_while p rest else s
  | EmptyString => ""
  end.

(** A quoted value: the text up to the closing quote. *)
Fixpoint skip_quoted (q : Ascii.ascii) (s : string) : option string :=
  match s with
  | String c rest => if Ascii.eqb c q then Some rest else skip_quoted q rest
  | EmptyString => None
  end.

Definition unquoted_char (c : Ascii.ascii) : bool :=
  negb (is_space_or_tab c || existsb (Ascii.eqb c) ["034"; "'"; "="; "<"; ">"; "`"]%char).

(** An attribute value specification after the name, if any. *)
Definition attr_value (s : string) : option string :=
  match skip_ws s with
  | String e rest =>
      if Ascii.eqb e "=" then
        match skip_ws rest with
        | String c v =>
            if Ascii.eqb c "034" then skip_quoted "034"%char v
            else if Ascii.eqb c "'" then skip_quoted "'"%char v
            else if unquoted_char c then Some (skip_while unquoted_char v) else None
        | EmptyString => None
        end
      else Some s
  | EmptyString => Some s
  end.

(** [>] at the start of [s]: the rest after it. *)
Definition after_gt (s : string) : option string :=
  match s with
  | String c rest => if Ascii.eqb c ">" then Some rest else None
  | EmptyString => None
  end.

(** One step of an open tag after its name: the end of the tag ([>] or
    [/>], [inl] with what follows it), or one attribute with its leading
    whitespace ([inr] with what follows it). *)
Definition tag_step (s : string) : option (string + string) :=
  match s with
  | EmptyString => None
  | String c rest =>
      if Ascii.eqb c ">" then Some (inl rest)
      else if Ascii.eqb c "/" then inl <$> after_gt rest
      else if is_space_or_tab c then
        match skip_ws s with
        | String a rest' =>
            if Ascii.eqb a ">" then Some (inl rest')
            else if Ascii.eqb a "/" then inl <$> after_gt rest'
            else if attr_name_start a
            then inr <$> attr_value (skip_while attr_name_char rest')
            else None
        | EmptyString => None
        end
      else None
  end.

(** The attributes and the end of an open tag; [fuel] bounds the number of
    attributes (one per character is enough, [open_tag_rest_fuel]). *)
Fixpoint open_tag_rest (fuel : nat) (s : string) : option string :=
  match fuel with
  | 0 => None
  | S fuel' =>
      match tag_step s with
      | Some (inl rest) => Some rest
      | Some (inr r) => open_tag_rest fuel' r
      | None => None
      end
  end.

(** A complete open or closing tag at the start of [t], not of a type 1
    name, followed only by spaces and tabs. *)
Definition start_type7 (t : string) : bool :=
  let after :=
    match t with
    | String "<" (String "/" rest) =>
        match tag_name rest with
        | Some (n, r) =>
            if in_list n type1_tags then None
            else match skip_ws r with String ">" r' => Some r' | _ => None end
        | None => None
        end
    | String "<" rest =>
        match tag_name rest with
        | Some (n, r) =>
            if in_list n type1_tags then None else open_tag_rest (S (String.length r)) r
        | None => None
        end
    | _ => None
    end in
  match after with Some r => all_blank r | None => false end.

Definition start_simple (t : string) : option nat :=
  if starts_with "<!--" t then Some 2
  else if starts_with "<?" t then Some 3
  else if starts_with "<![CDATA[" t then Some 5
  else match t with
       | String "<" (String "!" (String c _)) => if is_alpha c then Some 4 else None
       | _ => None
       end.

(** The HTML block a line starts, if any (the line is indented by at most
    three spaces). *)
Definition html_start (l : string) : option nat :=
  let t := after_indent l in
  if start_type1 t then Some 1
  else match start_simple t with
       | Some k => Some k
       | None => if start_type6 t then Some 6 else if start_type7 t then Some 7 else None
       end.

Definition html_end (kind : nat) (l : string) : bool :=
  match kind with
  | 1 => existsb (λ n, contains_ci ("</" +:+ n +:+ ">") l) type1_tags
  | 2 => contains_ci "-->" l
  | 3 => contains_ci "?>" l
  | 4 => contains_ci ">" l
  | 5 => contains_ci "]]>" l
  | _ => false
  end.

(** A line that could open a construct outside the modelled fragment. *)
Definition unmodelled_start (l : string) : bool :=
  let t := after_indent l in
  match t with
  | String c _ =>
      existsb (Ascii.eqb c) ["#"; ">"; "-"; "+"; "*"; "_"; "="; "~"; "`"; "["; "|"]%char
      || is_ascii_digit c || Ascii.eqb c TAB
  | EmptyString => false
  end.

(** ** The block parser *)

Inductive pstate : Type :=
  | Idle
  | InHtml (kind : nat) (acc : list string)
  | InCode (acc blanks : list string)
  | InPara (acc : list string).

Definition close (st : pstate) : list block :=
  match st with
  | Idle => []
  | InHtml k acc => [BHtml k acc]
  | InCode acc _ => [BCode acc]
  | InPara acc => [BPara acc]
  end.

(** A line met with no open block. *)
Definition start_line (l : string) : option pstate :=
  if is_blank l then Some Idle
  else if (4 <=? indent_of l)%nat then Some (InCode [l] [])
  else match html_start l with
       | Some k => Some (InHtml k [l])
       | None => if unmodelled_start l then None else Some (InPara [l])
       end.

Definition last_line (acc : list string) : string := default "" (last acc).

(** Close a type 1-5 block whose end condition holds on its last line. *)
Definition settle (st : pstate) : list block * pstate :=
  match st with
  | InHtml k acc =>
      if (k <=? 5)%nat && html_end k (last_line acc) then ([BHtml k acc], Idle) else ([], st)
  | _ => ([], st)
  end.

(** One line: the blocks it closes and the new state; [None] outside the
    modelled fragment. *)
Definition step (st : pstate) (l : string) : option (list block * pstate) :=
  match st with
  | Idle => st' ← start_line l; Some (settle st')
  | InHtml k acc =>
      if (6 <=? k)%nat then
        (if is_blank l then Some (close st, Idle) else Some ([], InHtml k (acc ++ [l])))
      else Some (settle (InHtml k (acc ++ [l])))
  | InCode acc blanks =>
      if is_blank l then Some ([], InCode acc (blanks ++ [l]))
      else if (4 <=? indent_of l)%nat then Some ([], InCode (acc ++ blanks ++ [l]) [])
      else st' ← start_line l; let '(bs, st'') := settle st' in Some (BCode acc :: bs, st'')
  | InPara acc =>
      if is_blank l then Some (close st, Idle)
      else if (indent_of l <? 4)%nat then
        match html_start l with
        | Some k =>
            if (k <=? 6)%nat
            then let '(bs, st') := settle (InHtml k [l]) in Some (BPara acc :: bs, st')
            else Some ([], InPara (acc ++ [l]))
        | None => if unmodelled_start l then None else Some ([], InPara (acc ++ [l]))
        end
      else Some ([], InPara (acc ++ [l]))
  end.

Fixpoint md_go (ls : list string) (st : pstate) : option (list block) :=
  match ls with
  | [] => Some (close st)
  | l :: rest => '(bs, st') ← step st l; bs' ← md_go rest st'; Some (bs ++ bs')
  end.

(** The blocks of a cleaned markdown body. *)
Definition md_blocks (body : string) : option (list block) := md_go (split_lines body) Idle.

End Markdown.

Module MarkdownFacts.
Import Text TextFacts Markdown.

(** ** The fuel of [open_tag_rest] *)

Lemma skip_ws_length (s : string) : String.length (skip_ws s) <= String.length s.
Proof. induction s as [|c s IH]; simpl; [lia|]. destruct (is_space_or_tab c); simpl; lia. Qed.

Lemma skip_while_length (p : Ascii.ascii → bool) (s : string) :
  String.length (skip_while p s) <= String.length s.
Proof. induction s as [|c s IH]; simpl; [lia|]. destruct (p c); simpl; lia. Qed.

Lemma skip_quoted_length (q : Ascii.ascii) (s r : string) :
  skip_quoted q s = Some r → String.length r < String.length s.
Proof.
  revert r. induction s as [|c s IH]; intros r; simpl; [discriminate|].
  destruct (Ascii.eqb c q); [intros [= <-]; lia | intros H; specialize (IH r H); lia].
Qed.

Lemma attr_value_length (s r : string) :
  attr_value s = Some r → String.length r <= String.length s.
Proof.
  unfold attr_value. pose proof (skip_ws_length s) as H1.
  destruct (skip_ws s) as [|e rest] eqn:E; [by intros [= <-]|].
  destruct (Ascii.eqb e "="); [|by intros [= <-]]. simpl in H1.
  pose proof (skip_ws_length rest) as H2.
  destruct (skip_ws rest) as [|c v]; [discriminate|]. simpl in H2.
  destruct (Ascii.eqb c "034"); [intros H; apply skip_quoted_length in H; lia|].
  destruct (Ascii.eqb c "'"); [intros H; apply skip_quoted_length in H; lia|].
  destruct (unquoted_char c); [|discriminate].
  intros [= <-]. pose proof (skip_while_length unquoted_char v). lia.
Qed.

Lemma tag_step_shorter (s r : string) :
  tag_step s = Some (inr r) → String.length r < String.length s.
Proof.
  destruct s as [|c t]; [discriminate|]. pose proof (skip_ws_length (String c t)) as Hws.
  unfold tag_step.
  destruct (Ascii.eqb c ">"); [discriminate|].
  destruct (Ascii.eqb c "/"); [by destruct (after_gt t)|].
  destruct (is_space_or_tab c); [|discriminate].
  destruct (skip_ws (String c t)) as [|a rest'] eqn:E; [discriminate|]. simpl in Hws.
  destruct (Ascii.eqb a ">"); [discriminate|].
  destruct (Ascii.eqb a "/"); [by destruct (after_gt rest')|].
  destruct (attr_name_start a); [|discriminate].
  destruct (attr_value _) as [v|] eqn:Ev; [|discriminate]. intros [= <-].
  apply attr_value_length in Ev. pose proof (skip_while_length attr_name_char rest'). simpl. lia.
Qed.

(** The fuel of [open_tag_rest] is enough: with more fuel than
    characters in the rest of the line, any larger fuel gives the same
    answer, so [None] never comes from running out of fuel. *)
Lemma open_tag_rest_fuel (n m : nat) (s : string) :
  String.length s < n → n <= m → open_tag_rest m s = open_tag_rest n s.
Proof.
  revert m s. induction n as [|n IH]; intros m s Hn Hm; [lia|].
  destruct m as [|m]; [lia|]. cbn [open_tag_rest].
  destruct (tag_step s) as [[rest|r]|] eqn:E; try reflexivity.
  apply IH; [apply tag_step_shorter in E; lia | lia].
Qed.

(** ** Running the block parser over part of a body *)

(** The blocks closed by a prefix of the lines and the state it leaves. *)
Fixpoint md_scan (ls : list string) (st : pstate) : option (list block * pstate) :=
  match ls with
  | [] => Some ([], st)
  | l :: rest => '(bs, st') ← step st l; '(bs', st'') ← md_scan rest st'; Some (bs ++ bs', st'')
  end.

Lemma md_go_app (A R : list string) (st st' : pstate) (bs : list block) :
  md_scan A st = Some (bs, st') → md_go (A ++ R) st = (bs' ← md_go R st'; Some (bs ++ bs')).
Proof.
  revert st bs. induction A as [|l A IH]; intros st bs; simpl.
  - intros [= <- <-]. by destruct (md_go R st).
  - destruct (step st l) as [[bs1 st1]|]; simpl; [|done].
    destruct (md_scan A st1) as [[bs2 st2]|] eqn:E; simpl; [|done]. intros [= <- ->].
    rewrite (IH _ _ E). destruct (md_go R st'); simpl; [|done]. by rewrite app_assoc.
Qed.

(** Inside an HTML block of kind 6 or 7, every non-blank line is part of
    the block. *)
Lemma md_go_html_tail (k : nat) (acc R : list string) :
  (6 <= k)%nat → forallb (λ l, negb (is_blank l)) R = true →
  md_go R (InHtml k acc) = Some [BHtml k (acc ++ R)].
Proof.
  intros Hk. revert acc. induction R as [|l R IH]; intros acc.
  - simpl. by rewrite app_nil_r.
  - cbn [forallb]. intros [Hl HR]%andb_prop. apply negb_true_iff in Hl.
    cbn [md_go]. unfold step. rewrite (proj2 (Nat.leb_le 6 k)) by done. rewrite Hl. cbn [mbind option_bind].
    rewrite IH by done. by rewrite <- app_assoc.
Qed.

(** A body whose first lines open an HTML block of kind 6 or 7 that no
    blank line closes is one HTML block, whatever text without line break
    is inserted in its middle. *)
Lemma md_blocks_insert (cp m cq l1 l2 : string) (A B : list string) (k : nat) :
  split_lines cp = A ++ [l1] → split_lines cq = l2 :: B → no_nl m → all_blank l1 = false →
  md_scan A Idle = Some ([], InHtml k A) → (6 <= k)%nat →
  forallb (λ l, negb (is_blank l)) B = true →
  md_blocks (cp +:+ m +:+ cq) = Some [BHtml k (split_lines (cp +:+ m +:+ cq))].
Proof.
  intros Hcp Hcq Hm Hl1 Hscan Hk HB.
  assert (split_lines (cp +:+ m +:+ cq) = A ++ (l1 +:+ m +:+ l2) :: B) as Hs.
  { apply (split_lines_app _ _ _ _ _ _ Hcp).
    apply (split_lines_app m cq m l2 [] B); [by rewrite split_lines_no_nl | exact Hcq]. }
  unfold md_blocks. rewrite Hs, (md_go_app _ _ _ _ _ Hscan), md_go_html_tail; [done | done |].
  cbn [forallb]. rewrite HB, andb_true_r. unfold is_blank. by rewrite !all_blank_app, Hl1.
Qed.

Lemma md_scan_html_tail (k : nat) (acc H : list string) :
  (6 <= k)%nat → forallb (λ l, negb (is_blank l)) H = true →
  md_scan H (InHtml k acc) = Some ([], InHtml k (acc ++ H)).
Proof.
  intros Hk. revert acc. induction H as [|l H IH]; intros acc.
  - simpl. by rewrite app_nil_r.
  - cbn [forallb]. intros [Hl HH]%andb_prop. apply negb_true_iff in Hl.
    cbn [md_scan]. unfold step. rewrite (proj2 (Nat.leb_le 6 k)), Hl by done. cbn [mbind option_bind].
    rewrite IH by done. by rewrite <- app_assoc.
Qed.

(** C24: An HTML block of kind 6 or 7 ends at the first blank line, and a
    line indented by four columns or more after it starts an indented
    code block: whatever follows, the parse is the HTML block followed by
    the blocks of a code block opened on that line.  This is the rule that
    turns the summary cards (line 306) and the sensor cards (line 341)
    into code. *)
Theorem html_block_then_code (h b c : string) (H R : list string) (k : nat) :
  is_blank h = false → (indent_of h < 4)%nat → html_start h = Some k → (6 <= k)%nat →
  forallb (λ l, negb (is_blank l)) H = true → is_blank b = true →
  is_blank c = false → (4 <= indent_of c)%nat →
  md_go (h :: H ++ b :: c :: R) Idle = (bs ← md_go R (InCode [c] []); Some (BHtml k (h :: H) :: bs)).
Proof.
  intros Hh Hih Hs Hk HH Hb Hc Hic.
  assert (step Idle h = Some ([], InHtml k [h])) as Eh.
  { unfold step, start_line. rewrite Hh, (proj2 (Nat.leb_gt 4 _) Hih), Hs. cbn.
    by rewrite (proj2 (Nat.leb_gt k 5)) by lia. }
  assert (step (InHtml k ([h] ++ H)) b = Some ([BHtml k (h :: H)], Idle)) as Eb.
  { unfold step. cbv beta iota. by rewrite (proj2 (Nat.leb_le 6 k)), Hb by done. }
  assert (step Idle c = Some ([], InCode [c] [])) as Ec.
  { unfold step, start_line. rewrite Hc, (proj2 (Nat.leb_le 4 _) Hic). reflexivity. }
  cbn [md_go]. rewrite Eh. cbn [mbind option_bind].
  rewrite (md_go_app _ _ _ _ _ (md_scan_html_tail k [h] H Hk HH)). cbn [md_go].
  rewrite Eb. cbn [mbind option_bind]. rewrite Ec. cbn [mbind option_bind].
  destruct (md_go R (InCode [c] [])); reflexivity.
Qed.

Lemma html_block_then_code_witness :
  md_go ["<div class=x>"; ""; "    <div>"] Idle = Some [BHtml 6 ["<div class=x>"]; BCode ["    <div>"]].
Proof.
  refine (eq_trans (html_block_then_code "<div class=x>" "" "    <div>" [] [] 6
    eq_refl ltac:(simpl; lia) eq_refl ltac:(lia) eq_refl eq_refl eq_refl ltac:(simpl; lia)) _).
  reflexivity.
Defined.

End MarkdownFacts.
