(* ===== verification/Html.v ===== *)
(** * The HTML of a markdown element, as the browser parses it

    Because the script passes [unsafe_allow_html=True], the HTML blocks of a
    markdown element reach the browser as raw HTML, and each element is
    rendered into its own container: the browser parses the HTML of one
    element as a fragment (HTML Living Standard, 13.4, "parsing HTML
    fragments").  At the end of the fragment every element still open is
    closed, and an end tag without a matching open element is ignored.
    Nothing one element opens can therefore enclose the next element.

    This file models what that parse keeps of the tags:

    - the tokenizer (13.2.5) as a state machine over the characters
      ([tstate], [tok_char], [tok_go]): data, tag open, and inside a tag
      with its quoted attribute values; a tag is classified when its [>]
      is reached ([tag_token]) into a start tag (lower-cased name,
      self-closing flag) or an end tag; [<!...>] markup declarations and
      anything that is not a tag produce no token;
    - the stack of open elements of the tree construction (13.2.6.4.7,
      "in body"): a start tag pushes its element unless it is a void
      element (the self-closing flag is ignored for other elements, as the
      standard says), an end tag pops up to its element when that element
      is open and is ignored otherwise ([tree_step], [outline]).

    Simplified: scope boundaries (tables, buttons) and the adoption
    agency algorithm for misnested formatting elements are not modelled,
    and a comment ends at its first [>]; the bodies the script writes have
    no comment, table or misnested tag.

    [HtmlFacts] shows that text without [<] adds no token, so a fragment
    inserted in a line leaves the tags alone, that the HTML of a code block
    yields only its [<pre><code>] tags whatever its text, and that the
    stack of open elements never holds a void element. *)

From S2P Require Import Prelude Text Markdown.

Module Html.
Import Text Markdown.

Inductive token : Type :=
  | TStart (name : string) (self_closing : bool) (classes : list string)
  | TEnd (name : string).

#[global] Instance token_eq_dec : EqDecision token.
Proof. solve_decision. Defined.

(** The tokenizer's states: in text, just after [<], or inside a tag with
    the characters read so far (in reverse) and the open quote, if any. *)
Inductive tstate : Type :=
  | TData
  | TTagOpen
  | TInTag (acc : string) (quote : option Ascii.ascii).

(** The tag name: up to whitespace or [/], lower-cased. *)
Fixpoint html_tag_name (s : string) : string :=
  match s with
  | String c rest =>
      if py_space c || Ascii.eqb c "/" then "" else String (lower c) (html_tag_name rest)
  | EmptyString => ""
  end.

Definition last_char (s : string) : option Ascii.ascii :=
  String.get (pred (String.length s)) s.

(** The words of an attribute value ([class="a b"]): split on ASCII
    whitespace. *)
Fixpoint words_go (cur : string) (s : string) : list string :=
  match s with
  | EmptyString => if String.eqb cur "" then [] else [Text.string_rev cur]
  | String c rest =>
      if py_space c
      then (if String.eqb cur "" then [] else [Text.string_rev cur]) ++ words_go "" rest
      else words_go (String c cur) rest
  end.

Definition words (s : string) : list string := words_go "" s.

(** The value of an attribute: quoted with [q], up to the closing quote;
    unquoted, up to whitespace. *)
Fixpoint read_until (stop : Ascii.ascii → bool) (s : string) : string :=
  match s with
  | String c rest => if stop c then "" else String c (read_until stop rest)
  | EmptyString => ""
  end.

Definition attr_value_text (s : string) : string :=
  match s with
  | String q rest =>
      if Ascii.eqb q "034" || Ascii.eqb q "'" then read_until (Ascii.eqb q) rest
      else read_until py_space s
  | EmptyString => ""
  end.

(** The [class] attribute of a tag: the first [class=] that starts an
    attribute (after whitespace, outside any quoted value). *)
Fixpoint find_class (quote : option Ascii.ascii) (prev_ws : bool) (s : string) : option string :=
  match s with
  | EmptyString => None
  | String c rest =>
      match quote with
      | Some q => find_class (if Ascii.eqb c q then None else Some q) false rest
      | None =>
          if prev_ws && starts_with "class=" s then Some (attr_value_text (string_drop 6 s))
          else if Ascii.eqb c "034" || Ascii.eqb c "'" then find_class (Some c) false rest
          else find_class None (py_space c) rest
      end
  end.

Definition tag_classes (content : string) : list string :=
  match find_class None false content with Some v => words v | None => [] end.

(** The token of a complete tag, from the text between [<] and [>]. *)
Definition tag_token (content : string) : list token :=
  match content with
  | String c rest =>
      if Ascii.eqb c "/" then
        match rest with
        | String d _ => if is_alpha d then [TEnd (html_tag_name rest)] else []
        | EmptyString => []
        end
      else if is_alpha c
      then [TStart (html_tag_name content) (bool_decide (last_char content = Some "/"%char))
                   (tag_classes content)]
      else []
  | EmptyString => []
  end.

Definition tok_char (st : tstate) (c : Ascii.ascii) : list token * tstate :=
  match st with
  | TData => if Ascii.eqb c "<" then ([], TTagOpen) else ([], TData)
  | TTagOpen =>
      if is_alpha c || Ascii.eqb c "/" || Ascii.eqb c "!" then ([], TInTag (String c "") None)
      else if Ascii.eqb c "<" then ([], TTagOpen)
      else ([], TData)
  | TInTag acc None =>
      if Ascii.eqb c ">" then (tag_token (Text.string_rev acc), TData)
      else if Ascii.eqb c "034" || Ascii.eqb c "'" then ([], TInTag (String c acc) (Some c))
      else ([], TInTag (String c acc) None)
  | TInTag acc (Some q) =>
      ([], TInTag (String c acc) (if Ascii.eqb c q then None else Some q))
  end.

Fixpoint tok_go (st : tstate) (s : string) : list token * tstate :=
  match s with
  | EmptyString => ([], st)
  | String c rest =>
      let '(ts1, st1) := tok_char st c in
      let '(ts2, st2) := tok_go st1 rest in
      (ts1 ++ ts2, st2)
  end.

Definition tokens (s : string) : list token := (tok_go TData s).1.

(** ** The stack of open elements *)

Definition void_elements : list string :=
  ["area"; "base"; "br"; "col"; "embed"; "hr"; "img"; "input"; "link"; "meta";
   "source"; "track"; "wbr"].

Record outline_state := mk_outline {
  open_elements : list string;   (** innermost first *)
  ignored_ends : nat
}.

Fixpoint pop_through (n : string) (stk : list string) : list string :=
  match stk with
  | [] => []
  | x :: rest => if String.eqb x n then rest else pop_through n rest
  end.

Definition tree_step (st : outline_state) (t : token) : outline_state :=
  match t with
  | TStart n _ _ =>
      if in_list n void_elements then st
      else mk_outline (n :: open_elements st) (ignored_ends st)
  | TEnd n =>
      if in_list n (open_elements st)
      then mk_outline (pop_through n (open_elements st)) (ignored_ends st)
      else mk_outline (open_elements st) (S (ignored_ends st))
  end.

(** The elements left open at the end of a fragment (which the parser
    then closes) and the number of end tags it ignored. *)
Definition outline (s : string) : outline_state :=
  fold_left tree_step (tokens s) (mk_outline [] 0).

(** ** The HTML the front end gives a markdown element

    Each block of [Markdown.md_blocks] becomes HTML as CommonMark's
    reference rendering writes it: an HTML block is passed through, a code
    block is [<pre><code>] around its text (indentation of four columns
    removed, HTML special characters escaped), a paragraph is [<p>] around
    its lines (inline markup other than raw HTML is not modelled). *)

Definition escape_char (c : Ascii.ascii) : string :=
  if Ascii.eqb c "&" then "&amp;"
  else if Ascii.eqb c "<" then "&lt;"
  else if Ascii.eqb c ">" then "&gt;"
  else if Ascii.eqb c "034" then "&quot;"
  else String c "".

Fixpoint escape_html (s : string) : string :=
  match s with
  | String c rest => escape_char c +:+ escape_html rest
  | EmptyString => ""
  end.

Fixpoint drop_spaces (n : nat) (l : string) : string :=
  match n, l with
  | S n', String c rest => if Ascii.eqb c " " then drop_spaces n' rest else l
  | _, _ => l
  end.

Definition render_block (b : block) : string :=
  match b with
  | BHtml _ ls => join_lines ls +:+ String NL ""
  | BCode ls =>
      "<pre><code>" +:+ escape_html (join_lines (map (drop_spaces 4) ls) +:+ String NL "") +:+
      "</code></pre>" +:+ String NL ""
  | BPara ls => "<p>" +:+ join_lines (map lstrip ls) +:+ "</p>" +:+ String NL ""
  end.

Definition element_html (body : string) : option string :=
  bs ← md_blocks body; Some (foldr (λ b acc, render_block b +:+ acc) "" bs).

(** The classes of the start tags of a token list, and the classes of
    each [<button>]. *)
Definition start_classes (ts : list token) : list string :=
  ts ≫= (λ t, match t with TStart _ _ cls => cls | TEnd _ => [] end).

Definition button_classes (ts : list token) : list (list string) :=
  ts ≫= (λ t, match t with TStart n _ cls => if String.eqb n "button" then [cls] else [] | TEnd _ => [] end).

Definition element_tokens (body : string) : option (list token) := tokens <$> element_html body.

End Html.

Module HtmlFacts.
Import Markdown Html.

Lemma tok_go_app (st : tstate) (a b : string) :
  tok_go st (a +:+ b) =
    let '(ts1, st1) := tok_go st a in
    let '(ts2, st2) := tok_go st1 b in (ts1 ++ ts2, st2).
Proof.
  revert st. induction a as [|c a IH]; intros st.
  - rewrite string_app_nil_l. cbn [tok_go]. by destruct (tok_go st b).
  - rewrite string_app_cons. cbn [tok_go]. destruct (tok_char st c) as [ts0 st0].
    rewrite IH. destruct (tok_go st0 a) as [ts1 st1]. destruct (tok_go st1 b) as [ts2 st2].
    by rewrite app_assoc.
Qed.

(** Text without [<] is read in the data state and produces no token. *)
Lemma tok_go_text (m : string) :
  forallb (λ c, negb (Ascii.eqb c "<")) (String.list_ascii_of_string m) = true →
  tok_go TData m = ([], TData).
Proof.
  induction m as [|c m IH]; [done|]. simpl. intros [Hc Hm]%andb_prop.
  apply negb_true_iff in Hc. rewrite Hc, IH by done. done.
Qed.

(** The tokens of a text inserted between two pieces, when the first
    piece ends in the data state. *)
Lemma tokens_insert (a m b : string) (ta : list token) :
  tok_go TData a = (ta, TData) →
  forallb (λ c, negb (Ascii.eqb c "<")) (String.list_ascii_of_string m) = true →
  tokens (a +:+ m +:+ b) = ta ++ tokens b.
Proof.
  intros Ha Hm. unfold tokens. rewrite tok_go_app, Ha, tok_go_app, (tok_go_text m Hm).
  by destruct (tok_go TData b).
Qed.

(** The stack of open elements never holds a void element. *)
Definition no_void (st : outline_state) : Prop :=
  Forall (λ n, in_list n void_elements = false) (open_elements st).

Lemma pop_through_Forall (P : string → Prop) (n : string) (stk : list string) :
  Forall P stk → Forall P (pop_through n stk).
Proof.
  induction 1 as [|x stk Hx Hs IH]; simpl; [constructor|].
  by destruct (String.eqb x n).
Qed.

Lemma tree_step_no_void (st : outline_state) (t : token) :
  no_void st → no_void (tree_step st t).
Proof.
  unfold no_void. intros H. destruct t as [n sc cls|n]; unfold tree_step.
  - destruct (in_list n void_elements) eqn:E; cbn [open_elements]; [done | by constructor].
  - destruct (in_list n (open_elements st)); cbn [open_elements]; [|done].
    by apply pop_through_Forall.
Qed.

(** Whatever the HTML of an element, the stack of open elements the
    browser builds for it never holds a void element ([<br>], [<img>],
    [<input>], ...): they are never waiting for an end tag. *)
Theorem outline_no_void (s : string) : no_void (outline s).
Proof.
  unfold outline. apply fold_left_invariant; [constructor | intros; by apply tree_step_no_void].
Qed.

(** ** The text of a code block *)

Lemma escape_html_no_lt (s : string) :
  forallb (λ c, negb (Ascii.eqb c "<")) (String.list_ascii_of_string (escape_html s)) = true.
Proof.
  induction s as [|c s IH]; [done|]. cbn [escape_html].
  rewrite list_ascii_of_string_app, forallb_app, IH, andb_true_r.
  unfold escape_char.
  destruct (Ascii.eqb c "&"); [done|]. destruct (Ascii.eqb c "<") eqn:E; [done|].
  destruct (Ascii.eqb c ">"); [done|]. destruct (Ascii.eqb c "034"); [done|].
  cbn. by rewrite E.
Qed.

(** C14: Whatever its lines, the HTML of an indented code block gives the
    browser exactly the tags [<pre><code>] and their end tags: every [<]
    of its text is escaped, so no markup inside a code block becomes an
    element. *)
Theorem code_block_tokens (ls : list string) :
  tokens (render_block (BCode ls)) = [TStart "pre" false []; TStart "code" false []; TEnd "code"; TEnd "pre"].
Proof.
  unfold render_block.
  rewrite (tokens_insert "<pre><code>" _ _ [TStart "pre" false []; TStart "code" false []]);
    [reflexivity | reflexivity | apply escape_html_no_lt].
Qed.

End HtmlFacts.
