(* ===== verification/Css.v ===== *)
(** * The style sheet of lines 16-256, as the browser reads it

    The first markdown call injects a [<style>] element; the browser reads
    its text as CSS (CSS Syntax Level 3, 5.3-5.4): a list of qualified
    rules, each a prelude (the selector) followed by a [{...}] block, with
    comments [/* ... */] skipped anywhere.  This file keeps what the page's
    rendering depends on: the selectors of the sheet and the class names
    they mention ([.name]).

    [css_go] is the rule-level reader as a state machine over the
    characters ([cstate]); nested blocks are counted, strings inside
    declarations are not tracked (the sheet has no brace inside a string)
    and at-rules are not distinguished (the sheet has none). *)

From S2P Require Import Prelude Text Markdown Markup.

Module Css.
Import Text.

Inductive cstate : Type :=
  | CPrelude (acc : string)          (** selector text so far, reversed *)
  | CBlock (depth : nat)             (** inside a declaration block *)
  | CComment (ret : cstate).         (** inside a comment *)

(** One character outside a comment: the selector it completes, if any,
    and the next state. *)
Definition css_char (st : cstate) (c : Ascii.ascii) : list string * cstate :=
  match st with
  | CPrelude acc =>
      if Ascii.eqb c "{" then ([string_rev acc], CBlock 1)
      else if Ascii.eqb c "}" then ([], CPrelude "")
      else ([], CPrelude (String c acc))
  | CBlock d =>
      if Ascii.eqb c "{" then ([], CBlock (S d))
      else if Ascii.eqb c "}" then
        (match d with 0 | 1 => ([], CPrelude "") | S d' => ([], CBlock d') end)
      else ([], CBlock d)
  | CComment _ => ([], st)
  end.

(** The selectors of the qualified rules of a sheet, in order. *)
Fixpoint css_go (st : cstate) (s : string) : list string :=
  match s with
  | EmptyString => []
  | String c rest =>
      match st, rest with
      | CComment ret, String d rest' =>
          if Ascii.eqb c "*" && Ascii.eqb d "/" then css_go ret rest' else css_go st rest
      | CComment _, EmptyString => []
      | _, String d rest' =>
          if Ascii.eqb c "/" && Ascii.eqb d "*" then css_go (CComment st) rest'
          else let '(out, st') := css_char st c in out ++ css_go st' rest
      | _, EmptyString => let '(out, st') := css_char st c in out ++ css_go st' rest
      end
  end.

Definition selectors (css : string) : list string := css_go (CPrelude "") css.

(** The characters of a CSS identifier in a class selector. *)
Definition ident_char (c : Ascii.ascii) : bool :=
  Markdown.is_alpha c || Markdown.is_ascii_digit c || Ascii.eqb c "-" || Ascii.eqb c "_".

Fixpoint read_ident (s : string) : string :=
  match s with
  | String c rest => if ident_char c then String c (read_ident rest) else ""
  | EmptyString => ""
  end.

(** The class names a selector mentions. *)
Fixpoint selector_classes (sel : string) : list string :=
  match sel with
  | String c rest =>
      if Ascii.eqb c "." then
        (if String.eqb (read_ident rest) "" then [] else [read_ident rest]) ++ selector_classes rest
      else selector_classes rest
  | EmptyString => []
  end.

(** The text of the first [<style>] element of an element's HTML. *)
Definition style_content (html : string) : option string :=
  match String.index 0 "<style>" html with
  | Some i =>
      let r := String.substring (i + 7) (String.length html - i - 7) html in
      match String.index 0 "</style>" r with
      | Some j => Some (String.substring 0 j r)
      | None => Some r
      end
  | None => None
  end.

(** The classes the page's style sheet has a rule for. *)
Definition sheet_classes (html : string) : list string :=
  match style_content html with
  | Some css => selectors css ≫= selector_classes
  | None => []
  end.

End Css.

Module CssFacts.
Import Text Markup Css.

(** The classes the sheet of lines 16-256 has a rule for, in order. *)
Lemma sheet_classes_page :
  sheet_classes (clean_text page_css) =
    ["stApp"; "top-bar"; "brand-left"; "brand-icon"; "brand-title"; "brand-subtitle";
     "top-buttons"; "pill-btn"; "pill-primary"; "pill-secondary"; "panel"; "summary-row";
     "summary-card"; "summary-label"; "summary-value"; "summary-sub"; "sensor-grid";
     "sensor-card"; "sensor-badge"; "sensor-title"; "sensor-value"; "sensor-unit";
     "sensor-bar"; "health-header"; "health-title"; "health-sub"; "tag-healthy";
     "soft-btn-row"; "soft-btn"; "soft-btn-primary"; "soft-btn-outline"; "health-time"].
Proof. vm_compute. reflexivity. Qed.

End CssFacts.
