(* ===== verification/Page.v ===== *)
(** * The page: Streamlit's runtime state and one run of the script

    Streamlit keeps, for one run of the script, the tree of elements the
    page shows and a stack of active containers ([dg_stack]): a call such
    as [st.markdown] appends an element to the container on top of the
    stack (the main body when it is empty), [st.columns(n)] appends a
    horizontal block of [n] columns and returns a handle for each, and
    [with col:] pushes the handle's container for the duration of the
    block.  This file models that state ([app]) and its operations with
    the runtime's checks, and [run_script] is the script itself, lines 8
    to 456, as a sequence of those operations with the values of lines
    261-268 and 421-423 computed where the script computes them.

    The operations also define the step relation [reachable] of the
    runtime, whose invariant (every container on the stack exists in the
    tree) is proved by rule induction.  [PageFacts] then gives the layout
    of a run, its error path and the shared clock of the two headers;
    what the front end makes of the markdown bodies is in [Render]. *)

From S2P Require Import Prelude PyDatetime Series Frame Chart StrFormat Text Markdown Markup.

Module Page.
#[local] Set Warnings "-register-all".
Import PyDatetime Series Frame Chart StrFormat Text Markup.

Inductive element : Type :=
  | EMarkdown (body : string)
  | ELineChart (c : chart).

Inductive node : Type :=
  | NLeaf (e : element)
  | NColumns (cols : list (list node)).

(** A container: the main body ([[]]) or the [j]-th column of the columns
    block at position [i] of a container, [(i, j) :: p]. *)
Definition path := list (nat * nat).

Fixpoint container_at (p : path) (c : list node) : option (list node) :=
  match p with
  | [] => Some c
  | (i, j) :: p' =>
      match c !! i with
      | Some (NColumns cols) => col ← cols !! j; container_at p' col
      | _ => None
      end
  end.

Fixpoint append_at (p : path) (n : node) (c : list node) : option (list node) :=
  match p with
  | [] => Some (c ++ [n])
  | (i, j) :: p' =>
      match c !! i with
      | Some (NColumns cols) =>
          col ← cols !! j; col' ← append_at p' n col;
          Some (<[i := NColumns (<[j := col']> cols)]> c)
      | _ => None
      end
  end.

Record app := mk_app {
  app_config : option (string * string);
  app_config_allowed : bool;
  app_main : list node;
  app_stack : list path
}.

Definition empty_app : app := mk_app None true [] [].

(** The container the next element goes to. *)
Definition current (a : app) : path := default [] (head (app_stack a)).

(** Enqueue an element in the current container.  [None]: the container
    does not exist, which [reachable_wf] shows never happens. *)
Definition emit (n : node) (a : app) : outcome app :=
  match append_at (current a) n (app_main a) with
  | Some m => Some (Ok (mk_app (app_config a) false m (app_stack a)))
  | None => None
  end.

Definition SET_PAGE_CONFIG_ERROR : string :=
  "set_page_config() can only be called once per app page, and must be called as the first Streamlit command in your script.".

(** [st.set_page_config(page_title=..., layout=...)]. *)
Definition set_page_config (title layout : string) (a : app) : outcome app :=
  if negb (String.eqb layout "centered" || String.eqb layout "wide")
  then Some (Raise (StreamlitAPIException ("`layout` must be " +:+ dq +:+ "centered" +:+ dq +:+
          " or " +:+ dq +:+ "wide" +:+ dq +:+ " (got " +:+ dq +:+ layout +:+ dq +:+ ")")))
  else if app_config_allowed a
  then Some (Ok (mk_app (Some (title, layout)) false (app_main a) (app_stack a)))
  else Some (Raise (StreamlitAPIException SET_PAGE_CONFIG_ERROR)).

(** [st.markdown(body, unsafe_allow_html=True)]: the cleaned body. *)
Definition markdown (body : string) (a : app) : outcome app :=
  emit (NLeaf (EMarkdown (clean_text body))) a.

(** [st.line_chart(df, height=h)]. *)
Definition line_chart_el (df : frame) (h : Z) (a : app) : outcome app :=
  emit (NLeaf (ELineChart (line_chart df h))) a.

Definition COLUMNS_SPEC_ERROR : string :=
  "The input argument to st.columns must be either a positive integer or a list of positive numeric weights.".
Definition COLUMNS_NESTING_ERROR : string :=
  "Columns can only be placed inside other columns up to one level of nesting.".

(** [st.columns(n)]: a block of [n] empty columns and their handles. *)
Definition columns (n : nat) (a : app) : outcome (app * list path) :=
  if Nat.eqb n 0 then Some (Raise (StreamlitAPIException COLUMNS_SPEC_ERROR))
  else if (2 <=? length (current a))%nat then Some (Raise (StreamlitAPIException COLUMNS_NESTING_ERROR))
  else
    match container_at (current a) (app_main a) with
    | None => None
    | Some c =>
        a' ← emit (NColumns (replicate n [])) a;
        Some (Ok (a', map (λ j, current a ++ [(length c, j)]) (seq 0 n)))
    end.

(** [with col:] enters and leaves the column's container. *)
Definition enter (p : path) (a : app) : app :=
  mk_app (app_config a) (app_config_allowed a) (app_main a) (p :: app_stack a).

Definition exit (a : app) : app :=
  mk_app (app_config a) (app_config_allowed a) (app_main a) (tail (app_stack a)).

(** ** The script *)

(** The argument of [.format] on lines 422 and 450, then the header. *)
Definition header (template : string) (now : datetime) : outcome string :=
  t ← lift (strftime now clock_format); str_format template [("time", t)].

Definition TWO_VALUES_ERROR (k : nat) : string :=
  if (k <? 2)%nat then "not enough values to unpack (expected 2, got " +:+ dec_Z (Z.of_nat k) +:+ ")"
  else "too many values to unpack (expected 2)".

(** Lines 8 to 456. *)
Definition run_script (now : datetime) : outcome app :=
  a ← set_page_config "Aquaponics — Preview" "wide" empty_app;
  a ← markdown page_css a;
  tps ← lift (time_points now);
  fdf ← lift (health_frame tps fish_scores);
  pdf ← lift (health_frame tps plant_scores);
  a ← markdown top_bar_html a;
  a ← markdown hero_html a;
  a ← markdown sensors_html a;
  '(a, cols) ← columns 2 a;
  match cols with
  | [col_fish; col_plant] =>
      let a := enter col_fish a in
      h ← header fish_header_template now;
      a ← markdown h a;
      a ← line_chart_el fdf 220 a;
      a ← markdown closing_div a;
      let a := enter col_plant (exit a) in
      h ← header plant_header_template now;
      a ← markdown h a;
      a ← line_chart_el pdf 220 a;
      a ← markdown closing_div a;
      Some (Ok (exit a))
  | _ => Some (Raise (ValueError (TWO_VALUES_ERROR (length cols))))
  end.

End Page.

Module PageFacts.
Import PyDatetime Frame Chart StrFormat Text Markup Page.

(** ** Containers exist for good *)

Definition stack_wf (a : app) : Prop :=
  Forall (λ p, is_Some (container_at p (app_main a))) (app_stack a).

Lemma container_at_current (a : app) :
  stack_wf a → is_Some (container_at (current a) (app_main a)).
Proof.
  unfold stack_wf, current. destruct (app_stack a) as [|p ps]; simpl; [by eexists|].
  intros Hf. by inversion Hf.
Qed.

(** Appending to an existing container succeeds and adds the node at its
    end. *)
Lemma append_at_some (p : path) (n : node) (c x : list node) :
  container_at p c = Some x →
  ∃ c', append_at p n c = Some c' ∧ container_at p c' = Some (x ++ [n]).
Proof.
  revert c. induction p as [|[i j] p IH]; intros c Hc; simpl in *.
  - injection Hc as <-. eauto.
  - destruct (c !! i) as [[e|cols]|] eqn:Hi; try discriminate.
    destruct (cols !! j) as [col|] eqn:Hj; simpl in Hc; [|discriminate].
    destruct (IH col Hc) as (col' & Happ & Hc'). simpl. rewrite Happ. simpl.
    eexists; split; [reflexivity|].
    rewrite list_lookup_insert_eq by (by eapply lookup_lt_Some).
    rewrite list_lookup_insert_eq by (by eapply lookup_lt_Some). exact Hc'.
Qed.

(** Appending anywhere keeps every existing container. *)
Lemma append_at_keeps (q p : path) (n : node) (c c' x : list node) :
  append_at q n c = Some c' → container_at p c = Some x → is_Some (container_at p c').
Proof.
  revert q c c' x. induction p as [|[i j] p IH]; intros q c c' x Happ Hc; simpl in *; [by eexists|].
  destruct (c !! i) as [[e|cols]|] eqn:Hi; try discriminate.
  destruct (cols !! j) as [col|] eqn:Hj; simpl in Hc; [|discriminate].
  destruct q as [|[i' j'] q]; simpl in Happ.
  - injection Happ as <-. rewrite lookup_app_l by (by eapply lookup_lt_Some).
    rewrite Hi. simpl. rewrite Hj. simpl. by eexists.
  - destruct (c !! i') as [[e'|cols']|] eqn:Hi'; try discriminate.
    destruct (cols' !! j') as [col''|] eqn:Hj'; simpl in Happ; [|discriminate].
    destruct (append_at q n col'') as [col3|] eqn:Happ'; simpl in Happ; [|discriminate].
    injection Happ as <-.
    destruct (decide (i = i')) as [<-|Hne].
    + rewrite list_lookup_insert_eq by (by eapply lookup_lt_Some). simpl.
      rewrite Hi in Hi'. injection Hi' as <-.
      destruct (decide (j = j')) as [<-|Hne'].
      * rewrite list_lookup_insert_eq by (by eapply lookup_lt_Some). simpl.
        rewrite Hj in Hj'. injection Hj' as <-. eapply IH; eauto.
      * rewrite list_lookup_insert_ne by done. rewrite Hj. simpl. by eexists.
    + rewrite list_lookup_insert_ne by done. rewrite Hi. simpl. rewrite Hj. simpl. by eexists.
Qed.

Lemma emit_wf (n : node) (a a' : app) :
  stack_wf a → emit n a = Some (Ok a') → stack_wf a'.
Proof.
  unfold emit, stack_wf. intros Hwf He.
  destruct (append_at _ _ _) as [m|] eqn:Happ; [|discriminate]. injection He as <-. simpl.
  eapply Forall_impl; [exact Hwf|]. intros p [x Hx]. eapply append_at_keeps; eauto.
Qed.

(** On a well-formed state, enqueueing an element never hits the
    unreachable branch. *)
Lemma emit_total (n : node) (a : app) :
  stack_wf a → ∃ a', emit n a = Some (Ok a').
Proof.
  intros Hwf. destruct (container_at_current a Hwf) as [x Hx].
  destruct (append_at_some _ n _ _ Hx) as (c' & Happ & _).
  unfold emit. rewrite Happ. eauto.
Qed.

Lemma container_at_app (p q : path) (c : list node) :
  container_at (p ++ q) c = container_at p c ≫= container_at q.
Proof.
  revert c. induction p as [|[i j] p IH]; intros c; simpl; [done|].
  destruct (c !! i) as [[e|cols]|]; simpl; [done | | done].
  destruct (cols !! j); simpl; [apply IH | done].
Qed.

(** [st.columns] keeps the stack well formed and returns handles of new,
    empty containers. *)
Lemma columns_wf (k : nat) (a a' : app) (hs : list path) :
  stack_wf a → columns k a = Some (Ok (a', hs)) →
  stack_wf a' ∧ Forall (λ p, container_at p (app_main a') = Some []) hs.
Proof.
  unfold columns. intros Hwf Hc.
  destruct (Nat.eqb_spec k 0); [discriminate|].
  destruct (2 <=? length (current a))%nat; [discriminate|].
  destruct (container_at (current a) (app_main a)) as [x|] eqn:Hx; [|discriminate].
  destruct (append_at_some _ (NColumns (replicate k [])) _ _ Hx) as (m & Happ & Hm).
  unfold emit in Hc. rewrite Happ in Hc. simpl in Hc. injection Hc as <- <-.
  split.
  - eapply emit_wf; [exact Hwf|]. unfold emit. rewrite Happ. reflexivity.
  - apply Forall_forall. intros p (j & <- & Hj%in_seq)%list_elem_of_In%in_map_iff.
    cbn [app_main]. rewrite container_at_app, Hm. simpl.
    rewrite lookup_app_r by lia. rewrite Nat.sub_diag. simpl.
    rewrite lookup_replicate_2 by lia. reflexivity.
Qed.

(** ** The runtime as a step relation *)

(** The states one run can reach: each rule is one call of the script
    language ([with] enters a container that exists, as a handle's does). *)
Inductive reachable : app → Prop :=
  | reach_init : reachable empty_app
  | reach_config (t l : string) (a a' : app) :
      reachable a → set_page_config t l a = Some (Ok a') → reachable a'
  | reach_emit (e : element) (a a' : app) :
      reachable a → emit (NLeaf e) a = Some (Ok a') → reachable a'
  | reach_columns (k : nat) (a a' : app) (hs : list path) :
      reachable a → columns k a = Some (Ok (a', hs)) → reachable a'
  | reach_enter (p : path) (a : app) :
      reachable a → is_Some (container_at p (app_main a)) → reachable (enter p a)
  | reach_exit (a : app) : reachable a → reachable (exit a).

(** The invariant of reachable states, for the proofs below. *)
Lemma reachable_stack_wf (a : app) : reachable a → stack_wf a.
Proof.
  induction 1 as [|t l a a' _ IH Hs|e a a' _ IH He|k a a' hs _ IH Hc|p a _ IH Hp|a _ IH].
  - constructor.
  - unfold set_page_config in Hs.
    destruct (negb _); [discriminate|]. destruct (app_config_allowed a); [|discriminate].
    injection Hs as <-. exact IH.
  - by eapply emit_wf.
  - by eapply columns_wf.
  - by constructor.
  - unfold stack_wf, exit in *; simpl. destruct (app_stack a); simpl; [done|]. by inversion IH.
Qed.

(** C19: In every state a run can reach, every container on the stack of
    active containers exists in the page tree. *)
Theorem reachable_wf (a : app) : reachable a → stack_wf a.
Proof. intros. by apply reachable_stack_wf. Qed.

Lemma reachable_wf_witness :
  reachable (enter [(0, 1)] (mk_app None false [NColumns [[]; []]] [])) ∧
  stack_wf (enter [(0, 1)] (mk_app None false [NColumns [[]; []]] [])).
Proof.
  assert (reachable (enter [(0, 1)] (mk_app None false [NColumns [[]; []]] []))) as Hr.
  { apply reach_enter; [|vm_compute; eexists; reflexivity].
    apply (reach_columns 2 empty_app _ [[(0, 0)]; [(0, 1)]] reach_init). reflexivity. }
  split; [exact Hr | exact (reachable_wf _ Hr)].
Defined.

(** C20: In every reachable state, [st.markdown] and [st.line_chart]
    always place their element: the runtime never loses one. *)
Theorem reachable_emit (a : app) (n : node) :
  reachable a → ∃ a', emit n a = Some (Ok a') ∧
    container_at (current a) (app_main a') = (λ x, x ++ [n]) <$> container_at (current a) (app_main a).
Proof.
  intros Hr. destruct (container_at_current a (reachable_stack_wf a Hr)) as [x Hx].
  destruct (append_at_some _ n _ _ Hx) as (m & Happ & Hm).
  unfold emit. rewrite Happ. eexists; split; [reflexivity|]. simpl. by rewrite Hm, Hx.
Qed.

Lemma reachable_emit_witness :
  reachable empty_app ∧
  ∃ a', emit (NLeaf (EMarkdown "x")) empty_app = Some (Ok a') ∧
    container_at (current empty_app) (app_main a') =
      (λ x, x ++ [NLeaf (EMarkdown "x")]) <$> container_at (current empty_app) (app_main empty_app).
Proof.
  split; [constructor | exact (reachable_emit empty_app _ reach_init)].
Defined.

(** ** The two headers *)

(** The text before and after the one field [{time}] of a template. *)
Definition field_split (t : string) : string * string :=
  match String.index 0 "{time}" t with
  | Some n => (String.substring 0 n t, String.substring (n + 6) (String.length t - n - 6) t)
  | None => (t, "")
  end.

Lemma fish_template_parts :
  fish_header_template =
    escape_braces (field_split fish_header_template).1 +:+ "{" +:+ "time" +:+ "}" +:+
    escape_braces (field_split fish_header_template).2.
Proof. vm_compute. reflexivity. Qed.

Lemma plant_template_parts :
  plant_header_template =
    escape_braces (field_split plant_header_template).1 +:+ "{" +:+ "time" +:+ "}" +:+
    escape_braces (field_split plant_header_template).2.
Proof. vm_compute. reflexivity. Qed.

(** A template of this shape renders the clock text between its two
    literal parts. *)
Lemma header_of_parts (t : string) (now : datetime) :
  t = escape_braces (field_split t).1 +:+ "{" +:+ "time" +:+ "}" +:+ escape_braces (field_split t).2 →
  header t now = Some (Ok ((field_split t).1 +:+
    (fmt_0d 2 (hour12 (dt_hour now)) +:+ ":" +:+ fmt_0d 2 (dt_minute now) +:+ ":" +:+
     fmt_0d 2 (dt_second now) +:+ " " +:+ ampm (dt_hour now)) +:+ (field_split t).2)).
Proof.
  intros Ht. unfold header. rewrite PyDatetimeFacts.strftime_clock, lift_bind_Ok.
  rewrite Ht at 1. apply StrFormatFacts.format_field_eq; reflexivity.
Qed.

(** ** The page one run produces *)

(** The page tree of a run, from the two frames and the two headers. *)
Definition page_tree (fdf pdf : frame) (hf hp : string) : list node :=
  [NLeaf (EMarkdown (clean_text page_css)); NLeaf (EMarkdown (clean_text top_bar_html));
   NLeaf (EMarkdown (clean_text hero_html)); NLeaf (EMarkdown (clean_text sensors_html));
   NColumns [[NLeaf (EMarkdown (clean_text hf)); NLeaf (ELineChart (line_chart fdf 220));
              NLeaf (EMarkdown (clean_text closing_div))];
             [NLeaf (EMarkdown (clean_text hp)); NLeaf (ELineChart (line_chart pdf 220));
              NLeaf (EMarkdown (clean_text closing_div))]]].

(** The layout of a successful run, for the rendering proofs. *)
Lemma run_script_layout_eq (now : datetime) :
  dt_wf now → (20 * HOUR_US <= dt_total now)%Z →
  ∃ a fdf pdf hf hp,
    run_script now = Some (Ok a) ∧
    fish_df now = Ok fdf ∧ plant_df now = Ok pdf ∧
    header fish_header_template now = Some (Ok hf) ∧
    header plant_header_template now = Some (Ok hp) ∧
    app_config a = Some ("Aquaponics — Preview", "wide") ∧ app_stack a = [] ∧
    app_main a = page_tree fdf pdf hf hp.
Proof.
  intros Hw Hge.
  pose proof (SeriesFacts.time_points_eq now Hw Hge) as Htp.
  destruct (FrameFacts.health_frame_ok (map dt_of_total (SeriesFacts.point_totals now)) Series.fish_scores)
    as (fdf & Hf & _); [reflexivity|].
  destruct (FrameFacts.health_frame_ok (map dt_of_total (SeriesFacts.point_totals now)) Series.plant_scores)
    as (pdf & Hp & _); [reflexivity|].
  pose proof (header_of_parts _ now fish_template_parts) as Hhf.
  pose proof (header_of_parts _ now plant_template_parts) as Hhp.
  do 5 eexists. split; [|split; [|split; [|split; [|split]]]].
  5: exact Hhp. 4: exact Hhf.
  3: { unfold plant_df. rewrite Htp. exact Hp. }
  2: { unfold fish_df. rewrite Htp. exact Hf. }
  { unfold run_script. rewrite Htp. cbn -[clean_text line_chart health_frame header map SeriesFacts.point_totals dt_of_total Series.fish_scores Series.plant_scores fish_header_template plant_header_template page_css top_bar_html hero_html sensors_html].
    rewrite Hf, Hp. cbn -[clean_text line_chart health_frame header map SeriesFacts.point_totals dt_of_total Series.fish_scores Series.plant_scores fish_header_template plant_header_template page_css top_bar_html hero_html sensors_html].
    rewrite Hhf, Hhp. cbn -[clean_text line_chart health_frame header map SeriesFacts.point_totals dt_of_total Series.fish_scores Series.plant_scores fish_header_template plant_header_template page_css top_bar_html hero_html sensors_html]. reflexivity. }
  split; [reflexivity | split; reflexivity].
Qed.

(** C21: A run with a clock at least twenty hours into the datetime range
    succeeds; it configures the page ("Aquaponics — Preview", wide), shows
    the style sheet, the top bar, the hero and the sensor cards in that
    order, then one block of two columns holding, each, its header, its
    220-pixel chart and the closing markdown; no container is left open. *)
Theorem run_script_layout (now : datetime) :
  dt_wf now → (20 * HOUR_US <= dt_total now)%Z →
  ∃ a fdf pdf hf hp,
    run_script now = Some (Ok a) ∧
    fish_df now = Ok fdf ∧ plant_df now = Ok pdf ∧
    header fish_header_template now = Some (Ok hf) ∧
    header plant_header_template now = Some (Ok hp) ∧
    app_config a = Some ("Aquaponics — Preview", "wide") ∧ app_stack a = [] ∧
    app_main a = page_tree fdf pdf hf hp.
Proof. intros. by apply run_script_layout_eq. Qed.

Lemma run_script_layout_witness :
  let now := mk_dt 739000 14 5 9 123 in
  dt_wf now ∧ (20 * HOUR_US <= dt_total now)%Z ∧
  ∃ a fdf pdf hf hp,
    run_script now = Some (Ok a) ∧
    fish_df now = Ok fdf ∧ plant_df now = Ok pdf ∧
    header fish_header_template now = Some (Ok hf) ∧
    header plant_header_template now = Some (Ok hp) ∧
    app_config a = Some ("Aquaponics — Preview", "wide") ∧ app_stack a = [] ∧
    app_main a = page_tree fdf pdf hf hp.
Proof.
  cbv zeta. assert (dt_wf (mk_dt 739000 14 5 9 123)) as Hw
    by (unfold dt_wf, MAXORDINAL, US_PER_SECOND; simpl; lia).
  assert (20 * HOUR_US <= dt_total (mk_dt 739000 14 5 9 123))%Z as Hge by (vm_compute; discriminate).
  split; [exact Hw | split; [exact Hge | exact (run_script_layout _ Hw Hge)]].
Defined.

(** The error path of a run, for the proofs below. *)
Lemma run_script_raise (now : datetime) :
  dt_wf now → (dt_total now < 20 * HOUR_US)%Z →
  run_script now = Some (Raise (OverflowError "date value out of range")).
Proof.
  intros Hw Hlt. unfold run_script.
  rewrite (SeriesFacts.time_points_raise now Hw Hlt). cbn -[clean_text line_chart health_frame header map SeriesFacts.point_totals dt_of_total Series.fish_scores Series.plant_scores fish_header_template plant_header_template page_css top_bar_html hero_html sensors_html]. reflexivity.
Qed.

(** C22: A run whose clock is less than twenty hours into the datetime
    range stops at line 262 with [OverflowError("date value out of
    range")], after the page configuration and the style sheet. *)
Theorem run_script_overflow (now : datetime) :
  dt_wf now → (dt_total now < 20 * HOUR_US)%Z →
  run_script now = Some (Raise (OverflowError "date value out of range")).
Proof. intros. by apply run_script_raise. Qed.

Lemma run_script_overflow_witness :
  dt_wf (mk_dt 1 3 0 0 0) ∧ (dt_total (mk_dt 1 3 0 0 0) < 20 * HOUR_US)%Z ∧
  run_script (mk_dt 1 3 0 0 0) = Some (Raise (OverflowError "date value out of range")).
Proof.
  assert (dt_wf (mk_dt 1 3 0 0 0)) as Hw by (unfold dt_wf, MAXORDINAL, US_PER_SECOND; simpl; lia).
  assert (dt_total (mk_dt 1 3 0 0 0) < 20 * HOUR_US)%Z as Hlt by (vm_compute; reflexivity).
  split; [exact Hw | split; [exact Hlt | exact (run_script_overflow _ Hw Hlt)]].
Defined.

(** C23: The clock is read once: both "Last checked" headers show the same
    clock text, [now.strftime("%I:%M:%S %p")], between the fixed text of
    their templates. *)
Theorem headers_share_clock (now : datetime) :
  ∃ clock, strftime now clock_format ⇓ clock ∧
    header fish_header_template now =
      Some (Ok ((field_split fish_header_template).1 +:+ clock +:+ (field_split fish_header_template).2)) ∧
    header plant_header_template now =
      Some (Ok ((field_split plant_header_template).1 +:+ clock +:+ (field_split plant_header_template).2)).
Proof.
  eexists. split; [apply PyDatetimeFacts.strftime_clock|].
  split; apply header_of_parts; [apply fish_template_parts | apply plant_template_parts].
Qed.

End PageFacts.
