(* ===== verification/Render.v ===== *)
(** * What the browser makes of the page

    First the two health panels.  Each health column (lines 402-428 and 430-456) writes three elements:
    a markdown header that opens [<div class="panel">] and never closes it,
    the line chart, and a markdown element that is only ["</div>"].  The
    code opens the panel before the chart and closes it after, so it
    needs the closing element to close the header's [<div>].  The browser parses each
    element's HTML on its own ([Html]): the header's panel is closed at
    the end of the header element, before the chart, and the lone
    ["</div>"] has no open element to close and is ignored.

    The theorems hold for every clock value: [TextFacts.clean_text_insert_eq]
    shows that the cleaning of the header leaves the inserted clock text
    alone, and [HtmlFacts.tokens_insert] that the clock text adds no tag.

    Then the page as a whole ([page_bodies]): the classes of the elements
    the browser builds for all its markdown, checked against the rules of
    the style sheet ([Css.sheet_classes]), and its buttons. *)

From S2P Require Import Prelude PyDatetime Series Frame Chart StrFormat Text Markdown Html Markup Css Page.

Module Render.
Import PyDatetime PyDatetimeFacts StrFormat Text TextFacts Markdown Html HtmlFacts Markup Css CssFacts Page PageFacts.

(** The clock text neither breaks a line nor opens a tag. *)
Lemma clock_char_plain (s : string) :
  forallb clock_char (String.list_ascii_of_string s) = true →
  no_nl s ∧ forallb (λ c, negb (Ascii.eqb c "<")) (String.list_ascii_of_string s) = true.
Proof.
  intros H. rewrite forallb_forall in H. split.
  - apply Forall_forall. intros c Hc%list_elem_of_In ->. specialize (H _ Hc). discriminate.
  - apply forallb_forall. intros c Hc. specialize (H _ Hc).
    destruct (Ascii.eqb_spec c "<") as [->|]; [discriminate | done].
Qed.

(** The tokens of a body that is one HTML block with a fragment without
    [<] in the middle. *)
Lemma element_tokens_insert (cp m cq : string) (ta : list token) :
  md_blocks (cp +:+ m +:+ cq) = Some [BHtml 6 (split_lines (cp +:+ m +:+ cq))] →
  tok_go TData cp = (ta, TData) →
  forallb (λ c, negb (Ascii.eqb c "<")) (String.list_ascii_of_string m) = true →
  element_tokens (cp +:+ m +:+ cq) = Some (ta ++ tokens (cq +:+ String NL "")).
Proof.
  intros Hmd Htok Hlt. unfold element_tokens, element_html. rewrite Hmd.
  cbn -[tokens join_lines split_lines].
  rewrite string_app_nil_r, join_split_lines_eq, !string_app_assoc.
  by rewrite (tokens_insert _ _ _ _ Htok Hlt).
Qed.

(** Everything the browser gets from a header whose template cleans
    around its field: the header is one HTML block, its tokens are those
    of the cleaned pieces around the clock, and so is its outline. *)
Lemma header_rendered (t cp cq l1 l2 : string) (A B : list string) (ta : list token) (now : datetime) :
  tod_wf now →
  t = escape_braces (field_split t).1 +:+ "{" +:+ "time" +:+ "}" +:+ escape_braces (field_split t).2 →
  insert_parts (field_split t).1 (field_split t).2 = Some (cp, cq) →
  split_lines cp = A ++ [l1] → split_lines cq = l2 :: B → all_blank l1 = false →
  Markdown.MarkdownFacts.md_scan A Idle = Some ([], InHtml 6 A) →
  forallb (λ l, negb (is_blank l)) B = true →
  tok_go TData cp = (ta, TData) →
  ∃ hf, header t now = Some (Ok hf) ∧
        md_blocks (clean_text hf) = Some [BHtml 6 (split_lines (clean_text hf))] ∧
        element_tokens (clean_text hf) = Some (ta ++ tokens (cq +:+ String NL "")) ∧
        outline (clean_text hf) = fold_left tree_step (ta ++ tokens cq) (mk_outline [] 0).
Proof.
  intros Hw Ht Hi Hcp Hcq Hl1 Hscan HB Htok.
  destruct (clock_char_plain _ (clock_text_chars now Hw)) as [Hnl Hlt].
  eexists. split; [exact (header_of_parts t now Ht)|].
  rewrite (clean_text_insert_eq _ _ _ _ _ Hi Hnl).
  assert (md_blocks (cp +:+ _ +:+ cq) = Some [BHtml 6 (split_lines (cp +:+ _ +:+ cq))]) as Hmd
    by (by eapply Markdown.MarkdownFacts.md_blocks_insert).
  split; [exact Hmd|]. split.
  - by apply element_tokens_insert.
  - unfold outline. by rewrite (tokens_insert _ _ _ _ Htok Hlt).
Qed.

(** Instantiates [header_rendered] on a concrete template: the cleaned
    pieces around the clock, their lines and the tokens of the first are
    computed. *)
Ltac header_rendered_at t now Hw Hparts :=
  let v := eval vm_compute in (insert_parts (field_split t).1 (field_split t).2) in
  lazymatch v with
  | Some (?cp, ?cq) =>
      let w := eval vm_compute in (split_last (split_lines cp)) in
      let u := eval vm_compute in (split_lines cq) in
      let ta := eval vm_compute in (tok_go TData cp).1 in
      lazymatch w with
      | Some (?A, ?l1) =>
          lazymatch u with
          | ?l2 :: ?B =>
              destruct (header_rendered t cp cq l1 l2 A B ta now Hw Hparts)
                as (hf & Hh & Hmd & Htk & Ho);
              [vm_compute; reflexivity .. |]
          end
      end
  end.

Lemma fish_header_rendered (now : datetime) :
  tod_wf now →
  ∃ hf, header fish_header_template now = Some (Ok hf) ∧
    md_blocks (clean_text hf) = Some [BHtml 6 (split_lines (clean_text hf))] ∧
    outline (clean_text hf) = mk_outline ["div"] 0 ∧
    start_classes <$> element_tokens (clean_text hf) =
      Some ["panel"; "health-header"; "health-title"; "health-sub"; "tag-healthy"; "soft-btn-row";
            "soft-btn"; "soft-btn-primary"; "soft-btn"; "soft-btn-outline"; "health-time"] ∧
    button_classes <$> element_tokens (clean_text hf) =
      Some [["soft-btn"; "soft-btn-primary"]; ["soft-btn"; "soft-btn-outline"]].
Proof.
  intros Hw. header_rendered_at fish_header_template now Hw fish_template_parts.
  exists hf. rewrite Htk, Ho. split; [exact Hh|]. split; [exact Hmd|].
  split; [|split]; vm_compute; reflexivity.
Qed.

Lemma plant_header_rendered (now : datetime) :
  tod_wf now →
  ∃ hp, header plant_header_template now = Some (Ok hp) ∧
    md_blocks (clean_text hp) = Some [BHtml 6 (split_lines (clean_text hp))] ∧
    outline (clean_text hp) = mk_outline ["div"] 0 ∧
    start_classes <$> element_tokens (clean_text hp) =
      Some ["panel"; "health-header"; "health-title"; "health-sub"; "tag-healthy"; "soft-btn-row";
            "soft-btn"; "soft-btn-primary"; "soft-btn"; "soft-btn-outline"; "health-time"] ∧
    button_classes <$> element_tokens (clean_text hp) =
      Some [["soft-btn"; "soft-btn-primary"]; ["soft-btn"; "soft-btn-outline"]].
Proof.
  intros Hw. header_rendered_at plant_header_template now Hw plant_template_parts.
  exists hf. rewrite Htk, Ho. split; [exact Hh|]. split; [exact Hmd|].
  split; [|split]; vm_compute; reflexivity.
Qed.

(** C31: In the page of a successful run, each health column holds three
    sibling elements: the header, the chart and the ["</div>"] element.
    The browser leaves exactly the panel [<div>] of each header open at
    the end of the header element (so it closes it there, before the
    chart), and the ["</div>"] element opens nothing and has its only end
    tag ignored: the chart is never inside the panel. *)
Theorem panel_closed_before_chart (now : datetime) :
  dt_wf now → (20 * HOUR_US <= dt_total now)%Z →
  ∃ a fdf pdf hf hp,
    run_script now = Some (Ok a) ∧ app_main a = page_tree fdf pdf hf hp ∧
    outline (clean_text hf) = mk_outline ["div"] 0 ∧
    outline (clean_text hp) = mk_outline ["div"] 0 ∧
    outline (clean_text closing_div) = mk_outline [] 1.
Proof.
  intros Hw Hge.
  destruct (run_script_layout_eq now Hw Hge) as (a & fdf & pdf & hf & hp & Hr & _ & _ & Hf & Hp & _ & _ & Hm).
  destruct (fish_header_rendered now (dt_wf_tod now Hw)) as (hf' & Hf' & _ & Hof & _).
  destruct (plant_header_rendered now (dt_wf_tod now Hw)) as (hp' & Hp' & _ & Hop & _).
  rewrite Hf in Hf'. rewrite Hp in Hp'. injection Hf' as <-. injection Hp' as <-.
  exists a, fdf, pdf, hf, hp.
  split; [exact Hr|]. split; [exact Hm|]. split; [exact Hof|]. split; [exact Hop|].
  vm_compute. reflexivity.
Qed.

Lemma panel_closed_before_chart_witness :
  dt_wf (mk_dt 739000 14 5 9 123) ∧ (20 * HOUR_US <= dt_total (mk_dt 739000 14 5 9 123))%Z ∧
  ∃ a fdf pdf hf hp,
    run_script (mk_dt 739000 14 5 9 123) = Some (Ok a) ∧ app_main a = page_tree fdf pdf hf hp ∧
    outline (clean_text hf) = mk_outline ["div"] 0 ∧
    outline (clean_text hp) = mk_outline ["div"] 0 ∧
    outline (clean_text closing_div) = mk_outline [] 1.
Proof.
  assert (dt_wf (mk_dt 739000 14 5 9 123)) as Hw by (unfold dt_wf, MAXORDINAL, US_PER_SECOND; simpl; lia).
  assert (20 * HOUR_US <= dt_total (mk_dt 739000 14 5 9 123))%Z as Hge by (vm_compute; discriminate).
  split; [exact Hw | split; [exact Hge | exact (panel_closed_before_chart _ Hw Hge)]].
Defined.

(** C35: For every time of day, each health header reaches the browser as
    one CommonMark HTML block holding all its lines: the clock text
    inserted in its last lines neither ends the block nor starts another. *)
Theorem headers_single_html_block (now : datetime) :
  tod_wf now →
  ∃ hf hp, header fish_header_template now = Some (Ok hf) ∧
           header plant_header_template now = Some (Ok hp) ∧
           md_blocks (clean_text hf) = Some [BHtml 6 (split_lines (clean_text hf))] ∧
           md_blocks (clean_text hp) = Some [BHtml 6 (split_lines (clean_text hp))].
Proof.
  intros Hw.
  destruct (fish_header_rendered now Hw) as (hf & Hf & Hmf & _).
  destruct (plant_header_rendered now Hw) as (hp & Hp & Hmp & _).
  exists hf, hp. repeat split; assumption.
Qed.

Lemma headers_single_html_block_witness :
  tod_wf (mk_dt 739000 0 0 0 0) ∧
  ∃ hf hp, header fish_header_template (mk_dt 739000 0 0 0 0) = Some (Ok hf) ∧
           header plant_header_template (mk_dt 739000 0 0 0 0) = Some (Ok hp) ∧
           md_blocks (clean_text hf) = Some [BHtml 6 (split_lines (clean_text hf))] ∧
           md_blocks (clean_text hp) = Some [BHtml 6 (split_lines (clean_text hp))].
Proof.
  assert (tod_wf (mk_dt 739000 0 0 0 0)) as Hw by (unfold tod_wf, US_PER_SECOND; simpl; lia).
  split; [exact Hw | exact (headers_single_html_block _ Hw)].
Defined.

(** ** The page as a whole *)

(** The markdown bodies of a page tree, in document order. *)
Fixpoint node_bodies (n : node) : list string :=
  match n with
  | NLeaf (EMarkdown b) => [b]
  | NLeaf (ELineChart _) => []
  | NColumns cols => List.flat_map (List.flat_map node_bodies) cols
  end.

Definition page_bodies (ns : list node) : list string := List.flat_map node_bodies ns.

(** The classes of the elements the browser builds for the page's
    markdown, and the classes of its buttons. *)
Definition page_classes (ns : list node) : list string :=
  page_bodies ns ≫= (λ b, default [] (start_classes <$> element_tokens b)).

Definition page_buttons (ns : list node) : list (list string) :=
  page_bodies ns ≫= (λ b, default [] (button_classes <$> element_tokens b)).

Lemma page_bodies_tree (fdf pdf : Frame.frame) (hf hp : string) :
  page_bodies (page_tree fdf pdf hf hp) =
    [clean_text page_css; clean_text top_bar_html; clean_text hero_html; clean_text sensors_html;
     clean_text hf; clean_text closing_div; clean_text hp; clean_text closing_div].
Proof. reflexivity. Qed.

(** The page of a successful run, with what the browser makes of its two
    headers. *)
Lemma run_page (now : datetime) :
  dt_wf now → (20 * HOUR_US <= dt_total now)%Z →
  ∃ a fdf pdf hf hp, run_script now = Some (Ok a) ∧ app_main a = page_tree fdf pdf hf hp ∧
    start_classes <$> element_tokens (clean_text hf) =
      Some ["panel"; "health-header"; "health-title"; "health-sub"; "tag-healthy"; "soft-btn-row";
            "soft-btn"; "soft-btn-primary"; "soft-btn"; "soft-btn-outline"; "health-time"] ∧
    start_classes <$> element_tokens (clean_text hp) =
      Some ["panel"; "health-header"; "health-title"; "health-sub"; "tag-healthy"; "soft-btn-row";
            "soft-btn"; "soft-btn-primary"; "soft-btn"; "soft-btn-outline"; "health-time"] ∧
    button_classes <$> element_tokens (clean_text hf) =
      Some [["soft-btn"; "soft-btn-primary"]; ["soft-btn"; "soft-btn-outline"]] ∧
    button_classes <$> element_tokens (clean_text hp) =
      Some [["soft-btn"; "soft-btn-primary"]; ["soft-btn"; "soft-btn-outline"]].
Proof.
  intros Hw Hge.
  destruct (run_script_layout_eq now Hw Hge) as (a & fdf & pdf & hf & hp & Hr & _ & _ & Hf & Hp & _ & _ & Hm).
  destruct (fish_header_rendered now (dt_wf_tod now Hw)) as (hf' & Hf' & _ & _ & Hcf & Hbf).
  destruct (plant_header_rendered now (dt_wf_tod now Hw)) as (hp' & Hp' & _ & _ & Hcp & Hbp).
  rewrite Hf in Hf'. rewrite Hp in Hp'. injection Hf' as <-. injection Hp' as <-.
  exists a, fdf, pdf, hf, hp. repeat split; assumption.
Qed.

Definition header_classes : list string :=
  ["panel"; "health-header"; "health-title"; "health-sub"; "tag-healthy"; "soft-btn-row";
   "soft-btn"; "soft-btn-primary"; "soft-btn"; "soft-btn-outline"; "health-time"].

(** The classes and the buttons of the page of a successful run. *)
Lemma run_page_lists (now : datetime) :
  dt_wf now → (20 * HOUR_US <= dt_total now)%Z →
  ∃ a, run_script now = Some (Ok a) ∧
    page_classes (app_main a) =
      ["top-bar"; "brand-left"; "brand-icon"; "brand-title"; "brand-subtitle"; "top-buttons";
       "pill-btn"; "pill-primary"; "pill-btn"; "pill-secondary"; "panel"; "panel"] ++
      header_classes ++ header_classes ∧
    page_buttons (app_main a) =
      [["pill-btn"; "pill-primary"]; ["pill-btn"; "pill-secondary"];
       ["soft-btn"; "soft-btn-primary"]; ["soft-btn"; "soft-btn-outline"];
       ["soft-btn"; "soft-btn-primary"]; ["soft-btn"; "soft-btn-outline"]].
Proof.
  intros Hw Hge. destruct (run_page now Hw Hge) as (a & fdf & pdf & hf & hp & Hr & Hm & Hcf & Hcp & Hbf & Hbp).
  exists a. split; [exact Hr|]. unfold page_classes, page_buttons. rewrite Hm, page_bodies_tree.
  cbn [mbind list_bind]. rewrite Hcf, Hcp, Hbf, Hbp. split; vm_compute; reflexivity.
Qed.

Lemma forallb_in_list (L S : list string) :
  forallb (λ c, in_list c S) L = true → ∀ c, c ∈ L → c ∈ S.
Proof.
  rewrite forallb_forall. intros H c Hc%list_elem_of_In. specialize (H c Hc).
  unfold in_list in H. apply existsb_exists in H as (x & Hx & Heq%String.eqb_eq).
  subst. by apply list_elem_of_In.
Qed.

(** C36: Every class the browser finds on an element of the page has a
    rule in the style sheet of lines 16-256: the markup and the sheet
    agree, for every run that succeeds. *)
Theorem page_classes_styled (now : datetime) :
  dt_wf now → (20 * HOUR_US <= dt_total now)%Z →
  ∃ a, run_script now = Some (Ok a) ∧
    ∀ c, c ∈ page_classes (app_main a) → c ∈ sheet_classes (clean_text page_css).
Proof.
  intros Hw Hge. destruct (run_page_lists now Hw Hge) as (a & Hr & Hc & _).
  exists a. split; [exact Hr|]. rewrite Hc, sheet_classes_page. apply forallb_in_list.
  vm_compute. reflexivity.
Qed.

Lemma page_classes_styled_witness :
  dt_wf (mk_dt 739000 14 5 9 123) ∧ (20 * HOUR_US <= dt_total (mk_dt 739000 14 5 9 123))%Z ∧
  ∃ a, run_script (mk_dt 739000 14 5 9 123) = Some (Ok a) ∧
    ∀ c, c ∈ page_classes (app_main a) → c ∈ sheet_classes (clean_text page_css).
Proof.
  assert (dt_wf (mk_dt 739000 14 5 9 123)) as Hw by (unfold dt_wf, MAXORDINAL, US_PER_SECOND; simpl; lia).
  assert (20 * HOUR_US <= dt_total (mk_dt 739000 14 5 9 123))%Z as Hge by (vm_compute; discriminate).
  split; [exact Hw | split; [exact Hge | exact (page_classes_styled _ Hw Hge)]].
Defined.

(** C37: Twelve rules of the style sheet never apply: the summary cards
    ([summary-*]) and the sensor cards ([sensor-*]) are shown as code text
    (the rule of C24 opens a code block at lines 306 and 341, and by C14
    a code block yields no element), so no element of the page carries
    their classes; the only other unused class is Streamlit's own
    [stApp]. *)
Theorem unused_style_rules (now : datetime) :
  dt_wf now → (20 * HOUR_US <= dt_total now)%Z →
  ∃ a, run_script now = Some (Ok a) ∧
    List.filter (λ c, negb (in_list c (page_classes (app_main a)))) (sheet_classes (clean_text page_css)) =
      ["stApp"; "summary-row"; "summary-card"; "summary-label"; "summary-value"; "summary-sub";
       "sensor-grid"; "sensor-card"; "sensor-badge"; "sensor-title"; "sensor-value"; "sensor-unit";
       "sensor-bar"].
Proof.
  intros Hw Hge. destruct (run_page_lists now Hw Hge) as (a & Hr & Hc & _).
  exists a. split; [exact Hr|]. rewrite Hc, sheet_classes_page. vm_compute. reflexivity.
Qed.

Lemma unused_style_rules_witness :
  dt_wf (mk_dt 739000 14 5 9 123) ∧ (20 * HOUR_US <= dt_total (mk_dt 739000 14 5 9 123))%Z ∧
  ∃ a, run_script (mk_dt 739000 14 5 9 123) = Some (Ok a) ∧
    List.filter (λ c, negb (in_list c (page_classes (app_main a)))) (sheet_classes (clean_text page_css)) =
      ["stApp"; "summary-row"; "summary-card"; "summary-label"; "summary-value"; "summary-sub";
       "sensor-grid"; "sensor-card"; "sensor-badge"; "sensor-title"; "sensor-value"; "sensor-unit";
       "sensor-bar"].
Proof.
  assert (dt_wf (mk_dt 739000 14 5 9 123)) as Hw by (unfold dt_wf, MAXORDINAL, US_PER_SECOND; simpl; lia).
  assert (20 * HOUR_US <= dt_total (mk_dt 739000 14 5 9 123))%Z as Hge by (vm_compute; discriminate).
  split; [exact Hw | split; [exact Hge | exact (unused_style_rules _ Hw Hge)]].
Defined.

(** C38: The page's buttons are six plain [<button>] elements of the
    markdown HTML, two in the top bar ("Preview Dark", "Logout") and two in
    each health panel ("Run Scan", "Download Report"), with their style
    classes.  No call of the script creates a widget for them
    ([st.button] is never called), so they have no effect on a run. *)
Theorem page_buttons_inert (now : datetime) :
  dt_wf now → (20 * HOUR_US <= dt_total now)%Z →
  ∃ a, run_script now = Some (Ok a) ∧
    page_buttons (app_main a) =
      [["pill-btn"; "pill-primary"]; ["pill-btn"; "pill-secondary"];
       ["soft-btn"; "soft-btn-primary"]; ["soft-btn"; "soft-btn-outline"];
       ["soft-btn"; "soft-btn-primary"]; ["soft-btn"; "soft-btn-outline"]].
Proof.
  intros Hw Hge. destruct (run_page_lists now Hw Hge) as (a & Hr & _ & Hb).
  exists a. split; assumption.
Qed.

Lemma page_buttons_inert_witness :
  dt_wf (mk_dt 739000 14 5 9 123) ∧ (20 * HOUR_US <= dt_total (mk_dt 739000 14 5 9 123))%Z ∧
  ∃ a, run_script (mk_dt 739000 14 5 9 123) = Some (Ok a) ∧
    page_buttons (app_main a) =
      [["pill-btn"; "pill-primary"]; ["pill-btn"; "pill-secondary"];
       ["soft-btn"; "soft-btn-primary"]; ["soft-btn"; "soft-btn-outline"];
       ["soft-btn"; "soft-btn-primary"]; ["soft-btn"; "soft-btn-outline"]].
Proof.
  assert (dt_wf (mk_dt 739000 14 5 9 123)) as Hw by (unfold dt_wf, MAXORDINAL, US_PER_SECOND; simpl; lia).
  assert (20 * HOUR_US <= dt_total (mk_dt 739000 14 5 9 123))%Z as Hge by (vm_compute; discriminate).
  split; [exact Hw | split; [exact Hge | exact (page_buttons_inert _ Hw Hge)]].
Defined.

End Render.
